(** * politibot: scoring engine and position manager

    A shallow embedding of [scoring/engine.py] (TradeScorer,
    PoliticianScorer, ClusterDetector, SignalEngine) and of
    [execution/trader.py] (PolitibotTrader), with the one sizing line of
    [main.py] (PaperTrader.try_buy) that the specification also refers to.
    Further down it also embeds [portfolio_summary], the amount parsers,
    [fetch_all] and [fetch_recent] of the fetcher, the execution loop of
    [bot.py], and [score_trades] and the PaperTrader of [main.py].

    Modelling conventions.
    - Python [float] values are modelled by exact rationals [Q]; comparisons
      are the boolean comparisons of [Q] (which respect [Qeq], as Python
      compares floats by value).  [round(x, n)] is decimal rounding to [n]
      places, ties to even; [int(x)] truncates toward zero.  NaN and
      infinities are outside the model.
    - Python [int] is [Z]; [//] is [Z.div].
    - [datetime.date] is the day's ordinal as a [Z]; [date.today()] is an
      explicit argument.
    - [str] is [string]; [str.lower] is modelled on ASCII letters.
    - f-string reasons are kept as constructors that carry the interpolated
      values instead of the rendered text.
    - A [dict] is an association list with distinct keys in insertion order
      (the iteration order of a Python dict). *)

From Stdlib Require Import ZArith QArith Qround Lia Lqa Bool List String Ascii.
From Stdlib Require Import Sorting.Sorted Sorting.Permutation.
Import ListNotations.

Local Open Scope Q_scope.

(* ------------------------------------------------------------------ *)
(** ** Numbers *)

Module Py.

(** Nearest integer, ties to the even neighbour. *)
Definition round_half_even (x : Q) : Z :=
  let f := Qfloor x in
  match Qcompare (x - inject_Z f) (1 # 2) with
  | Lt => f
  | Gt => (f + 1)%Z
  | Eq => if Z.even f then f else (f + 1)%Z
  end.

Definition scale (ndigits : nat) : positive := Z.to_pos (10 ^ Z.of_nat ndigits).

(** [round(x, ndigits)] on a float. *)
Definition round (x : Q) (ndigits : nat) : Q :=
  Qmake (round_half_even (x * (Zpos (scale ndigits) # 1))) (scale ndigits).

(** [int(x)] on a float: truncation toward zero. *)
Definition int (x : Q) : Z := Z.quot (Qnum x) (Zpos (Qden x)).

Definition Qlt_bool (x y : Q) : bool := negb (Qle_bool y x).

(** [min(a, b)] on floats: the first argument unless the second is smaller. *)
Definition min (a b : Q) : Q := if Qlt_bool b a then b else a.

(** Truthiness of a float: [not x] holds exactly for zero. *)
Definition truthy (x : Q) : bool := negb (Qeq_bool x 0).

(** [c.lower()] on one ASCII character. *)
Definition lower_ascii (c : ascii) : ascii :=
  let n := nat_of_ascii c in
  if (65 <=? n)%nat && (n <=? 90)%nat then ascii_of_nat (n + 32) else c.

Fixpoint lower (s : string) : string :=
  match s with
  | EmptyString => EmptyString
  | String c r => String (lower_ascii c) (lower r)
  end.

(** [p in s] on strings. *)
Fixpoint contains (p s : string) : bool :=
  prefix p s ||
  match s with
  | EmptyString => false
  | String _ r => contains p r
  end.

(** [x in l] on a list of strings. *)
Definition mem (x : string) (l : list string) : bool :=
  existsb (String.eqb x) l.

(** [d.get(k)] on a dict with string keys. *)
Fixpoint get {V : Type} (d : list (string * V)) (k : string) : option V :=
  match d with
  | [] => None
  | (k', v) :: r => if String.eqb k' k then Some v else get r k
  end.

(** [del d[k]]. *)
Fixpoint del {V : Type} (d : list (string * V)) (k : string) : list (string * V) :=
  match d with
  | [] => []
  | (k', v) :: r => if String.eqb k' k then r else (k', v) :: del r k
  end.

(** [d[k] = v]: replaces in place, or appends a new key at the end. *)
Fixpoint set {V : Type} (d : list (string * V)) (k : string) (v : V) : list (string * V) :=
  match d with
  | [] => [(k, v)]
  | (k', v') :: r => if String.eqb k' k then (k', v) :: r else (k', v') :: set r k v
  end.

(** [set(l)] followed by [list(...)]: the distinct elements.  Python leaves
    the order of a set unspecified (it depends on the hash seed); first
    occurrences are kept here as one representative of that order; what is
    stated about the stored names is stated up to permutation. *)
Fixpoint distinct (l : list string) : list string :=
  match l with
  | [] => []
  | x :: r => x :: filter (fun y => negb (String.eqb x y)) (distinct r)
  end.

(** [d.get(k, default)] *)
Definition get_default {V : Type} (d : list (string * V)) (k : string) (default : V) : V :=
  match get d k with
  | Some v => v
  | None => default
  end.

(** [k in d] on a dict. *)
Definition has_key {V : Type} (d : list (string * V)) (k : string) : bool :=
  match get d k with
  | Some _ => true
  | None => false
  end.

(** [d[k].append(x)] on a [defaultdict(list)]. *)
Fixpoint append_to {V : Type} (d : list (string * list V)) (k : string) (x : V)
  : list (string * list V) :=
  match d with
  | [] => [(k, [x])]
  | (k', v) :: r =>
      if String.eqb k' k then (k', v ++ [x]) :: r else (k', v) :: append_to r k x
  end.

(** [sum(...)] over integers. *)
Definition sum (l : list Z) : Z := fold_left Z.add l 0%Z.

End Py.

(* ------------------------------------------------------------------ *)
(** ** data/fetcher.py: PoliticianTrade *)

Record PoliticianTrade : Type := mkTrade {
  trade_id : string;
  politician : string;
  chamber : string;
  party : string;
  state : string;
  symbol : string;
  asset_name : string;
  trade_type : string;
  amount_low : Z;
  amount_high : Z;
  transaction_date : Z;
  disclosure_date : Z;
  filing_delay_days : Z;
  is_option : bool;
  committee : string;
  notes : string
}.

Definition avg_amount (t : PoliticianTrade) : Z :=
  ((amount_low t + amount_high t) / 2)%Z.

Definition is_late (t : PoliticianTrade) : bool :=
  (45 <? filing_delay_days t)%Z.

Definition is_suspiciously_late (t : PoliticianTrade) : bool :=
  (90 <? filing_delay_days t)%Z.

(** ["purchase" in trade.trade_type.lower()] *)
Definition is_purchase (t : PoliticianTrade) : bool :=
  Py.contains "purchase"%string (Py.lower (trade_type t)).

Local Open Scope string_scope.
Local Open Scope list_scope.

(* ------------------------------------------------------------------ *)
(** ** scoring/engine.py *)

Record Profile : Type := mkProfile {
  historical_alpha : option Q;
  sectors : list string;
  trust_score : Z;
  late_filer : bool
}.

Definition POLITICIAN_PROFILES : list (string * Profile) :=
  [ ("Nancy Pelosi",     mkProfile (Some (92 # 100)) ["tech"; "pharma"] 95 false);
    ("Dan Crenshaw",     mkProfile (Some (71 # 100)) ["defense"; "energy"] 72 true);
    ("Tommy Tuberville", mkProfile (Some (68 # 100)) ["defense"] 70 true);
    ("Josh Gottheimer",  mkProfile (Some (65 # 100)) ["fintech"; "banking"] 65 false);
    ("Michael McCaul",   mkProfile (Some (60 # 100)) ["tech"; "defense"] 62 true) ].

Definition COMMITTEE_SECTOR_MAP : list (string * list string) :=
  [ ("Armed Services", ["LMT"; "RTX"; "NOC"; "BA"; "GD"; "HII"; "LDOS"; "CACI"; "SAIC"]);
    ("Financial Services", ["JPM"; "BAC"; "GS"; "MS"; "V"; "MA"; "SQ"; "PYPL"]);
    ("Banking", ["JPM"; "BAC"; "WFC"; "C"; "USB"; "PNC"]);
    ("Energy and Commerce", ["UNH"; "CVS"; "CI"; "HUM"; "CNC"]);
    ("Science, Space, and Technology", ["NVDA"; "AMD"; "INTC"; "MSFT"; "GOOGL"; "META"]);
    ("Energy", ["XOM"; "CVX"; "COP"; "SLB"; "HAL"; "EOG"]);
    ("Agriculture", ["DE"; "ADM"; "BG"; "MOS"; "NTR"]) ].

(** The reason strings, one constructor per f-string template. *)
Inductive reason : Type :=
| R_sale                                   (* Salg — ignorer for kjøpssignal *)
| R_mega (amount : Z)                      (* Mega-handel: $.. *)
| R_stor (amount : Z)                      (* Stor handel: $.. *)
| R_medium (amount : Z)                    (* Medium handel: $.. *)
| R_liten (amount : Z)                     (* Liten handel: $.. *)
| R_option                                 (* Opsjon kjøpt *)
| R_suspiciously_late (days : Z)           (* .. dager forsinket *)
| R_late (days : Z)                        (* Sein: .. dager *)
| R_committee (name : string)              (* Handel i egen komité (..) *)
| R_cluster (count : nat) (sym : string)   (* KLYNGE: .. politikere kjøpte .. *)
| R_cluster_politicians (names : list string)
| R_cluster_total (amount : Z)
| R_known_politician (name : string) (score : Q).

Record TradeSignal : Type := mkSignal {
  trade : PoliticianTrade;
  total_score : Q;
  politician_score : Q;
  trade_score : Q;
  cluster_score : Q;
  recommendation : string;
  reasons : list reason;
  urgency : string;
  suggested_position_size : string
}.

Module PoliticianScorer.

Definition late_count (politician_name : string) (trades_history : list PoliticianTrade) : nat :=
  List.length (filter (fun t => is_late t && String.eqb (politician t) politician_name)
                 trades_history).

(** The local [reasons] list of the source is built and dropped; only the
    points are returned. *)
Definition score (politician_name : string) (trades_history : list PoliticianTrade) : Q :=
  let pts := 0%Q in
  let pts :=
    match Py.get POLITICIAN_PROFILES politician_name with
    | Some profile =>
        let alpha := match historical_alpha profile with
                     | Some a => a
                     | None => (5 # 10)%Q
                     end in
        (pts + alpha * 35)%Q
    | None => pts
    end in
  let pts :=
    if (5 <? late_count politician_name trades_history)%nat then (pts + 5)%Q else pts in
  Py.min pts 40.

End PoliticianScorer.

Module TradeScorer.

Definition score (t : PoliticianTrade) : Q * list reason :=
  let pts := 0%Q in
  let reasons : list reason := [] in
  if negb (is_purchase t) then (0%Q, [R_sale]) else
  let '(pts, reasons) :=
    if (1000000 <=? avg_amount t)%Z then ((pts + 15)%Q, reasons ++ [R_mega (avg_amount t)])
    else if (250000 <=? avg_amount t)%Z then ((pts + 10)%Q, reasons ++ [R_stor (avg_amount t)])
    else if (50000 <=? avg_amount t)%Z then ((pts + 5)%Q, reasons ++ [R_medium (avg_amount t)])
    else ((pts + 2)%Q, reasons ++ [R_liten (avg_amount t)]) in
  let '(pts, reasons) :=
    if is_option t then ((pts + 8)%Q, reasons ++ [R_option]) else (pts, reasons) in
  let '(pts, reasons) :=
    if is_suspiciously_late t
    then ((pts + 7)%Q, reasons ++ [R_suspiciously_late (filing_delay_days t)])
    else if is_late t
    then ((pts + 4)%Q, reasons ++ [R_late (filing_delay_days t)])
    else (pts, reasons) in
  let '(pts, reasons) :=
    if negb (String.eqb (committee t) "")
       && Py.mem (symbol t) (Py.get_default COMMITTEE_SECTOR_MAP (committee t) [])
    then ((pts + 10)%Q, reasons ++ [R_committee (committee t)])
    else (pts, reasons) in
  (Py.min pts 40, reasons).

End TradeScorer.

Record Cluster : Type := mkCluster {
  count : nat;
  politicians : list string;
  total_amount : Z;
  trades : list PoliticianTrade;
  score : Z
}.

Module ClusterDetector.

(** The body of the loop over [clusters.items()].  The list under
    ["politicians"] is [list(unique_politicians)], in the order of the set;
    see [Py.distinct]. *)
Definition record_cluster (result : list (string * Cluster))
           (item : string * list PoliticianTrade) : list (string * Cluster) :=
  let '(sym, symbol_trades) := item in
  let unique_politicians := Py.distinct (map politician symbol_trades) in
  if (2 <=? List.length unique_politicians)%nat then
    Py.set result sym
      (mkCluster (List.length unique_politicians)
                 unique_politicians
                 (Py.sum (map avg_amount symbol_trades))
                 symbol_trades
                 (Z.min (Z.of_nat (List.length unique_politicians) * 8) 20))
  else result.

Definition detect_clusters (today : Z) (all_trades : list PoliticianTrade) (window_days : Z)
  : list (string * Cluster) :=
  let purchases := filter is_purchase all_trades in
  let cutoff := (today - window_days)%Z in
  let recent := filter (fun t => (cutoff <=? transaction_date t)%Z) purchases in
  let clusters := fold_left (fun cl t => Py.append_to cl (symbol t) t) recent [] in
  fold_left record_cluster clusters [].

Definition score_for_symbol (sym : string) (clusters : list (string * Cluster))
  : Q * list reason :=
  match Py.get clusters sym with
  | None => (0%Q, [])
  | Some c =>
      (inject_Z (score c),
       [ R_cluster (count c) sym;
         R_cluster_politicians (firstn 5 (politicians c));
         R_cluster_total (total_amount c) ])
  end.

End ClusterDetector.

Module SignalEngine.

Definition MIN_SCORE_FOR_SIGNAL : Q := 40.

(** The dedup key [f"{trade.symbol}_{trade.transaction_date}"].  The date is
    rendered as ten characters (YYYY-MM-DD), so the text determines the pair
    and the pair is kept instead of the text. *)
Definition dedup_key (t : PoliticianTrade) : string * Z :=
  (symbol t, transaction_date t).

Definition key_eqb (a b : string * Z) : bool :=
  String.eqb (fst a) (fst b) && (snd a =? snd b)%Z.

Definition key_in (k : string * Z) (seen : list (string * Z)) : bool :=
  existsb (key_eqb k) seen.

(** The part of the loop body after [seen_symbols.add(dedup_key)]: the
    signal appended for the trade, or [None] where the body runs into a
    [continue]. *)
Definition evaluate (clusters : list (string * Cluster))
           (all_history : list PoliticianTrade) (t : PoliticianTrade)
  : option TradeSignal :=
  let pol_score := PoliticianScorer.score (politician t) all_history in
  let '(trade_pts, trade_reasons) := TradeScorer.score t in
  let '(cluster_pts, cluster_reasons) := ClusterDetector.score_for_symbol (symbol t) clusters in
  let total := (pol_score + trade_pts + cluster_pts)%Q in
  let all_reasons := trade_reasons ++ cluster_reasons in
  let all_reasons :=
    if Py.Qlt_bool 0 pol_score
    then R_known_politician (politician t) pol_score :: all_reasons
    else all_reasons in
  if Py.Qlt_bool total MIN_SCORE_FOR_SIGNAL then None else
  let emit rec urg size :=
    Some (mkSignal t (Py.round total 1) (Py.round pol_score 1)
                   (Py.round trade_pts 1) (Py.round cluster_pts 1)
                   rec all_reasons urg size) in
  if Qle_bool 80 total then emit "STRONG BUY" "IMMEDIATE" "FULL"
  else if Qle_bool 65 total then emit "BUY" "TODAY" "HALF"
  else if Qle_bool 40 total then emit "WATCH" "THIS_WEEK" "QUARTER"
  else None.

(** One iteration of [for trade in trades], on the pair of locals
    [(signals, seen_symbols)]. *)
Definition step (clusters : list (string * Cluster)) (all_history : list PoliticianTrade)
           (st : list TradeSignal * list (string * Z)) (t : PoliticianTrade)
  : list TradeSignal * list (string * Z) :=
  let '(signals, seen_symbols) := st in
  if negb (is_purchase t) then st else
  let key := dedup_key t in
  if key_in key seen_symbols then st else
  let seen_symbols := key :: seen_symbols in
  match evaluate clusters all_history t with
  | Some s => (signals ++ [s], seen_symbols)
  | None => (signals, seen_symbols)
  end.

(** [signals.sort(key=lambda s: s.total_score, reverse=True)]: the stable
    sort by descending key (a stable sort has one result, so the insertion
    sort below returns what Python's sort returns). *)
Fixpoint insert_desc (s : TradeSignal) (l : list TradeSignal) : list TradeSignal :=
  match l with
  | [] => [s]
  | y :: r =>
      if Qle_bool (total_score y) (total_score s) then s :: y :: r
      else y :: insert_desc s r
  end.

Definition sort_desc (l : list TradeSignal) : list TradeSignal :=
  fold_right insert_desc [] l.

(** The signals in the order they were appended, before the sort. *)
Definition produced (today : Z) (batch all_history : list PoliticianTrade)
  : list TradeSignal :=
  let clusters := ClusterDetector.detect_clusters today all_history 30 in
  fst (fold_left (step clusters all_history) batch ([], [])).

Definition generate_signals (today : Z) (batch all_history : list PoliticianTrade)
  : list TradeSignal :=
  sort_desc (produced today batch all_history).

End SignalEngine.

(* ------------------------------------------------------------------ *)
(** ** execution/trader.py *)

Definition SIZE_MULTIPLIERS : list (string * Q) :=
  [ ("FULL", 1%Q); ("HALF", (5 # 10)%Q); ("QUARTER", (25 # 100)%Q) ].

Record ExecutedTrade : Type := mkExecuted {
  signal : TradeSignal;
  shares : Z;
  entry_price : Q;
  stop_loss : Q;
  take_profit : Q;
  order_id : string;
  timestamp : string;
  mode : string;
  pnl : Q;
  is_open : bool
}.

Definition with_stop_loss (t : ExecutedTrade) (sl : Q) : ExecutedTrade :=
  mkExecuted (signal t) (shares t) (entry_price t) sl (take_profit t)
             (order_id t) (timestamp t) (mode t) (pnl t) (is_open t).

Definition with_close (t : ExecutedTrade) (p : Q) : ExecutedTrade :=
  mkExecuted (signal t) (shares t) (entry_price t) (stop_loss t) (take_profit t)
             (order_id t) (timestamp t) (mode t) p false.

(** What the trader asks of the outside world: the price source
    ([_get_price], [None] when no price could be fetched), the broker
    ([_submit_order], [None] when the call raises), the uuid fragment of a
    paper order id and the clock. *)
Record World : Type := mkWorld {
  get_price : string -> option Q;
  submit_order : string -> Z -> Q -> option string;
  uuid_hex8 : string;
  utcnow : string
}.

(** The result of a call that may return normally or raise. *)
Inductive outcome (A : Type) : Type :=
| Returned (a : A)
| Raised.
Arguments Returned {A} a.
Arguments Raised {A}.

Module PolitibotTrader.

Definition MAX_POSITIONS : nat := 5.
Definition RISK_PER_TRADE_PCT : Q := 2 # 100.
Definition STOP_LOSS_PCT : Q := 8 # 100.
Definition TAKE_PROFIT_PCT : Q := 20 # 100.
Definition TRAILING_STOP_PCT : Q := 12 # 100.

(** The fields of the object that the two methods read and write. *)
Record t : Type := mk {
  paper : bool;
  _positions : list (string * ExecutedTrade);
  _history : list ExecutedTrade;
  _equity : Q
}.

Definition init (initial_capital : Q) (paper_mode : bool) : t :=
  mk paper_mode [] [] initial_capital.

(** [SIZE_MULTIPLIERS.get(signal.suggested_position_size, 0.25)] *)
Definition multiplier_of (s : TradeSignal) : Q :=
  Py.get_default SIZE_MULTIPLIERS (suggested_position_size s) (25 # 100)%Q.

Definition execute_signal (w : World) (self : t) (s : TradeSignal)
  : outcome (option ExecutedTrade) * t :=
  let sym := symbol (trade s) in
  if (MAX_POSITIONS <=? List.length (_positions self))%nat then (Returned None, self) else
  if Py.has_key (_positions self) sym then (Returned None, self) else
  match get_price w sym with
  | None => (Returned None, self)
  | Some price =>
    if negb (Py.truthy price) then (Returned None, self) else
    let multiplier := multiplier_of s in
    let risk_dollars := (_equity self * RISK_PER_TRADE_PCT * multiplier)%Q in
    let sl := Py.round (price * (1 - STOP_LOSS_PCT))%Q 4 in
    let tp := Py.round (price * (1 + TAKE_PROFIT_PCT))%Q 4 in
    let per_share_risk := (price - sl)%Q in
    (* float division by zero raises ZeroDivisionError *)
    if Qeq_bool per_share_risk 0 then (Raised, self) else
    let n := Z.max 1 (Py.int (risk_dollars / per_share_risk)%Q) in
    let max_shares := Py.int ((_equity self * (10 # 100)) / price)%Q in
    let n := Z.min n max_shares in
    let order :=
      if paper self then Some ("paper-" ++ uuid_hex8 w)%string
      else submit_order w sym n price in
    match order with
    | None => (Raised, self)
    | Some oid =>
      let tr := mkExecuted s n price sl tp oid (utcnow w)
                           (if paper self then "paper" else "live") 0%Q true in
      let positions := Py.set (_positions self) sym tr in
      let equity :=
        if paper self then _equity self
        else (_equity self - inject_Z n * price)%Q in
      (Returned (Some tr), mk (paper self) positions (_history self) equity)
    end
  end.

(** The trailing-stop update of one position at one price. *)
Definition ratchet (price : Q) (tr : ExecutedTrade) : ExecutedTrade :=
  let new_sl := (price * (1 - TRAILING_STOP_PCT))%Q in
  if Py.Qlt_bool (stop_loss tr) new_sl
  then with_stop_loss tr (Py.round new_sl 4)
  else tr.

Definition exit_reason (price : Q) (tr : ExecutedTrade) : option string :=
  if Qle_bool price (stop_loss tr) then Some "stop_loss"
  else if Qle_bool (take_profit tr) price then Some "take_profit"
  else None.

(** One iteration of [for symbol, trade in list(self._positions.items())],
    on the object and the local [closed].  The trade object is mutated in
    place, so a changed stop is written back under its key. *)
Definition update_one (current_prices : list (string * Q))
           (st : t * list string) (item : string * ExecutedTrade) : t * list string :=
  let '(self, closed) := st in
  let '(sym, tr) := item in
  let price := Py.get_default current_prices sym (entry_price tr) in
  let tr := ratchet price tr in
  match exit_reason price tr with
  | Some _ =>
      let p := ((price - entry_price tr) * inject_Z (shares tr))%Q in
      let tr := with_close tr (Py.round p 2) in
      (mk (paper self)
          (Py.del (_positions self) sym)
          (_history self ++ [tr])
          (_equity self + price * inject_Z (shares tr))%Q,
       closed ++ [sym])
  | None =>
      (mk (paper self) (Py.set (_positions self) sym tr) (_history self) (_equity self),
       closed)
  end.

Definition update_positions (self : t) (current_prices : list (string * Q))
  : list string * t :=
  let '(self', closed) :=
    fold_left (update_one current_prices) (_positions self) (self, []) in
  (closed, self').

End PolitibotTrader.

(* ------------------------------------------------------------------ *)
(** ** main.py: the sizing line of PaperTrader.try_buy *)

Module PaperTrader.

(** [{"FULL": 1.0, "HALF": 0.5, "QUARTER": 0.25}.get(signal.size, 0.5)] *)
Definition multiplier_of (size : string) : Q :=
  Py.get_default [ ("FULL", 1%Q); ("HALF", (5 # 10)%Q); ("QUARTER", (25 # 100)%Q) ]
                 size (5 # 10)%Q.

(** [risk = self.cash * 0.02 * multiplier] *)
Definition risk (cash : Q) (size : string) : Q :=
  (cash * (2 # 100) * multiplier_of size)%Q.

End PaperTrader.

(* ------------------------------------------------------------------ *)
(** ** Reference definitions, written from the specification

    These follow the wording of the specification (sections 4.1, 4.2 and
    4.4) and are compared below with the functions embedded from the
    source. *)

Module Spec.

(** Size tiers on the average amount; the highest threshold met wins. *)
Definition size_bonus (avg : Z) : Q :=
  if (1000000 <=? avg)%Z then 15
  else if (250000 <=? avg)%Z then 10
  else if (50000 <=? avg)%Z then 5
  else 2.

Definition option_bonus (opt : bool) : Q := if opt then 8 else 0.

Definition delay_bonus (delay : Z) : Q :=
  if (90 <? delay)%Z then 7 else if (45 <? delay)%Z then 4 else 0.

Definition committee_bonus (committee_name sym : string) : Q :=
  if Py.mem sym (Py.get_default COMMITTEE_SECTOR_MAP committee_name []) then 10 else 0.

Definition trade_score (t : PoliticianTrade) : Q :=
  if is_purchase t
  then Py.min (size_bonus (avg_amount t) + option_bonus (is_option t)
               + delay_bonus (filing_delay_days t)
               + committee_bonus (committee t) (symbol t))%Q 40
  else 0.

Definition alpha_of (p : Profile) : Q :=
  match historical_alpha p with
  | Some a => a
  | None => 5 # 10
  end.

Definition alpha_points (name : string) : Q :=
  match Py.get POLITICIAN_PROFILES name with
  | Some p => (alpha_of p * 35)%Q
  | None => 0
  end.

Definition late_filings (name : string) (history : list PoliticianTrade) : nat :=
  List.length (filter (fun t => String.eqb (politician t) name
                                && (45 <? filing_delay_days t)%Z) history).

Definition late_bonus (name : string) (history : list PoliticianTrade) : Q :=
  if (5 <? late_filings name history)%nat then 5 else 0.

Definition politician_score (name : string) (history : list PoliticianTrade) : Q :=
  Py.min (alpha_points name + late_bonus name history)%Q 40.

(** Tier, urgency and size by total, evaluated high to low. *)
Definition tier_of (total : Q) : option (string * string * string) :=
  if Qle_bool 80 total then Some ("STRONG BUY", "IMMEDIATE", "FULL")
  else if Qle_bool 65 total then Some ("BUY", "TODAY", "HALF")
  else if Qle_bool 40 total then Some ("WATCH", "THIS_WEEK", "QUARTER")
  else None.

(** The size multiplier as the specification gives it. *)
Definition size_multiplier (tag : string) : Q :=
  if String.eqb tag "FULL" then 1
  else if String.eqb tag "HALF" then 5 # 10
  else if String.eqb tag "QUARTER" then 25 # 100
  else 5 # 10.

End Spec.

(* ------------------------------------------------------------------ *)
(** ** Vocabulary of the statements *)

(** The three sub-scores of a trade, summed as [generate_signals] does. *)
Definition raw_total (clusters : list (string * Cluster))
           (all_history : list PoliticianTrade) (t : PoliticianTrade) : Q :=
  (PoliticianScorer.score (politician t) all_history
   + fst (TradeScorer.score t)
   + fst (ClusterDetector.score_for_symbol (symbol t) clusters))%Q.

(** The trades of a batch that get past the purchase filter and the dedup
    check, given the keys already seen. *)
Fixpoint candidates (seen : list (string * Z)) (batch : list PoliticianTrade)
  : list PoliticianTrade :=
  match batch with
  | [] => []
  | t :: r =>
      if negb (is_purchase t) then candidates seen r
      else if SignalEngine.key_in (SignalEngine.dedup_key t) seen then candidates seen r
      else t :: candidates (SignalEngine.dedup_key t :: seen) r
  end.

(** The purchase trades of [sym] dated on or after [today - window_days],
    in history order. *)
Definition matching (today window_days : Z) (sym : string)
           (history : list PoliticianTrade) : list PoliticianTrade :=
  filter (fun t => String.eqb (symbol t) sym)
         (filter (fun t => (today - window_days <=? transaction_date t)%Z)
                 (filter is_purchase history)).

Definition bought_since (today window_days : Z) (sym : string)
           (t : PoliticianTrade) : Prop :=
  is_purchase t = true /\ symbol t = sym
  /\ (today - window_days <= transaction_date t)%Z.

Definition bought_in_window (today window_days : Z) (sym : string)
           (t : PoliticianTrade) : Prop :=
  bought_since today window_days sym t /\ (transaction_date t <= today)%Z.

Definition two_buyers (P : PoliticianTrade -> Prop)
           (history : list PoliticianTrade) : Prop :=
  exists t1 t2, In t1 history /\ In t2 history /\ P t1 /\ P t2
                /\ politician t1 <> politician t2.

(** Descending order of total score. *)
Definition score_ge (a b : TradeSignal) : Prop := total_score b <= total_score a.

(** A value with at most four decimals. *)
Definition on_grid4 (x : Q) : Prop := exists k : Z, x = Qmake k (Py.scale 4).

(** The states the trader can be in: those obtained from a fresh object by
    calls of its two methods. *)
Inductive reachable : PolitibotTrader.t -> Prop :=
| reach_init : forall capital paper_mode,
    reachable (PolitibotTrader.init capital paper_mode)
| reach_execute : forall w self s,
    reachable self ->
    reachable (snd (PolitibotTrader.execute_signal w self s))
| reach_update : forall self prices,
    reachable self ->
    reachable (snd (PolitibotTrader.update_positions self prices)).

(** Repeated calls of [update_positions], one price map per tick. *)
Fixpoint run_ticks (self : PolitibotTrader.t) (ticks : list (list (string * Q)))
  : PolitibotTrader.t :=
  match ticks with
  | [] => self
  | prices :: r => run_ticks (snd (PolitibotTrader.update_positions self prices)) r
  end.

(** What one tick does to the open position [tr] of [sym]: the position
    with its stop ratcheted, or [None] when the tick closes it. *)
Definition after_tick (prices : list (string * Q)) (sym : string) (tr : ExecutedTrade)
  : option ExecutedTrade :=
  let price := Py.get_default prices sym (entry_price tr) in
  match PolitibotTrader.exit_reason price (PolitibotTrader.ratchet price tr) with
  | Some _ => None
  | None => Some (PolitibotTrader.ratchet price tr)
  end.

(** What every open position satisfies in a reachable state. *)
Definition positions_ok (self : PolitibotTrader.t) : Prop :=
  NoDup (map fst (PolitibotTrader._positions self))
  /\ Forall (fun kv => on_grid4 (stop_loss (snd kv))) (PolitibotTrader._positions self).

(** The record that [detect_clusters] stores for the trades of one symbol. *)
Definition cluster_of (symbol_trades : list PoliticianTrade) : Cluster :=
  let unique_politicians := Py.distinct (map politician symbol_trades) in
  mkCluster (List.length unique_politicians)
            unique_politicians
            (Py.sum (map avg_amount symbol_trades))
            symbol_trades
            (Z.min (Z.of_nat (List.length unique_politicians) * 8) 20).

(* ------------------------------------------------------------------ *)
(** ** Sample inputs *)

Definition late_trade (name : string) : PoliticianTrade :=
  mkTrade "id" name "senate" "" "" "XOM" "" "Purchase" 1001 15000 0 50 50 false "" "".

Definition signal_with_size (tag : string) : TradeSignal :=
  mkSignal (late_trade "Pat Toomey") 50 0 0 0 "WATCH" [] "THIS_WEEK" tag.

Definition purchase_on (name sym : string) (day : Z) : PoliticianTrade :=
  mkTrade "id" name "house" "" "" sym "" "Purchase" 15001 50000 day day 0 false "" "".

(** Two purchases of XOM by two politicians, dated ten days after today
    (day 100). *)
Definition future_history : list PoliticianTrade :=
  [ purchase_on "Pat Toomey" "XOM" 110; purchase_on "David Rouzer" "XOM" 110 ].

(** The same two purchases dated five days before today. *)
Definition recent_history : list PoliticianTrade :=
  [ purchase_on "Pat Toomey" "XOM" 95; purchase_on "David Rouzer" "XOM" 95 ].

(** A small purchase by a politician outside the Profile Table, and a
    purchase above a million by Nancy Pelosi, same symbol and same day. *)
Definition small_unknown : PoliticianTrade :=
  mkTrade "a" "Pat Toomey" "senate" "" "" "NVDA" "" "Purchase" 1001 15000 95 96 1 false "" "".

Definition mega_pelosi : PoliticianTrade :=
  mkTrade "b" "Nancy Pelosi" "house" "" "" "NVDA" "" "Purchase" 1000001 5000000 95 96 1 false "" "".

(** A price source that quotes every symbol at [quote], a broker that
    accepts every order. *)
Definition world_at (quote : option Q) : World :=
  mkWorld (fun _ => quote) (fun _ _ _ => Some "order-1") "0a1b2c3d" "2024-01-02T15:00:00".

Definition buy_nvda : TradeSignal :=
  mkSignal mega_pelosi 80 0 0 0 "STRONG BUY" [] "IMMEDIATE" "FULL".

(** A paper trader with 100,000 that bought NVDA at 100 and then saw one
    tick at 115: the trailing stop stands at 101.2, above the entry price. *)
Definition after_buy : PolitibotTrader.t :=
  snd (PolitibotTrader.execute_signal (world_at (Some 100)) (PolitibotTrader.init 100000 true)
                                      buy_nvda).

Definition after_rise : PolitibotTrader.t :=
  snd (PolitibotTrader.update_positions after_buy [("NVDA", 115)]).

(* ------------------------------------------------------------------ *)
(** ** execution/trader.py: portfolio_summary *)

(** One entry of the ["positions"] sub-dict of the summary. *)
Record PositionView : Type := mkView {
  view_shares : Z;
  view_entry : Q;
  view_current : Q;
  view_pnl : Q;
  view_stop_loss : Q;
  view_take_profit : Q;
  view_score : Q;
  view_politician : string
}.

(** The dict returned by [portfolio_summary].  ["win_rate"] is kept as the
    number that the source formats with [.1f] and a percent sign. *)
Record Summary : Type := mkSummary {
  sum_total_equity : Q;
  sum_cash : Q;
  sum_open_positions : nat;
  sum_open_pnl : Q;
  sum_closed_pnl : Q;
  sum_win_rate : Q;
  sum_total_trades : nat;
  sum_positions : list (string * PositionView)
}.

Module Portfolio.

(** [sum(...)] over floats: from the integer 0, left to right. *)
Definition fsum (l : list Q) : Q := fold_left Qplus l 0.

(** [current_prices.get(sym, t.entry_price)] *)
Definition current (current_prices : list (string * Q)) (kv : string * ExecutedTrade) : Q :=
  Py.get_default current_prices (fst kv) (entry_price (snd kv)).

Definition open_value (self : PolitibotTrader.t) (current_prices : list (string * Q)) : Q :=
  fsum (map (fun kv => inject_Z (shares (snd kv)) * current current_prices kv)
            (PolitibotTrader._positions self)).

Definition open_pnl (self : PolitibotTrader.t) (current_prices : list (string * Q)) : Q :=
  fsum (map (fun kv => (current current_prices kv - entry_price (snd kv))
                       * inject_Z (shares (snd kv)))
            (PolitibotTrader._positions self)).

Definition closed_pnl (self : PolitibotTrader.t) : Q :=
  fsum (map pnl (PolitibotTrader._history self)).

Definition win_trades (self : PolitibotTrader.t) : list ExecutedTrade :=
  filter (fun t => Py.Qlt_bool 0 (pnl t)) (PolitibotTrader._history self).

(** [len(win_trades)/max(len(self._history),1)*100] *)
Definition win_rate (self : PolitibotTrader.t) : Q :=
  inject_Z (Z.of_nat (List.length (win_trades self)))
  / inject_Z (Z.max (Z.of_nat (List.length (PolitibotTrader._history self))) 1)
  * 100.

Definition portfolio_summary (self : PolitibotTrader.t) (current_prices : list (string * Q))
  : Summary :=
  let total_equity := PolitibotTrader._equity self + open_value self current_prices in
  mkSummary
    (Py.round total_equity 2)
    (Py.round (PolitibotTrader._equity self) 2)
    (List.length (PolitibotTrader._positions self))
    (Py.round (open_pnl self current_prices) 2)
    (Py.round (closed_pnl self) 2)
    (win_rate self)
    (List.length (PolitibotTrader._history self))
    (map (fun kv =>
            (fst kv,
             mkView (shares (snd kv)) (entry_price (snd kv)) (current current_prices kv)
                    (Py.round ((current current_prices kv - entry_price (snd kv))
                               * inject_Z (shares (snd kv))) 2)
                    (stop_loss (snd kv)) (take_profit (snd kv))
                    (total_score (signal (snd kv)))
                    (politician (trade (signal (snd kv))))))
         (PolitibotTrader._positions self)).

End Portfolio.

(* ------------------------------------------------------------------ *)
(** ** Vocabulary of the statements on the trader *)

(** The price at which [update_positions] looks at a position. *)
Definition tick_price (prices : list (string * Q)) (kv : string * ExecutedTrade) : Q :=
  Py.get_default prices (fst kv) (entry_price (snd kv)).

(** Whether the tick closes the position. *)
Definition closes (prices : list (string * Q)) (kv : string * ExecutedTrade) : bool :=
  match after_tick prices (fst kv) (snd kv) with
  | Some _ => false
  | None => true
  end.

(** The record that a closing tick appends to the history. *)
Definition closed_trade (prices : list (string * Q)) (kv : string * ExecutedTrade)
  : ExecutedTrade :=
  let price := tick_price prices kv in
  let tr := PolitibotTrader.ratchet price (snd kv) in
  with_close tr (Py.round ((price - entry_price tr) * inject_Z (shares tr)) 2).

(** The amount that a closing tick adds to the equity. *)
Definition proceeds (prices : list (string * Q)) (kv : string * ExecutedTrade) : Q :=
  tick_price prices kv * inject_Z (shares (snd kv)).

(** Open positions are flagged open, closed ones closed. *)
Definition flags_ok (self : PolitibotTrader.t) : Prop :=
  Forall (fun kv => is_open (snd kv) = true) (PolitibotTrader._positions self)
  /\ Forall (fun t => is_open t = false) (PolitibotTrader._history self).

(** A purchase above a million by Nancy Pelosi, an option, filed 95 days
    late, in her committee's sector. *)
Definition late_option_pelosi : PoliticianTrade :=
  mkTrade "c" "Nancy Pelosi" "house" "" "" "NVDA" "" "Purchase" 1000001 5000000 90 185 95
          true "Science, Space, and Technology" "".

(** A small purchase by Nancy Pelosi in the same sector, filed the next day. *)
Definition prompt_small_pelosi : PoliticianTrade :=
  mkTrade "d" "Nancy Pelosi" "house" "" "" "NVDA" "" "Purchase" 1001 15000 90 91 1
          false "Science, Space, and Technology" "".

(* ------------------------------------------------------------------ *)
(** ** Amount brackets: main.py parse_amount and data/fetcher.py _parse_amount *)

Module Amounts.

(** [s.replace(c, "")] for a one-character [c]. *)
Fixpoint remove_char (c : ascii) (s : string) : string :=
  match s with
  | EmptyString => EmptyString
  | String a r => if Ascii.eqb a c then remove_char c r else String a (remove_char c r)
  end.

(** The first value, in table order, whose key (as [key_of] gives it) occurs
    in [text]: the body of [for key, val in AMOUNT_RANGES.items()]. *)
Fixpoint first_match (key_of : string -> string) (table : list (string * (Z * Z)))
         (text : string) : option (Z * Z) :=
  match table with
  | [] => None
  | (key, val) :: r =>
      if Py.contains (key_of key) text then Some val else first_match key_of r text
  end.

End Amounts.

Module Main.

Definition AMOUNT_RANGES : list (string * (Z * Z)) :=
  [ ("1001",    (1001, 15000));
    ("15001",   (15001, 50000));
    ("50001",   (50001, 100000));
    ("100001",  (100001, 250000));
    ("250001",  (250001, 500000));
    ("500001",  (500001, 1000000));
    ("1000001", (1000001, 5000000)) ]%Z.

(** [s.replace("$", "").replace(",", "").replace(" ", "")] *)
Definition clean (s : string) : string :=
  Amounts.remove_char " " (Amounts.remove_char "," (Amounts.remove_char "$" s)).

Definition parse_amount (s : string) : Z * Z :=
  match Amounts.first_match (fun key => key) AMOUNT_RANGES (clean s) with
  | Some val => val
  | None => (1000, 15000)%Z
  end.

End Main.

Module Fetcher.

Definition AMOUNT_RANGES : list (string * (Z * Z)) :=
  [ ("$1,001 - $15,000",         (1001, 15000));
    ("$15,001 - $50,000",        (15001, 50000));
    ("$50,001 - $100,000",       (50001, 100000));
    ("$100,001 - $250,000",      (100001, 250000));
    ("$250,001 - $500,000",      (250001, 500000));
    ("$500,001 - $1,000,000",    (500001, 1000000));
    ("$1,000,001 - $5,000,000",  (1000001, 5000000));
    ("$5,000,001 - $25,000,000", (5000001, 25000000));
    ("Over $25,000,000",         (25000001, 50000000)) ]%Z.

(** [x.replace(",", "").replace("$", "").replace(" ", "")] *)
Definition squeeze (s : string) : string :=
  Amounts.remove_char " " (Amounts.remove_char "$" (Amounts.remove_char "," s)).

(** [_parse_amount].  [int_of] stands for [int(text.strip())] on a string:
    the integer, or [None] where Python raises. *)
Definition _parse_amount (int_of : string -> option Z) (amount_str : string) : Z * Z :=
  match Amounts.first_match squeeze AMOUNT_RANGES (squeeze amount_str) with
  | Some val => val
  | None =>
      let cleaned := Amounts.remove_char "," (Amounts.remove_char "$" amount_str) in
      match int_of cleaned with
      | Some v => (v, v)
      | None => (1000, 15000)%Z
      end
  end.

End Fetcher.

(* ------------------------------------------------------------------ *)
(** ** main.py: PaperTrader

    main.py has its own [Trade] class, with the fields of [PoliticianTrade]
    minus [state], [asset_name] and [notes]; the record of the fetcher is
    used for it here. *)

Module Paper.

(** The reason strings of main.py, one constructor per f-string template. *)
Inductive reason_text : Type :=
| T_known (name : string) (alpha : Q)     (* Kjent politiker .. (historisk alpha ..) *)
| T_mega (amount : Z)
| T_stor (amount : Z)
| T_medium (amount : Z)
| T_liten (amount : Z)
| T_option
| T_very_late (days : Z)                  (* .. dager forsinket! *)
| T_late (days : Z)                       (* Sein innlevering: .. dager *)
| T_committee (name : string)
| T_cluster (n : nat) (sym : string)      (* KLYNGE: .. politikere kjøpte .. *)
| T_pair (sym : string).                  (* 2 politikere kjøpte .. *)

(** main.py [Signal] *)
Record Signal : Type := mkSignal {
  sig_trade : PoliticianTrade;
  sig_score : Q;
  sig_recommendation : string;
  sig_urgency : string;
  sig_size : string;
  sig_reasons : list reason_text
}.

(** main.py [Position] *)
Record Position : Type := mkPosition {
  pos_symbol : string;
  pos_shares : Z;
  pos_entry_price : Q;
  pos_stop_loss : Q;
  pos_take_profit : Q;
  pos_politician : string;
  pos_score : Q;
  pos_pnl : Q
}.

Definition with_stop (p : Position) (sl : Q) : Position :=
  mkPosition (pos_symbol p) (pos_shares p) (pos_entry_price p) sl (pos_take_profit p)
             (pos_politician p) (pos_score p) (pos_pnl p).

Definition with_pnl (p : Position) (x : Q) : Position :=
  mkPosition (pos_symbol p) (pos_shares p) (pos_entry_price p) (pos_stop_loss p)
             (pos_take_profit p) (pos_politician p) (pos_score p) x.

Record t : Type := mk {
  capital : Q;
  cash : Q;
  positions : list (string * Position);
  closed : list Position;
  MAX_POSITIONS : nat
}.

Definition init (initial : Q) : t := mk initial initial [] [] 5.

(** [try_buy]; [get_price] stands for [self._get_price]. *)
Definition try_buy (get_price : string -> option Q) (self : t) (s : Signal)
  : outcome bool * t :=
  let sym := symbol (sig_trade s) in
  if Py.has_key (positions self) sym
     || (MAX_POSITIONS self <=? List.length (positions self))%nat
  then (Returned false, self) else
  match get_price sym with
  | None => (Returned false, self)
  | Some price =>
    if negb (Py.truthy price) then (Returned false, self) else
    let stop := Py.round (price * (92 # 100)) 2 in
    let tp := Py.round (price * (120 # 100)) 2 in
    let risk := PaperTrader.risk (cash self) (sig_size s) in
    (* float division by zero raises ZeroDivisionError *)
    if Qeq_bool (price - stop) 0 then (Raised, self) else
    let n := Z.max 1 (Py.int (risk / (price - stop))) in
    let n := Z.min n (Py.int (cash self * (10 # 100) / price)) in
    if (n <=? 0)%Z || Py.Qlt_bool (cash self) (inject_Z n * price)
    then (Returned false, self) else
    (Returned true,
     mk (capital self)
        (cash self - inject_Z n * price)
        (Py.set (positions self) sym
                (mkPosition sym n price stop tp (politician (sig_trade s)) (sig_score s) 0))
        (closed self)
        (MAX_POSITIONS self))
  end.

(** One iteration of [for sym, pos in list(self.positions.items())] in
    [update], on the object and the local [closed]. *)
Definition update_one (get_price : string -> option Q)
           (st : t * list string) (item : string * Position) : t * list string :=
  let '(self, closed_syms) := st in
  let '(sym, pos) := item in
  match get_price sym with
  | None => st
  | Some price =>
    if negb (Py.truthy price) then st else
    let new_sl := Py.round (price * (88 # 100)) 2 in
    let pos := if Py.Qlt_bool (pos_stop_loss pos) new_sl then with_stop pos new_sl else pos in
    if Qle_bool price (pos_stop_loss pos) || Qle_bool (pos_take_profit pos) price then
      let p := (price - pos_entry_price pos) * inject_Z (pos_shares pos) in
      let pos := with_pnl pos (Py.round p 2) in
      (mk (capital self)
          (cash self + price * inject_Z (pos_shares pos))
          (Py.del (positions self) sym)
          (closed self ++ [pos])
          (MAX_POSITIONS self),
       closed_syms ++ [sym])
    else
      (mk (capital self) (cash self) (Py.set (positions self) sym pos) (closed self)
          (MAX_POSITIONS self),
       closed_syms)
  end.

Definition update (get_price : string -> option Q) (self : t) : list string * t :=
  let '(self', closed_syms) :=
    fold_left (update_one get_price) (positions self) (self, []) in
  (closed_syms, self').

End Paper.

(** The states of the paper trader of main.py. *)
Inductive paper_reachable : Paper.t -> Prop :=
| paper_init : forall initial, paper_reachable (Paper.init initial)
| paper_buy : forall get_price self s,
    paper_reachable self -> paper_reachable (snd (Paper.try_buy get_price self s))
| paper_update : forall get_price self,
    paper_reachable self -> paper_reachable (snd (Paper.update get_price self)).

(** What [update] makes of one position: unchanged without a price, else
    the position with its stop ratcheted, or [None] when it is closed. *)
Definition paper_after (get_price : string -> option Q) (sym : string) (pos : Paper.Position)
  : option Paper.Position :=
  match get_price sym with
  | None => Some pos
  | Some price =>
    if negb (Py.truthy price) then Some pos else
    let new_sl := Py.round (price * (88 # 100)) 2 in
    let pos' := if Py.Qlt_bool (Paper.pos_stop_loss pos) new_sl
                then Paper.with_stop pos new_sl else pos in
    if Qle_bool price (Paper.pos_stop_loss pos')
       || Qle_bool (Paper.pos_take_profit pos') price
    then None else Some pos'
  end.

(** What the paper trader keeps: five positions at most, one per symbol,
    each of at least one share. *)
Definition paper_ok (self : Paper.t) : Prop :=
  Paper.MAX_POSITIONS self = 5%nat
  /\ (List.length (Paper.positions self) <= 5)%nat
  /\ NoDup (map fst (Paper.positions self))
  /\ Forall (fun kv => (1 <= Paper.pos_shares (snd kv))%Z) (Paper.positions self).

Definition paper_buy_nvda : Paper.Signal :=
  Paper.mkSignal mega_pelosi 80 "STRONG BUY" "IMMEDIATE" "FULL" [].

(** [not self._get_price(sym)]: no price, or a price of zero. *)
Definition unpriced (get_price : string -> option Q) (sym : string) : bool :=
  match get_price sym with
  | None => true
  | Some price => negb (Py.truthy price)
  end.

(** A paper trader of main.py that holds NVDA, bought at 100. *)
Definition paper_holding : Paper.t :=
  snd (Paper.try_buy (fun _ => Some 100) (Paper.init 100000) paper_buy_nvda).

(* ------------------------------------------------------------------ *)
(** ** bot.py: the execution loop of _process_batch *)

Module Bot.

(** The object fields the loop touches, and the local [executed]. *)
Record loop_state : Type := mkLoop {
  trader : PolitibotTrader.t;
  executed : Z;
  _seen_trade_ids : list string
}.

(** [s.add(x)] on a set of strings. *)
Definition set_add (x : string) (s : list string) : list string :=
  if Py.mem x s then s else s ++ [x].

(** [for sig in signals: ...] of [_process_batch], from the signal at index
    [i] on; [worlds i] is what the outside world answers during the [i]-th
    iteration.  An exception of [execute_signal] leaves the loop. *)
Fixpoint execute_loop (worlds : nat -> World) (max_signals_per_run : Z) (i : nat)
         (st : loop_state) (signals : list TradeSignal) : outcome unit * loop_state :=
  match signals with
  | [] => (Returned tt, st)
  | sig :: rest =>
      if (max_signals_per_run <=? executed st)%Z then (Returned tt, st) else
      if Py.mem (recommendation sig) ["STRONG BUY"; "BUY"] then
        match PolitibotTrader.execute_signal (worlds i) (trader st) sig with
        | (Raised, _) => (Raised, st)
        | (Returned (Some tr), trader') =>
            execute_loop worlds max_signals_per_run (S i)
              (mkLoop trader' (executed st + 1)
                      (set_add (trade_id (trade sig)) (_seen_trade_ids st)))
              rest
        | (Returned None, trader') =>
            execute_loop worlds max_signals_per_run (S i)
              (mkLoop trader' (executed st) (_seen_trade_ids st)) rest
        end
      else execute_loop worlds max_signals_per_run (S i) st rest
  end.

(** [_process_batch]: the signals of the batch, and the trader after the
    best of them were executed.  Writing the signal files is left out. *)
Definition _process_batch (today : Z) (worlds : nat -> World) (max_signals_per_run : Z)
           (self_trader : PolitibotTrader.t) (seen : list string)
           (trades_to_score all_history : list PoliticianTrade) (execute : bool)
  : outcome (list TradeSignal) * loop_state :=
  match trades_to_score with
  | [] => (Returned [], mkLoop self_trader 0 seen)
  | _ :: _ =>
      let signals := SignalEngine.generate_signals today trades_to_score all_history in
      if execute then
        match execute_loop worlds max_signals_per_run 0 (mkLoop self_trader 0 seen) signals with
        | (Raised, st) => (Raised, st)
        | (Returned _, st) => (Returned signals, st)
        end
      else (Returned signals, mkLoop self_trader 0 seen)
  end.

End Bot.

(** A position that was open before the loop, or one opened for a BUY or
    STRONG BUY among [signals]. *)
Definition old_or_bought (before : list (string * ExecutedTrade)) (signals : list TradeSignal)
           (kv : string * ExecutedTrade) : Prop :=
  In kv before
  \/ (In (signal (snd kv)) signals
      /\ (recommendation (signal (snd kv)) = "STRONG BUY"
          \/ recommendation (signal (snd kv)) = "BUY")).

(* ------------------------------------------------------------------ *)
(** ** main.py: score_trades *)

Section SortBy.
Context {A : Type} (key : A -> Q).

(** [l.sort(key=key, reverse=True)]: the stable sort by descending key. *)
Fixpoint insert_by (x : A) (l : list A) : list A :=
  match l with
  | [] => [x]
  | y :: r => if Qle_bool (key y) (key x) then x :: y :: r else y :: insert_by x r
  end.

Definition sort_by (l : list A) : list A := fold_right insert_by [] l.

End SortBy.

Module Scoring.

Definition POLITICIAN_PROFILES : list (string * (Q * string)) :=
  [ ("Nancy Pelosi",     (92 # 100, "Science, Space, and Technology"));
    ("Dan Crenshaw",     (71 # 100, "Armed Services"));
    ("Tommy Tuberville", (68 # 100, "Armed Services"));
    ("Josh Gottheimer",  (65 # 100, "Financial Services"));
    ("Michael McCaul",   (60 # 100, "Foreign Affairs")) ].

Definition COMMITTEE_STOCKS : list (string * list string) :=
  [ ("Armed Services", ["LMT"; "RTX"; "NOC"; "BA"; "GD"; "HII"]);
    ("Financial Services", ["JPM"; "BAC"; "GS"; "MS"; "V"; "MA"]);
    ("Science, Space, and Technology", ["NVDA"; "AMD"; "MSFT"; "GOOGL"; "META"; "INTC"]);
    ("Energy", ["XOM"; "CVX"; "COP"; "SLB"]) ].

(** [clusters[t.symbol].append(t.politician)] over the purchases. *)
Definition build_clusters (purchases : list PoliticianTrade) : list (string * list string) :=
  fold_left (fun cl t => Py.append_to cl (symbol t) (politician t)) purchases [].

(** The running [score] and [reasons] of one trade after the six rules. *)
Definition accumulate (clusters : list (string * list string)) (t : PoliticianTrade)
  : Q * list Paper.reason_text :=
  let score := 0%Q in
  let reasons : list Paper.reason_text := [] in
  let '(score, reasons) :=
    match Py.get POLITICIAN_PROFILES (politician t) with
    | Some (alpha, _) =>
        ((score + alpha * 35)%Q, reasons ++ [Paper.T_known (politician t) alpha])
    | None => (score, reasons)
    end in
  let '(score, reasons) :=
    if (1000000 <=? avg_amount t)%Z
    then ((score + 15)%Q, reasons ++ [Paper.T_mega (avg_amount t)])
    else if (250000 <=? avg_amount t)%Z
    then ((score + 10)%Q, reasons ++ [Paper.T_stor (avg_amount t)])
    else if (50000 <=? avg_amount t)%Z
    then ((score + 5)%Q, reasons ++ [Paper.T_medium (avg_amount t)])
    else ((score + 2)%Q, reasons ++ [Paper.T_liten (avg_amount t)]) in
  let '(score, reasons) :=
    if is_option t then ((score + 8)%Q, reasons ++ [Paper.T_option]) else (score, reasons) in
  let '(score, reasons) :=
    if is_suspiciously_late t
    then ((score + 7)%Q, reasons ++ [Paper.T_very_late (filing_delay_days t)])
    else if is_late t
    then ((score + 4)%Q, reasons ++ [Paper.T_late (filing_delay_days t)])
    else (score, reasons) in
  let committee_stocks := Py.get_default COMMITTEE_STOCKS (committee t) [] in
  let '(score, reasons) :=
    if Py.mem (symbol t) committee_stocks
    then ((score + 10)%Q, reasons ++ [Paper.T_committee (committee t)])
    else (score, reasons) in
  let unique := Py.distinct (Py.get_default clusters (symbol t) []) in
  if (3 <=? List.length unique)%nat
  then ((score + 20)%Q, reasons ++ [Paper.T_cluster (List.length unique) (symbol t)])
  else if (List.length unique =? 2)%nat
  then ((score + 10)%Q, reasons ++ [Paper.T_pair (symbol t)])
  else (score, reasons).

(** The loop body after [seen.add(key)]: the signal appended, or [None]
    at the [continue]. *)
Definition evaluate (clusters : list (string * list string)) (t : PoliticianTrade)
  : option Paper.Signal :=
  let '(score, reasons) := accumulate clusters t in
  let score := Py.min score 100 in
  if Qle_bool 80 score
  then Some (Paper.mkSignal t score "STRONG BUY" "IMMEDIATE" "FULL" reasons)
  else if Qle_bool 65 score
  then Some (Paper.mkSignal t score "BUY" "TODAY" "HALF" reasons)
  else if Qle_bool 40 score
  then Some (Paper.mkSignal t score "WATCH" "THIS_WEEK" "QUARTER" reasons)
  else None.

Definition step (clusters : list (string * list string))
           (st : list Paper.Signal * list (string * Z)) (t : PoliticianTrade)
  : list Paper.Signal * list (string * Z) :=
  let '(signals, seen) := st in
  let key := SignalEngine.dedup_key t in
  if SignalEngine.key_in key seen then st else
  let seen := key :: seen in
  match evaluate clusters t with
  | Some s => (signals ++ [s], seen)
  | None => (signals, seen)
  end.

Definition score_trades (trades : list PoliticianTrade) : list Paper.Signal :=
  let purchases := filter is_purchase trades in
  match purchases with
  | [] => []
  | _ :: _ =>
      let clusters := build_clusters purchases in
      sort_by Paper.sig_score (fst (fold_left (step clusters) purchases ([], [])))
  end.

End Scoring.

(* ------------------------------------------------------------------ *)
(** ** data/fetcher.py: fetch_all and fetch_recent *)

(** The delay that [_parse_item] stores in [filing_delay_days]:
    [(disc_date - tx_date).days if disc_date >= tx_date else 0]. *)
Definition filing_delay (disc_date tx_date : Z) : Z :=
  if (tx_date <=? disc_date)%Z then (disc_date - tx_date)%Z else 0%Z.

Section Feeds.

(** A raw feed item, and [_parse_item] on it ([Raised] where it raises,
    [Returned None] where it gives the item up). *)
Variable Item : Type.
Variable _parse_item : Item -> string -> outcome (option PoliticianTrade).

Definition _parse (raw : list Item) (chamber_name : string) (cutoff : Z)
  : list PoliticianTrade :=
  flat_map (fun item =>
              match _parse_item item chamber_name with
              | Returned (Some t) =>
                  if (cutoff <=? transaction_date t)%Z then [t] else []
              | _ => []
              end) raw.

(** [fetch_all]; a feed is [None] when fetching it raises, which the loop
    over the two chambers logs and survives. *)
Definition fetch_all (today : Z) (house senate : option (list Item)) (days_back : Z)
  : list PoliticianTrade :=
  let cutoff := (today - days_back)%Z in
  let of_feed (feed : option (list Item)) (chamber_name : string) :=
    match feed with
    | Some raw => _parse raw chamber_name cutoff
    | None => []
    end in
  of_feed house "house" ++ of_feed senate "senate".

Definition fetch_recent (today : Z) (house senate : option (list Item)) (days : Z)
  : list PoliticianTrade :=
  let all_trades := fetch_all today house senate (days + 50) in
  let cutoff := (today - days)%Z in
  filter (fun t => (cutoff <=? disclosure_date t)%Z) all_trades.

End Feeds.

(** A trade transacted on day 60 and disclosed on day 99, as a feed item
    that [_parse_item] hands over unchanged. *)
Definition disclosed_yesterday : PoliticianTrade :=
  mkTrade "e" "Pat Toomey" "senate" "" "" "XOM" "" "Purchase" 1001 15000 60 99 39 false "" "".

Definition parse_as_is (item : PoliticianTrade) (chamber_name : string)
  : outcome (option PoliticianTrade) := Returned (Some item).

(* ------------------------------------------------------------------ *)
(** ** Comparisons and [min] *)

Lemma Qle_bool_false (a b : Q) : Qle_bool a b = false -> b < a.
Proof.
  intros H. apply Qnot_le_lt. intros Hle.
  apply Qle_bool_iff in Hle. congruence.
Qed.

Lemma Qlt_bool_true (a b : Q) : Py.Qlt_bool a b = true -> a < b.
Proof.
  unfold Py.Qlt_bool. intros H. apply negb_true_iff in H.
  now apply Qle_bool_false.
Qed.

Lemma Qlt_bool_false (a b : Q) : Py.Qlt_bool a b = false -> b <= a.
Proof.
  unfold Py.Qlt_bool. intros H. apply negb_false_iff in H.
  now apply Qle_bool_iff.
Qed.

(** Case analysis on a boolean comparison, leaving the order fact. *)
Ltac qcase a b :=
  let E := fresh "E" in
  destruct (Qle_bool a b) eqn:E;
  [ apply Qle_bool_iff in E | apply Qle_bool_false in E ].

Ltac qltcase a b :=
  let E := fresh "E" in
  destruct (Py.Qlt_bool a b) eqn:E;
  [ apply Qlt_bool_true in E | apply Qlt_bool_false in E ].

Lemma min_le_r (a b : Q) : Py.min a b <= b.
Proof. unfold Py.min. qltcase b a; lra. Qed.

Lemma min_le_l (a b : Q) : Py.min a b <= a.
Proof. unfold Py.min. qltcase b a; lra. Qed.

Lemma min_glb (a b c : Q) : c <= a -> c <= b -> c <= Py.min a b.
Proof. unfold Py.min. intros. qltcase b a; lra. Qed.

(* ------------------------------------------------------------------ *)
(** ** TradeScorer *)

Lemma size_bonus_cases (avg : Z) :
  Spec.size_bonus avg = 15 \/ Spec.size_bonus avg = 10
  \/ Spec.size_bonus avg = 5 \/ Spec.size_bonus avg = 2.
Proof.
  unfold Spec.size_bonus.
  destruct (1000000 <=? avg)%Z; [now left|].
  destruct (250000 <=? avg)%Z; [now right; left|].
  destruct (50000 <=? avg)%Z; [now right; right; left| now right; right; right].
Qed.

(** No committee name is empty, so the truthiness guard on
    [trade.committee] never changes the membership test. *)
Lemma empty_committee_has_no_symbols (sym : string) :
  Py.mem sym (Py.get_default COMMITTEE_SECTOR_MAP "" []) = false.
Proof. reflexivity. Qed.

Lemma committee_guard (t : PoliticianTrade) :
  negb (String.eqb (committee t) "")
  && Py.mem (symbol t) (Py.get_default COMMITTEE_SECTOR_MAP (committee t) [])
  = Py.mem (symbol t) (Py.get_default COMMITTEE_SECTOR_MAP (committee t) []).
Proof.
  destruct (String.eqb (committee t) "") eqn:E; [|reflexivity].
  apply String.eqb_eq in E. rewrite E. simpl negb.
  now rewrite empty_committee_has_no_symbols.
Qed.

Lemma trade_score_refines (t : PoliticianTrade) :
  fst (TradeScorer.score t) = Spec.trade_score t.
Proof.
  unfold TradeScorer.score, Spec.trade_score.
  rewrite committee_guard.
  unfold Spec.size_bonus, Spec.option_bonus, Spec.delay_bonus, Spec.committee_bonus,
    is_suspiciously_late, is_late.
  destruct (is_purchase t); simpl negb; cbv iota; [|reflexivity].
  destruct (1000000 <=? avg_amount t)%Z;
    [|destruct (250000 <=? avg_amount t)%Z; [|destruct (50000 <=? avg_amount t)%Z]];
    destruct (is_option t);
    (destruct (90 <? filing_delay_days t)%Z; [|destruct (45 <? filing_delay_days t)%Z]);
    destruct (Py.mem (symbol t) (Py.get_default COMMITTEE_SECTOR_MAP (committee t) []));
    reflexivity.
Qed.

Lemma trade_score_sale (t : PoliticianTrade) :
  is_purchase t = false -> TradeScorer.score t = (0, [R_sale]).
Proof. intros H. unfold TradeScorer.score. now rewrite H. Qed.

(** The trade score is a whole number between 0 and 40. *)
Lemma trade_score_integer (t : PoliticianTrade) :
  exists n : Z, (0 <= n <= 40)%Z /\ fst (TradeScorer.score t) = inject_Z n.
Proof.
  rewrite trade_score_refines. unfold Spec.trade_score.
  unfold Spec.size_bonus, Spec.option_bonus, Spec.delay_bonus, Spec.committee_bonus.
  destruct (is_purchase t); [|exists 0%Z; split; [lia|reflexivity]].
  destruct (1000000 <=? avg_amount t)%Z;
    [|destruct (250000 <=? avg_amount t)%Z; [|destruct (50000 <=? avg_amount t)%Z]];
    destruct (is_option t);
    (destruct (90 <? filing_delay_days t)%Z; [|destruct (45 <? filing_delay_days t)%Z]);
    destruct (Py.mem (symbol t) (Py.get_default COMMITTEE_SECTOR_MAP (committee t) []));
    match goal with
    | |- exists n, _ /\ ?q = _ =>
        let v := eval vm_compute in (Qnum q) in
        exists v; split; [lia | vm_compute; reflexivity]
    end.
Qed.

(** C3. [TradeScorer.score] computes the reference score of section 4.1:
    a trade whose type does not contain "purchase" (in any letter case) gets
    exactly (0, one reason); a purchase gets min(size tier + option bonus +
    filing-delay bonus + committee bonus, 40); the score is always within
    [0, 40]. *)
Theorem C3_trade_score_reference (t : PoliticianTrade) :
  fst (TradeScorer.score t) = Spec.trade_score t
  /\ (if is_purchase t
      then fst (TradeScorer.score t)
           = Py.min (Spec.size_bonus (avg_amount t) + Spec.option_bonus (is_option t)
                     + Spec.delay_bonus (filing_delay_days t)
                     + Spec.committee_bonus (committee t) (symbol t)) 40
      else TradeScorer.score t = (0, [R_sale]))
  /\ 0 <= fst (TradeScorer.score t) <= 40.
Proof.
  split; [apply trade_score_refines|]. split.
  - destruct (is_purchase t) eqn:E.
    + rewrite trade_score_refines. unfold Spec.trade_score. now rewrite E.
    + now apply trade_score_sale.
  - destruct (trade_score_integer t) as (n & Hn & ->).
    split; [change 0 with (inject_Z 0) | change 40 with (inject_Z 40)];
      rewrite <- Zle_Qle; lia.
Qed.

(** The scenario of the specification: a 1,200,000 purchase, filed 95 days
    late, in the committee's sector, no option: 15 + 7 + 10 = 32. *)
Example trade_score_scenario :
  TradeScorer.score
    (mkTrade "id" "Nancy Pelosi" "house" "D" "CA" "NVDA" "NVIDIA" "Purchase"
             1200000 1200000 0 95 95 false "Science, Space, and Technology" "")
  = (32, [R_mega 1200000; R_suspiciously_late 95;
          R_committee "Science, Space, and Technology"]).
Proof. reflexivity. Qed.

Example trade_score_sale_full :
  TradeScorer.score
    (mkTrade "id" "Dan Crenshaw" "house" "R" "TX" "LMT" "Lockheed" "Sale (Full)"
             5000001 25000000 0 100 100 true "Armed Services" "")
  = (0, [R_sale]).
Proof. reflexivity. Qed.

(* ------------------------------------------------------------------ *)
(** ** PoliticianScorer *)

Lemma late_count_spec (name : string) (history : list PoliticianTrade) :
  PoliticianScorer.late_count name history = Spec.late_filings name history.
Proof.
  unfold PoliticianScorer.late_count, Spec.late_filings, is_late.
  f_equal. apply filter_ext. intros a. apply andb_comm.
Qed.

(** Case analysis on the profile lookup of a name. *)
Ltac profile_cases name :=
  unfold Py.get, POLITICIAN_PROFILES;
  destruct (String.eqb "Nancy Pelosi" name);
  [|destruct (String.eqb "Dan Crenshaw" name);
    [|destruct (String.eqb "Tommy Tuberville" name);
      [|destruct (String.eqb "Josh Gottheimer" name);
        [|destruct (String.eqb "Michael McCaul" name)]]]].

Lemma politician_score_refines (name : string) (history : list PoliticianTrade) :
  PoliticianScorer.score name history = Spec.politician_score name history.
Proof.
  unfold PoliticianScorer.score, Spec.politician_score, Spec.alpha_points,
    Spec.late_bonus, Spec.alpha_of.
  rewrite late_count_spec.
  destruct (5 <? Spec.late_filings name history)%nat;
    profile_cases name; reflexivity.
Qed.

Lemma politician_score_bounds (name : string) (history : list PoliticianTrade) :
  0 <= PoliticianScorer.score name history <= 40.
Proof.
  unfold PoliticianScorer.score.
  destruct (5 <? PoliticianScorer.late_count name history)%nat;
    profile_cases name; vm_compute; split; discriminate.
Qed.

Lemma politician_score_unknown (name : string) (history : list PoliticianTrade) :
  Py.get POLITICIAN_PROFILES name = None ->
  PoliticianScorer.score name history
  = if (5 <? Spec.late_filings name history)%nat then 5 else 0.
Proof.
  intros H. unfold PoliticianScorer.score. rewrite H, late_count_spec.
  now destruct (5 <? Spec.late_filings name history)%nat.
Qed.

(** C7. [PoliticianScorer.score] returns min(s, 40), where s is
    historical_alpha x 35 for a name of the Profile Table (0 otherwise) plus
    a flat 5 when more than 5 of the politician's trades in the history have
    a filing delay above 45; a name absent from the table gets exactly the
    late-filer bonus; the result is always within [0, 40]. *)
Theorem C7_politician_score_reference (name : string) (history : list PoliticianTrade) :
  PoliticianScorer.score name history
  = Py.min (Spec.alpha_points name + Spec.late_bonus name history) 40
  /\ (Py.get POLITICIAN_PROFILES name = None ->
      Spec.alpha_points name = 0
      /\ PoliticianScorer.score name history
         = if (5 <? Spec.late_filings name history)%nat then 5 else 0)
  /\ 0 <= PoliticianScorer.score name history <= 40.
Proof.
  split; [apply politician_score_refines|]. split.
  - intros H. split.
    + unfold Spec.alpha_points. now rewrite H.
    + now apply politician_score_unknown.
  - apply politician_score_bounds.
Qed.

(** A politician outside the Profile Table with six late filings scores 5. *)
Lemma C7_politician_score_witness :
  Py.get POLITICIAN_PROFILES "Pat Toomey" = None
  /\ PoliticianScorer.score "Pat Toomey" (repeat (late_trade "Pat Toomey") 6) = 5.
Proof.
  split; [reflexivity|].
  apply (proj2 (proj1 (proj2 (C7_politician_score_reference
                                 "Pat Toomey" (repeat (late_trade "Pat Toomey") 6)))
                      eq_refl)).
Defined.

Example politician_score_pelosi :
  PoliticianScorer.score "Nancy Pelosi" [] = 3220 # 100.
Proof. reflexivity. Qed.

(* ------------------------------------------------------------------ *)
(** ** Size multipliers *)

Lemma multiplier_cases (tag : string) (default : Q) :
  Py.get_default SIZE_MULTIPLIERS tag default
  = if String.eqb tag "FULL" then 1
    else if String.eqb tag "HALF" then 5 # 10
    else if String.eqb tag "QUARTER" then 25 # 100
    else default.
Proof.
  unfold Py.get_default, SIZE_MULTIPLIERS, Py.get.
  rewrite (String.eqb_sym "FULL"), (String.eqb_sym "HALF"), (String.eqb_sym "QUARTER").
  destruct (String.eqb tag "FULL"); [reflexivity|].
  destruct (String.eqb tag "HALF"); [reflexivity|].
  destruct (String.eqb tag "QUARTER"); reflexivity.
Qed.

(** C9 as stated fails in [PolitibotTrader.execute_signal]: a tag outside
    FULL/HALF/QUARTER gets the multiplier 0.25 there, not 0.5. *)
Lemma C9_default_is_not_half :
  PolitibotTrader.multiplier_of (signal_with_size "DOUBLE") = 25 # 100
  /\ ~ PolitibotTrader.multiplier_of (signal_with_size "DOUBLE")
       == Spec.size_multiplier "DOUBLE".
Proof. split; [reflexivity|]. vm_compute. discriminate. Qed.

(** C9, amended. The size multiplier is 1.0 for FULL, 0.5 for HALF and 0.25
    for QUARTER in both traders; for any other tag it is 0.25 in
    [PolitibotTrader.execute_signal] and 0.5 in [PaperTrader.try_buy]. *)
Theorem C9_size_multiplier (s : TradeSignal) :
  let tag := suggested_position_size s in
  PolitibotTrader.multiplier_of s
  = (if String.eqb tag "FULL" then 1
     else if String.eqb tag "HALF" then 5 # 10
     else if String.eqb tag "QUARTER" then 25 # 100
     else 25 # 100)
  /\ PaperTrader.multiplier_of tag = Spec.size_multiplier tag.
Proof.
  split.
  - apply multiplier_cases.
  - apply (multiplier_cases (suggested_position_size s) (5 # 10)).
Qed.

(* ------------------------------------------------------------------ *)
(** ** Dictionaries *)

Section Dict.
Context {V : Type}.
Implicit Types (d : list (string * V)) (k : string) (v : V).

Lemma get_set d k v k' :
  Py.get (Py.set d k v) k' = if String.eqb k k' then Some v else Py.get d k'.
Proof.
  induction d as [|[k0 v0] r IH]; simpl.
  - now destruct (String.eqb k k').
  - destruct (String.eqb k0 k) eqn:E0; simpl.
    + apply String.eqb_eq in E0. subst k0.
      now destruct (String.eqb k k').
    + rewrite IH. destruct (String.eqb k k') eqn:E1; [|reflexivity].
      apply String.eqb_eq in E1. subst k'. now rewrite E0.
Qed.

Lemma get_none_iff d k : Py.get d k = None <-> ~ In k (map fst d).
Proof.
  induction d as [|[k0 v0] r IH]; simpl; [tauto|].
  destruct (String.eqb k0 k) eqn:E.
  - apply String.eqb_eq in E. split; [discriminate|intros H; exfalso; auto].
  - apply String.eqb_neq in E. rewrite IH. tauto.
Qed.

Lemma get_some_in d k v : Py.get d k = Some v -> In (k, v) d.
Proof.
  induction d as [|[k0 v0] r IH]; simpl; [discriminate|].
  destruct (String.eqb k0 k) eqn:E.
  - apply String.eqb_eq in E. intros [= ->]. left. now subst.
  - intros H. right. now apply IH.
Qed.

Lemma in_get_nodup d k v :
  NoDup (map fst d) -> In (k, v) d -> Py.get d k = Some v.
Proof.
  induction d as [|[k0 v0] r IH]; simpl; [tauto|].
  intros Hnd [H|H]; inversion Hnd as [|? ? Hk0 Hr]; subst.
  - injection H as -> ->. now rewrite String.eqb_refl.
  - destruct (String.eqb k0 k) eqn:E; [|now apply IH].
    apply String.eqb_eq in E. subst k0. exfalso. apply Hk0.
    now apply (in_map fst) in H.
Qed.

Lemma keys_set d k v :
  forall a, In a (map fst (Py.set d k v)) <-> a = k \/ In a (map fst d).
Proof.
  intros a. induction d as [|[k0 v0] r IH]; simpl.
  - split; intros [H|H]; auto; try tauto.
  - destruct (String.eqb k0 k) eqn:E; simpl.
    + apply String.eqb_eq in E. subst k0. split; intros H; [tauto|].
      destruct H as [H|H]; [left; congruence|exact H].
    + rewrite IH. tauto.
Qed.

Lemma nodup_set d k v : NoDup (map fst d) -> NoDup (map fst (Py.set d k v)).
Proof.
  induction d as [|[k0 v0] r IH]; simpl; intros Hnd.
  - constructor; [intros []|constructor].
  - inversion Hnd as [|? ? Hk0 Hr]; subst.
    destruct (String.eqb k0 k) eqn:E; simpl.
    + now constructor.
    + constructor; [|now apply IH].
      rewrite keys_set. apply String.eqb_neq in E. intros [H|H]; auto.
Qed.

Lemma keys_del d k : forall a, In a (map fst (Py.del d k)) -> In a (map fst d).
Proof.
  intros a. induction d as [|[k0 v0] r IH]; simpl; [tauto|].
  destruct (String.eqb k0 k); simpl; tauto.
Qed.

Lemma nodup_del d k : NoDup (map fst d) -> NoDup (map fst (Py.del d k)).
Proof.
  induction d as [|[k0 v0] r IH]; simpl; intros Hnd; [constructor|].
  inversion Hnd as [|? ? Hk0 Hr]; subst.
  destruct (String.eqb k0 k); simpl; [assumption|].
  constructor; [|now apply IH].
  intros H. apply Hk0. now apply keys_del in H.
Qed.

Lemma get_del d k k' :
  NoDup (map fst d) ->
  Py.get (Py.del d k) k' = if String.eqb k k' then None else Py.get d k'.
Proof.
  induction d as [|[k0 v0] r IH]; simpl; intros Hnd.
  - now destruct (String.eqb k k').
  - inversion Hnd as [|? ? Hk0 Hr]; subst.
    destruct (String.eqb k0 k) eqn:E.
    + apply String.eqb_eq in E. subst k0.
      destruct (String.eqb k k') eqn:E1; [|reflexivity].
      apply String.eqb_eq in E1. subst k'. now apply get_none_iff.
    + simpl. rewrite (IH Hr).
      destruct (String.eqb k k') eqn:E1; [|reflexivity].
      apply String.eqb_eq in E1. subst k'. now rewrite E.
Qed.

Lemma in_del d k a v :
  In (a, v) (Py.del d k) -> In (a, v) d.
Proof.
  induction d as [|[k0 v0] r IH]; simpl; [tauto|].
  destruct (String.eqb k0 k); simpl; tauto.
Qed.

End Dict.

Section Grouping.
Context {V : Type}.
Implicit Types (d : list (string * list V)) (k : string) (x : V).

Lemma get_append_to d k x k' :
  Py.get (Py.append_to d k x) k'
  = if String.eqb k k'
    then Some (match Py.get d k with Some v => v ++ [x] | None => [x] end)
    else Py.get d k'.
Proof.
  induction d as [|[k0 v0] r IH]; simpl.
  - now destruct (String.eqb k k').
  - destruct (String.eqb k0 k) eqn:E0; simpl.
    + apply String.eqb_eq in E0. subst k0.
      now destruct (String.eqb k k').
    + rewrite IH. destruct (String.eqb k k') eqn:E1; [|reflexivity].
      apply String.eqb_eq in E1. subst k'. now rewrite E0.
Qed.

Lemma keys_append_to d k x :
  forall a, In a (map fst (Py.append_to d k x)) -> a = k \/ In a (map fst d).
Proof.
  intros a. induction d as [|[k0 v0] r IH]; simpl.
  - intros [H|[]]; auto.
  - destruct (String.eqb k0 k); simpl; tauto.
Qed.

Lemma nodup_append_to d k x :
  NoDup (map fst d) -> NoDup (map fst (Py.append_to d k x)).
Proof.
  induction d as [|[k0 v0] r IH]; simpl; intros Hnd.
  - constructor; [intros []|constructor].
  - inversion Hnd as [|? ? Hk0 Hr]; subst.
    destruct (String.eqb k0 k) eqn:E; simpl.
    + now constructor.
    + constructor; [|now apply IH].
      apply String.eqb_neq in E. intros H.
      apply keys_append_to in H. destruct H; auto.
Qed.

End Grouping.

(* ------------------------------------------------------------------ *)
(** ** ClusterDetector *)

Lemma in_distinct (l : list string) (x : string) : In x (Py.distinct l) <-> In x l.
Proof.
  induction l as [|a r IH]; simpl; [tauto|].
  rewrite filter_In, IH, negb_true_iff.
  destruct (String.eqb a x) eqn:E.
  - apply String.eqb_eq in E. split; [tauto|]. intros _. now left.
  - apply String.eqb_neq in E. split; [tauto|].
    intros [H|H]; [tauto|]. right. now split.
Qed.

Lemma nodup_distinct (l : list string) : NoDup (Py.distinct l).
Proof.
  induction l as [|a r IH]; simpl; constructor.
  - rewrite filter_In, negb_true_iff, String.eqb_neq. tauto.
  - now apply NoDup_filter.
Qed.

Lemma two_distinct (l : list string) :
  (2 <= List.length (Py.distinct l))%nat
  <-> exists x y, In x l /\ In y l /\ x <> y.
Proof.
  pose proof (nodup_distinct l) as Hnd.
  split.
  - intros Hlen.
    destruct (Py.distinct l) as [|a [|b r]] eqn:E; simpl in Hlen; try lia.
    exists a, b. split; [|split].
    + apply in_distinct. rewrite E. now left.
    + apply in_distinct. rewrite E. right. now left.
    + inversion Hnd as [|? ? Ha _]; subst. intros ->. apply Ha. now left.
  - intros (x & y & Hx & Hy & Hxy).
    rewrite <- in_distinct in Hx, Hy.
    destruct (Py.distinct l) as [|a [|b r]]; simpl in *; try lia; try tauto.
    destruct Hx as [<-|[]], Hy as [<-|[]]. congruence.
Qed.

Lemma in_matching today w sym history t :
  In t (matching today w sym history) <-> In t history /\ bought_since today w sym t.
Proof.
  unfold matching, bought_since.
  rewrite !filter_In, String.eqb_eq, Z.leb_le. tauto.
Qed.

Lemma two_buyers_matching today w sym history :
  (2 <= List.length (Py.distinct (map politician (matching today w sym history))))%nat
  <-> two_buyers (bought_since today w sym) history.
Proof.
  rewrite two_distinct. unfold two_buyers. split.
  - intros (x & y & Hx & Hy & Hxy).
    apply in_map_iff in Hx, Hy.
    destruct Hx as (t1 & <- & H1), Hy as (t2 & <- & H2).
    apply in_matching in H1, H2. exists t1, t2. tauto.
  - intros (t1 & t2 & H1 & H2 & P1 & P2 & Hne).
    exists (politician t1), (politician t2).
    repeat split; auto; apply in_map, in_matching; auto.
Qed.

(** The grouping loop: each symbol is bound to its trades, in order. *)
Lemma grouped_get (l : list PoliticianTrade) :
  forall (d : list (string * list PoliticianTrade)) (sym : string),
  Py.get (fold_left (fun cl t => Py.append_to cl (symbol t) t) l d) sym
  = let ts := filter (fun t => String.eqb (symbol t) sym) l in
    match Py.get d sym with
    | Some v => Some (v ++ ts)
    | None => match ts with [] => None | _ => Some ts end
    end.
Proof.
  induction l as [|t r IH]; intros d sym; simpl.
  - destruct (Py.get d sym); [now rewrite app_nil_r|reflexivity].
  - rewrite IH, get_append_to. simpl.
    destruct (String.eqb (symbol t) sym) eqn:E.
    + apply String.eqb_eq in E. rewrite E.
      destruct (Py.get d sym); [now rewrite <- app_assoc|reflexivity].
    + reflexivity.
Qed.

Lemma grouped_nodup (l : list PoliticianTrade) :
  forall d : list (string * list PoliticianTrade),
  NoDup (map fst d) ->
  NoDup (map fst (fold_left (fun cl t => Py.append_to cl (symbol t) t) l d)).
Proof.
  induction l as [|t r IH]; intros d Hd; simpl; [assumption|].
  apply IH. now apply nodup_append_to.
Qed.

Lemma record_cluster_unfold result sym ts :
  ClusterDetector.record_cluster result (sym, ts)
  = if (2 <=? List.length (Py.distinct (map politician ts)))%nat
    then Py.set result sym (cluster_of ts) else result.
Proof. reflexivity. Qed.

(** The loop over the groups: a symbol is recorded exactly when its group
    has two distinct politicians. *)
Lemma recorded_get (cl : list (string * list PoliticianTrade)) :
  forall (result : list (string * Cluster)) (sym : string),
  NoDup (map fst cl) ->
  Py.get (fold_left ClusterDetector.record_cluster cl result) sym
  = match Py.get cl sym with
    | Some ts =>
        if (2 <=? List.length (Py.distinct (map politician ts)))%nat
        then Some (cluster_of ts) else Py.get result sym
    | None => Py.get result sym
    end.
Proof.
  induction cl as [|[k ts] r IH]; intros result sym Hnd; cbn [fold_left];
    [reflexivity|].
  inversion Hnd as [|? ? Hk Hr]; subst.
  rewrite (IH _ sym Hr), record_cluster_unfold.
  cbn [Py.get]. destruct (String.eqb k sym) eqn:E;
    set (q := (2 <=? List.length (Py.distinct (map politician ts)))%nat).
  - apply String.eqb_eq in E. subst k.
    apply get_none_iff in Hk. rewrite Hk.
    destruct q; [|reflexivity].
    now rewrite get_set, String.eqb_refl.
  - destruct q; [|reflexivity].
    now rewrite get_set, E.
Qed.

Lemma detect_clusters_get today history w sym :
  Py.get (ClusterDetector.detect_clusters today history w) sym
  = let ts := matching today w sym history in
    if (2 <=? List.length (Py.distinct (map politician ts)))%nat
    then Some (cluster_of ts) else None.
Proof.
  unfold ClusterDetector.detect_clusters.
  rewrite recorded_get by (apply grouped_nodup; constructor).
  rewrite grouped_get. simpl. fold (matching today w sym history).
  destruct (matching today w sym history); reflexivity.
Qed.

Lemma cluster_score_range (n : nat) :
  (2 <= n)%nat -> (16 <= Z.min (Z.of_nat n * 8) 20 <= 20)%Z.
Proof. lia. Qed.

(** C6 as stated fails: two purchases dated after today are outside the
    window [today - 30, today], yet their symbol is in the cluster map. *)
Lemma C6_future_trades_form_a_cluster :
  Py.has_key (ClusterDetector.detect_clusters 100 future_history 30) "XOM" = true
  /\ ~ two_buyers (bought_in_window 100 30 "XOM") future_history.
Proof.
  split; [reflexivity|].
  intros (t1 & t2 & H1 & _ & ((_ & _ & _) & Hd) & _).
  destruct H1 as [<-|[<-|[]]]; simpl in Hd; lia.
Qed.

(** C6, amended. A symbol is in the cluster map if and only if at least two
    distinct politicians made purchase-type trades in it dated on or after
    today - window (later dates included); the recorded bonus is
    min(count x 8, 20), so the cluster sub-score is within [0, 20]; an absent
    symbol looks up as (0, no reasons), a present one as its bonus with
    reasons giving the count, at most 5 names and the total amount.  The
    stored names are the distinct buyers in some order: the order of a
    Python set is not fixed, and nothing is stated about it. *)
Theorem C6_cluster_map today history w sym :
  let clusters := ClusterDetector.detect_clusters today history w in
  let ts := matching today w sym history in
  (Py.has_key clusters sym = true <-> two_buyers (bought_since today w sym) history)
  /\ (forall c, Py.get clusters sym = Some c ->
        Permutation (politicians c) (Py.distinct (map politician ts))
        /\ NoDup (politicians c)
        /\ count c = List.length (politicians c)
        /\ (2 <= count c)%nat
        /\ total_amount c = Py.sum (map avg_amount ts)
        /\ score c = Z.min (Z.of_nat (count c) * 8) 20
        /\ ClusterDetector.score_for_symbol sym clusters
           = (inject_Z (Z.min (Z.of_nat (count c) * 8) 20),
              [ R_cluster (count c) sym;
                R_cluster_politicians (firstn 5 (politicians c));
                R_cluster_total (total_amount c) ])
        /\ (List.length (firstn 5 (politicians c)) <= 5)%nat)
  /\ (Py.get clusters sym = None ->
        ClusterDetector.score_for_symbol sym clusters = (0, []))
  /\ 0 <= fst (ClusterDetector.score_for_symbol sym clusters) <= 20.
Proof.
  intros clusters ts.
  assert (Hget := detect_clusters_get today history w sym).
  fold clusters in Hget. cbv zeta in Hget. fold ts in Hget.
  unfold Py.has_key, ClusterDetector.score_for_symbol.
  destruct (2 <=? List.length (Py.distinct (map politician ts)))%nat eqn:E;
    rewrite Hget.
  - apply Nat.leb_le in E.
    split; [split; [intros _; now apply two_buyers_matching|reflexivity]|].
    split; [|split; [discriminate|]].
    + intros c [= <-]. unfold cluster_of.
      cbn [politicians count total_amount score].
      split; [apply Permutation_refl|]. split; [apply nodup_distinct|].
      repeat split; auto. apply firstn_le_length.
    + unfold cluster_of. cbn [fst score].
      pose proof (cluster_score_range _ E) as Hr.
      split; [change 0 with (inject_Z 0)|change 20 with (inject_Z 20)];
        rewrite <- Zle_Qle; lia.
  - apply Nat.leb_gt in E.
    split; [split; [discriminate|]|].
    + intros H. apply two_buyers_matching in H. fold ts in H. lia.
    + split; [discriminate|]. split; [reflexivity|]. simpl. split; discriminate.
Qed.

(** The amended statement at two recent purchases by two politicians: the
    symbol is in the map, and its lookup gives 16 with the count 2, the two
    names in some order and the total 65000. *)
Lemma C6_cluster_map_witness :
  two_buyers (bought_since 100 30 "XOM") recent_history
  /\ Py.has_key (ClusterDetector.detect_clusters 100 recent_history 30) "XOM" = true
  /\ exists names,
       ClusterDetector.score_for_symbol "XOM"
         (ClusterDetector.detect_clusters 100 recent_history 30)
       = (16, [ R_cluster 2 "XOM"; R_cluster_politicians names; R_cluster_total 65000 ])
       /\ Permutation names ["Pat Toomey"; "David Rouzer"].
Proof.
  assert (H : two_buyers (bought_since 100 30 "XOM") recent_history).
  { exists (purchase_on "Pat Toomey" "XOM" 95), (purchase_on "David Rouzer" "XOM" 95).
    unfold bought_since. simpl. repeat split; auto; try lia; discriminate. }
  split; [exact H|]. split.
  - apply (proj2 (proj1 (C6_cluster_map 100 recent_history 30 "XOM")) H).
  - destruct (Py.get (ClusterDetector.detect_clusters 100 recent_history 30) "XOM")
      as [c|] eqn:E; [|discriminate E].
    destruct (proj1 (proj2 (C6_cluster_map 100 recent_history 30 "XOM")) c E)
      as (Hperm & _ & Hcount & _ & Htotal & _ & Hlookup & _).
    assert (Hlen : List.length (politicians c) = 2%nat)
      by (rewrite (Permutation_length Hperm); reflexivity).
    exists (firstn 5 (politicians c)). split.
    + rewrite Hlookup, Htotal, Hcount, Hlen. reflexivity.
    + rewrite firstn_all2 by (rewrite Hlen; lia). exact Hperm.
Defined.

(* ------------------------------------------------------------------ *)
(** ** Rounding *)

(** Turn the result of a three-way comparison into the order fact. *)
Ltac qcompare_facts :=
  repeat match goal with
  | H : Qcompare _ _ = Eq |- _ => apply <- Qeq_alt in H
  | H : Qcompare _ _ = Lt |- _ => apply <- Qlt_alt in H
  | H : Qcompare _ _ = Gt |- _ => apply <- Qgt_alt in H
  end.

Lemma round_half_even_comp (x y : Q) :
  x == y -> Py.round_half_even x = Py.round_half_even y.
Proof.
  intros H. unfold Py.round_half_even.
  assert (Hf : Qfloor x = Qfloor y) by now rewrite H.
  rewrite Hf.
  assert (Hc : Qcompare (x - inject_Z (Qfloor y)) (1 # 2)
               = Qcompare (y - inject_Z (Qfloor y)) (1 # 2)) by now rewrite H.
  now rewrite Hc.
Qed.

Lemma round_comp (x y : Q) (n : nat) : x == y -> Py.round x n = Py.round y n.
Proof.
  intros H. unfold Py.round. f_equal.
  apply round_half_even_comp. now rewrite H.
Qed.

Lemma round_half_even_bounds (x : Q) :
  (Qfloor x <= Py.round_half_even x <= Qfloor x + 1)%Z.
Proof.
  unfold Py.round_half_even.
  destruct (Qcompare _ _); [destruct (Z.even _)| |]; lia.
Qed.

Lemma round_half_even_mono (x y : Q) :
  x <= y -> (Py.round_half_even x <= Py.round_half_even y)%Z.
Proof.
  intros Hxy.
  pose proof (Qfloor_resp_le _ _ Hxy) as Hf.
  pose proof (round_half_even_bounds x) as Bx.
  pose proof (round_half_even_bounds y) as By.
  destruct (Z.eq_dec (Qfloor x) (Qfloor y)) as [E|NE]; [|lia].
  unfold Py.round_half_even in *. rewrite <- E in *.
  destruct (Qcompare (x - inject_Z (Qfloor x)) (1 # 2)) eqn:Cx;
    destruct (Qcompare (y - inject_Z (Qfloor x)) (1 # 2)) eqn:Cy;
    try (destruct (Z.even (Qfloor x))); try lia;
    qcompare_facts; exfalso; lra.
Qed.

(** A value above an integer rounds to at least that integer. *)
Lemma round_half_even_above (x : Q) (k : Z) :
  inject_Z k <= x -> (k <= Py.round_half_even x)%Z.
Proof.
  intros H. apply Qfloor_resp_le in H. rewrite Qfloor_Z in H.
  pose proof (round_half_even_bounds x). lia.
Qed.

(** Rounding a half-integer [K/2]. *)
Lemma round_half_even_halves (K : Z) :
  Py.round_half_even (K # 2)
  = if Z.even K then (K / 2)%Z
    else if Z.even (K / 2) then (K / 2)%Z else (K / 2 + 1)%Z.
Proof.
  unfold Py.round_half_even.
  change (Qfloor (K # 2)) with (K / 2)%Z.
  pose proof (Z.div_mod K 2 ltac:(lia)) as Hdm.
  rewrite Zmod_even in Hdm.
  destruct (Z.even K).
  - assert (Hc : Qcompare ((K # 2) - inject_Z (K / 2)) (1 # 2) = Lt).
    { apply -> Qlt_alt. unfold Qlt, Qminus, Qplus, Qopp, inject_Z. simpl. lia. }
    now rewrite Hc.
  - assert (Hc : Qcompare ((K # 2) - inject_Z (K / 2)) (1 # 2) = Eq).
    { apply -> Qeq_alt. unfold Qeq, Qminus, Qplus, Qopp, inject_Z. simpl. lia. }
    now rewrite Hc.
Qed.

Lemma scale_1 : Py.scale 1 = 10%positive.
Proof. reflexivity. Qed.

Lemma scale_4 : Py.scale 4 = 10000%positive.
Proof. reflexivity. Qed.

(** Rounding to one decimal does not move a multiple of 0.05 across an
    integer threshold, unless its decimals are .95. *)
Lemma round1_threshold (K T : Z) :
  (K mod 20 <> 19)%Z ->
  Qle_bool (inject_Z T) (Py.round (K # 20) 1) = Qle_bool (inject_Z T) (K # 20).
Proof.
  intros Hmod. unfold Py.round. rewrite scale_1.
  rewrite (round_half_even_comp _ (K # 2))
    by (unfold Qeq, Qmult; simpl; lia).
  rewrite round_half_even_halves.
  pose proof (Z.div_mod K 2 ltac:(lia)) as Hdm.
  pose proof (Z.div_mod (K / 2) 2 ltac:(lia)) as Hdm2.
  pose proof (Z.div_mod K 20 ltac:(lia)) as Hdm20.
  pose proof (Z.mod_pos_bound K 20 ltac:(lia)) as Hb20.
  rewrite Zmod_even in Hdm, Hdm2.
  apply eq_true_iff_eq. rewrite !Qle_bool_iff. unfold Qle, inject_Z.
  cbn [Qnum Qden].
  destruct (Z.even K); [|destruct (Z.even (K / 2))]; lia.
Qed.

(* ------------------------------------------------------------------ *)
(** ** SignalEngine: the scores on a grid of 0.05 *)

Lemma politician_score_grid (name : string) (history : list PoliticianTrade) :
  exists K : Z, PoliticianScorer.score name history == K # 20 /\ (K mod 20 <> 19)%Z.
Proof.
  unfold PoliticianScorer.score.
  destruct (5 <? PoliticianScorer.late_count name history)%nat;
    profile_cases name;
    match goal with
    | |- exists K, ?q == _ /\ _ =>
        let v := eval vm_compute in (Qfloor (q * 20)) in
        exists v; split; [reflexivity | vm_compute; discriminate]
    end.
Qed.

Lemma cluster_score_integer (sym : string) (clusters : list (string * Cluster)) :
  exists m : Z, fst (ClusterDetector.score_for_symbol sym clusters) = inject_Z m.
Proof.
  unfold ClusterDetector.score_for_symbol.
  destruct (Py.get clusters sym) as [c|]; [exists (score c)|exists 0%Z]; reflexivity.
Qed.

Lemma raw_total_grid clusters history t :
  exists K : Z, raw_total clusters history t == K # 20 /\ (K mod 20 <> 19)%Z.
Proof.
  unfold raw_total.
  destruct (politician_score_grid (politician t) history) as (K & HK & Hmod).
  destruct (trade_score_integer t) as (n & _ & Hn).
  destruct (cluster_score_integer (symbol t) clusters) as (m & Hm).
  rewrite Hn, Hm.
  exists (K + 20 * (n + m))%Z. split.
  - rewrite HK. unfold Qeq, Qplus, inject_Z. cbn [Qnum Qden]. lia.
  - rewrite (Z.mul_comm 20), Z_mod_plus_full. exact Hmod.
Qed.

Lemma tier_of_comp (x y : Q) : x == y -> Spec.tier_of x = Spec.tier_of y.
Proof.
  intros H. unfold Spec.tier_of.
  assert (E : forall T, Qle_bool T x = Qle_bool T y).
  { intros T. apply eq_true_iff_eq. rewrite !Qle_bool_iff, H. tauto. }
  now rewrite !E.
Qed.

(** The tier of the rounded total is the tier of the total. *)
Lemma tier_of_round clusters history t :
  Spec.tier_of (Py.round (raw_total clusters history t) 1)
  = Spec.tier_of (raw_total clusters history t).
Proof.
  destruct (raw_total_grid clusters history t) as (K & HK & Hmod).
  rewrite (round_comp _ _ 1 HK), (tier_of_comp _ _ HK).
  unfold Spec.tier_of.
  change 80 with (inject_Z 80). change 65 with (inject_Z 65).
  change 40 with (inject_Z 40).
  now rewrite !round1_threshold.
Qed.

Lemma tier_of_some (x : Q) (r : string * string * string) :
  Spec.tier_of x = Some r -> 40 <= x.
Proof.
  unfold Spec.tier_of.
  qcase 80 x; [lra|]. qcase 65 x; [lra|]. qcase 40 x; [lra|discriminate].
Qed.

(** What [evaluate] returns: the trade's signal, with the total rounded to
    one decimal and the tier of the unrounded total. *)
Lemma evaluate_some clusters history t s :
  SignalEngine.evaluate clusters history t = Some s ->
  trade s = t
  /\ total_score s = Py.round (raw_total clusters history t) 1
  /\ Spec.tier_of (raw_total clusters history t)
     = Some (recommendation s, urgency s, suggested_position_size s).
Proof.
  unfold SignalEngine.evaluate, raw_total, Spec.tier_of.
  destruct (TradeScorer.score t) as [trade_pts trade_reasons].
  destruct (ClusterDetector.score_for_symbol (symbol t) clusters)
    as [cluster_pts cluster_reasons].
  cbn [fst].
  set (total := PoliticianScorer.score (politician t) history + trade_pts + cluster_pts).
  destruct (Py.Qlt_bool total SignalEngine.MIN_SCORE_FOR_SIGNAL); [discriminate|].
  destruct (Qle_bool 80 total); [intros [= <-]; auto|].
  destruct (Qle_bool 65 total); [intros [= <-]; auto|].
  destruct (Qle_bool 40 total); [intros [= <-]; auto|discriminate].
Qed.

(** [evaluate] emits exactly when the unrounded total reaches 40. *)
Lemma evaluate_none clusters history t :
  SignalEngine.evaluate clusters history t = None
  <-> raw_total clusters history t < 40.
Proof.
  unfold SignalEngine.evaluate, raw_total.
  destruct (TradeScorer.score t) as [trade_pts trade_reasons].
  destruct (ClusterDetector.score_for_symbol (symbol t) clusters)
    as [cluster_pts cluster_reasons].
  cbn [fst].
  set (total := PoliticianScorer.score (politician t) history + trade_pts + cluster_pts).
  unfold SignalEngine.MIN_SCORE_FOR_SIGNAL.
  qltcase total 40; [tauto|].
  qcase 80 total; [split; [discriminate|lra]|].
  qcase 65 total; [split; [discriminate|lra]|].
  qcase 40 total; [split; [discriminate|lra]|lra].
Qed.

(* ------------------------------------------------------------------ *)
(** ** SignalEngine: the loop and the dedup keys *)

Lemma key_eqb_eq (a b : string * Z) : SignalEngine.key_eqb a b = true <-> a = b.
Proof.
  unfold SignalEngine.key_eqb. destruct a as [s1 d1], b as [s2 d2]. simpl.
  rewrite andb_true_iff, String.eqb_eq, Z.eqb_eq.
  split; [intros [-> ->]; reflexivity | intros [= -> ->]; auto].
Qed.

Lemma key_in_iff (k : string * Z) (seen : list (string * Z)) :
  SignalEngine.key_in k seen = true <-> In k seen.
Proof.
  unfold SignalEngine.key_in. rewrite existsb_exists. split.
  - intros (x & Hx & E). apply key_eqb_eq in E. now subst.
  - intros H. exists k. split; [assumption|now apply key_eqb_eq].
Qed.

Lemma key_in_false (k : string * Z) (seen : list (string * Z)) :
  SignalEngine.key_in k seen = false <-> ~ In k seen.
Proof. rewrite <- key_in_iff. now destruct (SignalEngine.key_in k seen). Qed.

(** The loop appends, for each candidate in feed order, what [evaluate]
    returns for it. *)
Lemma loop_signals clusters history (batch : list PoliticianTrade) :
  forall signals seen,
  fst (fold_left (SignalEngine.step clusters history) batch (signals, seen))
  = signals ++ flat_map (fun t => match SignalEngine.evaluate clusters history t with
                                  | Some s => [s]
                                  | None => []
                                  end)
                        (candidates seen batch).
Proof.
  induction batch as [|t r IH]; intros signals seen; simpl.
  - now rewrite app_nil_r.
  - destruct (is_purchase t); simpl; [|apply IH].
    destruct (SignalEngine.key_in (SignalEngine.dedup_key t) seen); [apply IH|].
    simpl. destruct (SignalEngine.evaluate clusters history t).
    + rewrite IH, <- app_assoc. reflexivity.
    + apply IH.
Qed.

Lemma candidates_unseen (batch : list PoliticianTrade) :
  forall seen t, In t (candidates seen batch) -> ~ In (SignalEngine.dedup_key t) seen.
Proof.
  induction batch as [|u r IH]; intros seen t; simpl; [tauto|].
  destruct (is_purchase u); simpl; [|apply IH].
  destruct (SignalEngine.key_in (SignalEngine.dedup_key u) seen) eqn:E; [apply IH|].
  intros [<-|H].
  - now apply key_in_false.
  - apply IH in H. simpl in H. tauto.
Qed.

Lemma candidates_nodup (batch : list PoliticianTrade) :
  forall seen, NoDup (map SignalEngine.dedup_key (candidates seen batch)).
Proof.
  induction batch as [|u r IH]; intros seen; simpl; [constructor|].
  destruct (is_purchase u); simpl; [|apply IH].
  destruct (SignalEngine.key_in (SignalEngine.dedup_key u) seen); [apply IH|].
  simpl. constructor; [|apply IH].
  intros H. apply in_map_iff in H. destruct H as (t & Hk & Ht).
  apply candidates_unseen in Ht. apply Ht. left. now symmetry.
Qed.

(** A candidate is the first purchase of the batch with its key. *)
Lemma candidates_first (batch : list PoliticianTrade) :
  forall seen t, In t (candidates seen batch) ->
  find (fun u => is_purchase u
                 && SignalEngine.key_eqb (SignalEngine.dedup_key u)
                                         (SignalEngine.dedup_key t)) batch
  = Some t.
Proof.
  induction batch as [|u r IH]; intros seen t; simpl; [tauto|].
  destruct (is_purchase u); simpl; [|apply IH].
  destruct (SignalEngine.key_in (SignalEngine.dedup_key u) seen) eqn:E.
  - intros H. pose proof (candidates_unseen _ _ _ H) as Hu.
    apply key_in_iff in E.
    destruct (SignalEngine.key_eqb _ _) eqn:K; [|now apply IH with seen].
    apply key_eqb_eq in K. congruence.
  - intros [<-|H].
    + assert (K : SignalEngine.key_eqb (SignalEngine.dedup_key u)
                                      (SignalEngine.dedup_key u) = true)
        by now apply key_eqb_eq.
      now rewrite K.
    + pose proof (candidates_unseen _ _ _ H) as Hu.
      destruct (SignalEngine.key_eqb _ _) eqn:K; [|now apply IH in H].
      apply key_eqb_eq in K. exfalso. apply Hu. left. exact K.
Qed.

Lemma candidates_purchase (batch : list PoliticianTrade) :
  forall seen t, In t (candidates seen batch) -> In t batch /\ is_purchase t = true.
Proof.
  induction batch as [|u r IH]; intros seen t; simpl; [tauto|].
  destruct (is_purchase u) eqn:P; simpl.
  - destruct (SignalEngine.key_in _ _).
    + intros H. apply IH in H. tauto.
    + intros [<-|H]; [tauto|]. apply IH in H. tauto.
  - intros H. apply IH in H. tauto.
Qed.

(** Every produced signal comes from a candidate of the batch. *)
Lemma produced_from_candidate today batch history s :
  In s (SignalEngine.produced today batch history) ->
  In (trade s) (candidates [] batch)
  /\ SignalEngine.evaluate (ClusterDetector.detect_clusters today history 30)
                           history (trade s) = Some s.
Proof.
  unfold SignalEngine.produced. rewrite loop_signals. simpl.
  rewrite in_flat_map. intros (t & Ht & Hs).
  destruct (SignalEngine.evaluate _ _ t) as [s'|] eqn:E; [|destruct Hs].
  destruct Hs as [<-|[]].
  destruct (evaluate_some _ _ _ _ E) as (-> & _). now split.
Qed.

Lemma produced_keys_nodup today batch history :
  NoDup (map (fun s => SignalEngine.dedup_key (trade s))
             (SignalEngine.produced today batch history)).
Proof.
  unfold SignalEngine.produced. rewrite loop_signals. simpl.
  pose proof (candidates_nodup batch []) as Hnd.
  induction (candidates [] batch) as [|t r IH]; simpl; [constructor|].
  inversion Hnd as [|? ? Ht Hr]; subst.
  rewrite map_app. destruct (SignalEngine.evaluate _ _ t) as [s|] eqn:E; simpl.
  - destruct (evaluate_some _ _ _ _ E) as (Hst & _). rewrite Hst.
    constructor; [|now apply IH].
    intros H. apply Ht. apply in_map_iff in H. destruct H as (s' & Hk & Hs').
    apply in_flat_map in Hs'. destruct Hs' as (t' & Ht' & Hs').
    destruct (SignalEngine.evaluate _ _ t') as [s''|] eqn:E'; [|destruct Hs'].
    destruct Hs' as [<-|[]].
    destruct (evaluate_some _ _ _ _ E') as (Hst' & _).
    rewrite <- Hk, Hst'. now apply in_map.
  - now apply IH.
Qed.

(* ------------------------------------------------------------------ *)
(** ** SignalEngine: the sort *)

Lemma insert_desc_perm (s : TradeSignal) (l : list TradeSignal) :
  Permutation (s :: l) (SignalEngine.insert_desc s l).
Proof.
  induction l as [|y r IH]; simpl; [reflexivity|].
  destruct (Qle_bool (total_score y) (total_score s)); [reflexivity|].
  rewrite perm_swap. now apply perm_skip.
Qed.

Lemma sort_desc_perm (l : list TradeSignal) :
  Permutation l (SignalEngine.sort_desc l).
Proof.
  induction l as [|s r IH]; simpl; [constructor|].
  rewrite <- insert_desc_perm. now apply perm_skip.
Qed.

Lemma insert_desc_sorted (s : TradeSignal) (l : list TradeSignal) :
  StronglySorted score_ge l -> StronglySorted score_ge (SignalEngine.insert_desc s l).
Proof.
  induction l as [|y r IH]; simpl; intros Hs.
  - repeat constructor.
  - inversion Hs as [|? ? Hr Hy]; subst.
    qcase (total_score y) (total_score s).
    + constructor; [assumption|].
      constructor; [exact E|].
      eapply Forall_impl; [|exact Hy].
      unfold score_ge. intros a Ha. lra.
    + constructor; [now apply IH|].
      apply (Permutation_Forall (insert_desc_perm s r)).
      constructor; [unfold score_ge; lra|assumption].
Qed.

Lemma sort_desc_sorted (l : list TradeSignal) :
  StronglySorted score_ge (SignalEngine.sort_desc l).
Proof.
  induction l as [|s r IH]; simpl; [constructor|].
  now apply insert_desc_sorted.
Qed.

(** Stability: among the signals of one score, the order is kept. *)
Lemma insert_desc_stable (k : Q) (s : TradeSignal) (l : list TradeSignal) :
  filter (fun x => Qeq_bool (total_score x) k) (SignalEngine.insert_desc s l)
  = filter (fun x => Qeq_bool (total_score x) k) (s :: l).
Proof.
  induction l as [|y r IH]; [reflexivity|].
  cbn [SignalEngine.insert_desc].
  qcase (total_score y) (total_score s); [reflexivity|].
  cbn [filter] in *. rewrite IH.
  destruct (Qeq_bool (total_score s) k) eqn:Es; [|reflexivity].
  destruct (Qeq_bool (total_score y) k) eqn:Ey; [|reflexivity].
  apply Qeq_bool_eq in Es, Ey. exfalso. lra.
Qed.

Lemma sort_desc_stable (k : Q) (l : list TradeSignal) :
  filter (fun x => Qeq_bool (total_score x) k) (SignalEngine.sort_desc l)
  = filter (fun x => Qeq_bool (total_score x) k) l.
Proof.
  induction l as [|s r IH]; [reflexivity|].
  cbn [SignalEngine.sort_desc fold_right].
  rewrite insert_desc_stable. cbn [filter].
  fold (SignalEngine.sort_desc r). now rewrite IH.
Qed.

Lemma round_above (x : Q) (k : Z) (n : nat) :
  inject_Z k <= x -> inject_Z k <= Py.round x n.
Proof.
  intros H. unfold Py.round.
  assert (Hk : inject_Z (k * Zpos (Py.scale n)) <= x * (Zpos (Py.scale n) # 1)).
  { rewrite inject_Z_mult. apply Qmult_le_compat_r; [exact H|].
    unfold Qle. simpl. lia. }
  apply round_half_even_above in Hk.
  unfold Qle, inject_Z. cbn [Qnum Qden]. lia.
Qed.

(* ------------------------------------------------------------------ *)
(** ** SignalEngine: the two claims *)

(** C4. [generate_signals] emits no signal whose total is below 40; every
    emitted signal carries the tier, urgency and size of its total, with the
    boundaries at 80, 65 and 40 (both for the total as summed and for the
    stored total, rounded to one decimal); the list is in descending order of
    total score and signals of equal score keep the order in which they were
    produced. *)
Theorem C4_signals_tiered_and_sorted today batch history :
  let out := SignalEngine.generate_signals today batch history in
  let clusters := ClusterDetector.detect_clusters today history 30 in
  Forall (fun s =>
            total_score s = Py.round (raw_total clusters history (trade s)) 1
            /\ 40 <= raw_total clusters history (trade s)
            /\ 40 <= total_score s
            /\ Spec.tier_of (raw_total clusters history (trade s))
               = Some (recommendation s, urgency s, suggested_position_size s)
            /\ Spec.tier_of (total_score s)
               = Some (recommendation s, urgency s, suggested_position_size s)) out
  /\ StronglySorted score_ge out
  /\ Permutation (SignalEngine.produced today batch history) out
  /\ (forall k : Q,
        filter (fun s => Qeq_bool (total_score s) k) out
        = filter (fun s => Qeq_bool (total_score s) k)
                 (SignalEngine.produced today batch history)).
Proof.
  intros out clusters. unfold out, SignalEngine.generate_signals.
  split; [|split; [apply sort_desc_sorted|split;
                   [apply sort_desc_perm|intros k; apply sort_desc_stable]]].
  apply (Permutation_Forall (sort_desc_perm _)).
  apply Forall_forall. intros s Hs.
  apply produced_from_candidate in Hs. destruct Hs as (_ & Hev).
  fold clusters in Hev.
  destruct (evaluate_some _ _ _ _ Hev) as (_ & Htot & Htier).
  pose proof (tier_of_some _ _ Htier) as H40.
  repeat split; auto.
  - rewrite Htot. change 40 with (inject_Z 40). now apply round_above.
  - rewrite Htot, tier_of_round. exact Htier.
Qed.

Lemma nodup_filter_key {A : Type} (g : A -> string * Z) (k : string * Z) (l : list A) :
  NoDup (map g l) ->
  (List.length (filter (fun a => SignalEngine.key_eqb (g a) k) l) <= 1)%nat.
Proof.
  induction l as [|a r IH]; simpl; intros Hnd; [lia|].
  inversion Hnd as [|? ? Ha Hr]; subst.
  destruct (SignalEngine.key_eqb (g a) k) eqn:E; [|now apply IH].
  apply key_eqb_eq in E. simpl.
  assert (Hnil : filter (fun a0 => SignalEngine.key_eqb (g a0) k) r = []).
  { destruct (filter _ r) as [|b r'] eqn:F; [reflexivity|].
    assert (Hb : In b (filter (fun a0 => SignalEngine.key_eqb (g a0) k) r))
      by (rewrite F; now left).
    apply filter_In in Hb. destruct Hb as (Hb & Kb).
    apply key_eqb_eq in Kb. exfalso. apply Ha. rewrite E, <- Kb. now apply in_map. }
  rewrite Hnil. simpl. lia.
Qed.

(** C5. In one pass [generate_signals] emits at most one signal for a
    (symbol, transaction date) pair, and an emitted signal comes from the
    first purchase of the batch, in feed order, with that pair, the only one
    of them whose total is compared with the threshold. *)
Theorem C5_one_signal_per_symbol_and_day today batch history :
  let out := SignalEngine.generate_signals today batch history in
  let clusters := ClusterDetector.detect_clusters today history 30 in
  (forall (sym : string) (day : Z),
      (List.length (filter (fun s => SignalEngine.key_eqb
                                       (SignalEngine.dedup_key (trade s)) (sym, day))
                           out) <= 1)%nat)
  /\ Forall (fun s =>
               find (fun u => is_purchase u
                              && SignalEngine.key_eqb (SignalEngine.dedup_key u)
                                   (SignalEngine.dedup_key (trade s))) batch
               = Some (trade s)
               /\ 40 <= raw_total clusters history (trade s)) out.
Proof.
  intros out clusters. unfold out, SignalEngine.generate_signals. split.
  - intros sym day. apply nodup_filter_key.
    eapply Permutation_NoDup; [|apply produced_keys_nodup].
    apply Permutation_map, sort_desc_perm.
  - apply (Permutation_Forall (sort_desc_perm _)).
    apply Forall_forall. intros s Hs.
    apply produced_from_candidate in Hs. destruct Hs as (Hc & Hev).
    split; [now apply candidates_first with (seen := [])|].
    fold clusters in Hev.
    destruct (evaluate_some _ _ _ _ Hev) as (_ & _ & Htier).
    now apply tier_of_some in Htier.
Qed.

(** The first purchase of a (symbol, day) pair takes the key even when its
    total stays below 40: a later purchase of the pair is not scored. *)
Example first_purchase_takes_the_key :
  SignalEngine.generate_signals 100 [small_unknown; mega_pelosi] [] = []
  /\ map (fun s => (trade s, total_score s, recommendation s))
         (SignalEngine.generate_signals 100 [mega_pelosi; small_unknown] [])
     = [(mega_pelosi, 472 # 10, "WATCH")].
Proof. split; reflexivity. Qed.

(* ------------------------------------------------------------------ *)
(** ** PolitibotTrader.execute_signal *)

Lemma truthy_false (x : Q) : Py.truthy x = false <-> x == 0.
Proof.
  unfold Py.truthy. rewrite negb_false_iff. apply Qeq_bool_iff.
Qed.

Lemma truthy_true (x : Q) : Py.truthy x = true <-> ~ x == 0.
Proof.
  rewrite <- truthy_false. destruct (Py.truthy x); split; congruence.
Qed.

(** C8 as stated fails: a price source that answers 0.0 makes
    [execute_signal] return nothing although fewer than 5 positions are
    open, the symbol has no position and a price is available. *)
Lemma C8_zero_price_is_rejected :
  let self := PolitibotTrader.init 100000 true in
  let w := world_at (Some 0) in
  fst (PolitibotTrader.execute_signal w self buy_nvda) = Returned None
  /\ ~ ((PolitibotTrader.MAX_POSITIONS <= List.length (PolitibotTrader._positions self))%nat
        \/ Py.has_key (PolitibotTrader._positions self) (symbol (trade buy_nvda)) = true
        \/ get_price w (symbol (trade buy_nvda)) = None).
Proof.
  split; [reflexivity|].
  intros [H|[H|H]]; [simpl in H; unfold PolitibotTrader.MAX_POSITIONS in H; lia
                    | discriminate | discriminate].
Qed.

(** C8, amended. [execute_signal] returns nothing, without raising and with
    the object unchanged, exactly when (a) 5 or more positions are open, or
    (b) the symbol already has an open position, or (c) the price source has
    no price for the symbol or answers zero; the checks are made in this
    order, and with 5 positions open every signal is rejected. *)
Theorem C8_rejections (w : World) (self : PolitibotTrader.t) (s : TradeSignal) :
  let sym := symbol (trade s) in
  let r := PolitibotTrader.execute_signal w self s in
  (fst r = Returned None
   <-> ((PolitibotTrader.MAX_POSITIONS <= List.length (PolitibotTrader._positions self))%nat
        \/ Py.has_key (PolitibotTrader._positions self) sym = true
        \/ get_price w sym = None
        \/ exists price, get_price w sym = Some price /\ price == 0))
  /\ (fst r = Returned None -> snd r = self)
  /\ ((5 <= List.length (PolitibotTrader._positions self))%nat ->
      r = (Returned None, self)).
Proof.
  intros sym r. unfold r, PolitibotTrader.execute_signal. fold sym.
  destruct (PolitibotTrader.MAX_POSITIONS <=? _)%nat eqn:Ea.
  { apply Nat.leb_le in Ea. cbn [fst snd]. tauto. }
  apply Nat.leb_gt in Ea.
  split; [|split;
           [|intros H; unfold PolitibotTrader.MAX_POSITIONS in Ea; exfalso; lia]].
  - destruct (Py.has_key _ sym) eqn:Eb; [cbn [fst]; tauto|].
    destruct (get_price w sym) as [price|] eqn:Ec; [|cbn [fst]; tauto].
    destruct (Py.truthy price) eqn:Et; cbn [negb].
    + apply truthy_true in Et.
      assert (Hno : ~ ((PolitibotTrader.MAX_POSITIONS
                        <= List.length (PolitibotTrader._positions self))%nat
                       \/ false = true \/ Some price = None
                       \/ exists p, Some price = Some p /\ p == 0)).
      { intros [H|[H|[H|(p & [= <-] & H)]]]; try discriminate; [lia|tauto]. }
      destruct (Qeq_bool _ 0); [cbn [fst]; split; [discriminate|tauto]|].
      destruct (if PolitibotTrader.paper self then _ else _);
        cbn [fst]; split; try discriminate; tauto.
    + apply truthy_false in Et. cbn [fst]. split; [|reflexivity].
      intros _. right. right. right. now exists price.
  - destruct (Py.has_key _ sym); [reflexivity|].
    destruct (get_price w sym) as [price|]; [|reflexivity].
    destruct (Py.truthy price); cbn [negb]; [|reflexivity].
    destruct (Qeq_bool _ 0); [discriminate|].
    destruct (if PolitibotTrader.paper self then _ else _); discriminate.
Qed.

(** The amended statement on a trader that holds NVDA already. *)
Lemma C8_rejections_witness :
  Py.has_key (PolitibotTrader._positions after_buy) "NVDA" = true
  /\ fst (PolitibotTrader.execute_signal (world_at (Some 100)) after_buy buy_nvda)
     = Returned None
  /\ snd (PolitibotTrader.execute_signal (world_at (Some 100)) after_buy buy_nvda)
     = after_buy.
Proof.
  assert (H : fst (PolitibotTrader.execute_signal (world_at (Some 100)) after_buy buy_nvda)
              = Returned None).
  { apply (proj2 (proj1 (C8_rejections (world_at (Some 100)) after_buy buy_nvda))).
    right. left. reflexivity. }
  split; [reflexivity|]. split; [exact H|].
  apply (proj1 (proj2 (C8_rejections (world_at (Some 100)) after_buy buy_nvda)) H).
Defined.

Lemma int_small (x : Q) : 0 <= x -> x < 1 -> Py.int x = 0%Z.
Proof.
  destruct x as [n d]. unfold Py.int, Qle, Qlt. cbn [Qnum Qden].
  intros H0 H1. apply Z.quot_small. lia.
Qed.

(** C10. When the price exceeds 10% of a non-negative equity, an accepted
    signal (fewer than 5 positions, symbol not held, price available, the
    per-share risk not zero, the order placed) makes [execute_signal] store
    and return an open position of 0 shares: the cap
    int(equity x 0.10 / price) = 0 is applied after the floor of one share. *)
Theorem C10_zero_share_position (w : World) (self : PolitibotTrader.t)
        (s : TradeSignal) (price : Q) :
  let sym := symbol (trade s) in
  (List.length (PolitibotTrader._positions self) < 5)%nat ->
  Py.has_key (PolitibotTrader._positions self) sym = false ->
  get_price w sym = Some price ->
  0 <= PolitibotTrader._equity self ->
  PolitibotTrader._equity self * (10 # 100) < price ->
  ~ price - Py.round (price * (1 - PolitibotTrader.STOP_LOSS_PCT)) 4 == 0 ->
  (PolitibotTrader.paper self = true
   \/ exists oid, submit_order w sym 0 price = Some oid) ->
  exists tr self',
    PolitibotTrader.execute_signal w self s = (Returned (Some tr), self')
    /\ shares tr = 0%Z
    /\ is_open tr = true
    /\ Py.int (PolitibotTrader._equity self * (10 # 100) / price) = 0%Z
    /\ Py.get (PolitibotTrader._positions self') sym = Some tr.
Proof.
  intros sym Hlen Hkey Hprice Heq Hcap Hrisk Horder.
  assert (Hpos : 0 < price) by lra.
  assert (Hint : Py.int (PolitibotTrader._equity self * (10 # 100) / price) = 0%Z).
  { apply int_small.
    - apply Qle_shift_div_l; [exact Hpos|lra].
    - apply Qlt_shift_div_r; [exact Hpos|lra]. }
  unfold PolitibotTrader.execute_signal. fold sym.
  assert (Ea : (PolitibotTrader.MAX_POSITIONS
                <=? List.length (PolitibotTrader._positions self))%nat = false)
    by (apply Nat.leb_gt; exact Hlen).
  rewrite Ea, Hkey, Hprice.
  assert (Et : Py.truthy price = true) by (apply truthy_true; lra).
  rewrite Et. cbn [negb].
  assert (Er : Qeq_bool (price - Py.round (price * (1 - PolitibotTrader.STOP_LOSS_PCT)) 4) 0
               = false).
  { destruct (Qeq_bool _ 0) eqn:E; [|reflexivity].
    apply Qeq_bool_iff in E. contradiction. }
  rewrite Er, Hint.
  rewrite Z.min_r by lia.
  destruct (PolitibotTrader.paper self) eqn:Ep.
  - eexists. eexists. split; [reflexivity|].
    cbn [shares is_open PolitibotTrader._positions].
    repeat split. now rewrite get_set, String.eqb_refl.
  - destruct Horder as [Hp|(oid & Ho)]; [discriminate|]. rewrite Ho.
    eexists. eexists. split; [reflexivity|].
    cbn [shares is_open PolitibotTrader._positions].
    repeat split. now rewrite get_set, String.eqb_refl.
Qed.

(** A paper trader with 100,000 and a share quoted at 20,000. *)
Lemma C10_zero_share_position_witness :
  exists tr self',
    PolitibotTrader.execute_signal (world_at (Some 20000))
                                   (PolitibotTrader.init 100000 true) buy_nvda
    = (Returned (Some tr), self')
    /\ shares tr = 0%Z
    /\ is_open tr = true
    /\ Py.int (100000 * (10 # 100) / 20000) = 0%Z
    /\ Py.get (PolitibotTrader._positions self') "NVDA" = Some tr.
Proof.
  apply (C10_zero_share_position (world_at (Some 20000))
           (PolitibotTrader.init 100000 true) buy_nvda 20000).
  - simpl. lia.
  - reflexivity.
  - reflexivity.
  - simpl. lra.
  - simpl. lra.
  - vm_compute. discriminate.
  - left. reflexivity.
Defined.

Example zero_share_position_value :
  match PolitibotTrader.execute_signal (world_at (Some 20000))
          (PolitibotTrader.init 100000 true) buy_nvda with
  | (Returned (Some tr), self') =>
      shares tr = 0%Z /\ entry_price tr = 20000
      /\ map fst (PolitibotTrader._positions self') = ["NVDA"]
  | _ => False
  end.
Proof. vm_compute. repeat split. Qed.

(* ------------------------------------------------------------------ *)
(** ** PolitibotTrader.update_positions: the loop *)

Lemma in_set {V : Type} (d : list (string * V)) (k : string) (x : V) a v :
  In (a, v) (Py.set d k x) -> (a = k /\ v = x) \/ In (a, v) d.
Proof.
  induction d as [|[k0 v0] r IH]; simpl.
  - intros [[= <- <-]|[]]. now left.
  - destruct (String.eqb k0 k) eqn:E; simpl.
    + apply String.eqb_eq in E. subst k0.
      intros [[= <- <-]|H]; [now left|right; now right].
    + intros [H|H]; [right; now left|].
      apply IH in H. tauto.
Qed.

Lemma update_one_positions prices self closed sym tr :
  PolitibotTrader._positions
    (fst (PolitibotTrader.update_one prices (self, closed) (sym, tr)))
  = match after_tick prices sym tr with
    | Some tr1 => Py.set (PolitibotTrader._positions self) sym tr1
    | None => Py.del (PolitibotTrader._positions self) sym
    end.
Proof.
  unfold PolitibotTrader.update_one, after_tick.
  destruct (PolitibotTrader.exit_reason _ _); reflexivity.
Qed.

(** The loop, key by key: a position of the snapshot is replaced by what
    the tick makes of it; other keys are not touched. *)
Lemma loop_positions prices (items : list (string * ExecutedTrade)) :
  forall (st : PolitibotTrader.t * list string) (k : string),
  NoDup (map fst items) ->
  NoDup (map fst (PolitibotTrader._positions (fst st))) ->
  let st' := fold_left (PolitibotTrader.update_one prices) items st in
  NoDup (map fst (PolitibotTrader._positions (fst st')))
  /\ Py.get (PolitibotTrader._positions (fst st')) k
     = match Py.get items k with
       | Some tr => after_tick prices k tr
       | None => Py.get (PolitibotTrader._positions (fst st)) k
       end.
Proof.
  induction items as [|[sym tr] r IH]; intros [self closed] k Hi Hp;
    cbn [fold_left].
  - split; [assumption|reflexivity].
  - inversion Hi as [|? ? Hsym Hr]; subst.
    assert (Hp1 : NoDup (map fst (PolitibotTrader._positions
                   (fst (PolitibotTrader.update_one prices (self, closed) (sym, tr)))))).
    { rewrite update_one_positions.
      destruct (after_tick prices sym tr); [now apply nodup_set|now apply nodup_del]. }
    destruct (IH (PolitibotTrader.update_one prices (self, closed) (sym, tr)) k Hr Hp1)
      as (Hnd & Hget).
    split; [exact Hnd|]. cbv zeta in Hget. rewrite Hget.
    rewrite update_one_positions. cbn [Py.get fst].
    destruct (String.eqb sym k) eqn:E.
    + apply String.eqb_eq in E. subst k.
      apply get_none_iff in Hsym. rewrite Hsym.
      destruct (after_tick prices sym tr).
      * now rewrite get_set, String.eqb_refl.
      * now rewrite get_del, String.eqb_refl.
    + destruct (Py.get r k); [reflexivity|].
      destruct (after_tick prices sym tr).
      * now rewrite get_set, E.
      * now rewrite get_del, E.
Qed.

Lemma update_positions_state self prices :
  snd (PolitibotTrader.update_positions self prices)
  = fst (fold_left (PolitibotTrader.update_one prices)
                   (PolitibotTrader._positions self) (self, [])).
Proof.
  unfold PolitibotTrader.update_positions.
  now destruct (fold_left _ _ _).
Qed.

Lemma update_positions_get self prices k :
  NoDup (map fst (PolitibotTrader._positions self)) ->
  Py.get (PolitibotTrader._positions (snd (PolitibotTrader.update_positions self prices))) k
  = match Py.get (PolitibotTrader._positions self) k with
    | Some tr => after_tick prices k tr
    | None => None
    end.
Proof.
  intros Hnd. rewrite update_positions_state.
  destruct (loop_positions prices (PolitibotTrader._positions self) (self, []) k Hnd Hnd)
    as (_ & Hget).
  cbv zeta in Hget. rewrite Hget. cbn [fst].
  now destruct (Py.get (PolitibotTrader._positions self) k).
Qed.

Lemma update_positions_nodup self prices :
  NoDup (map fst (PolitibotTrader._positions self)) ->
  NoDup (map fst (PolitibotTrader._positions
                    (snd (PolitibotTrader.update_positions self prices)))).
Proof.
  intros Hnd. rewrite update_positions_state.
  apply (loop_positions prices (PolitibotTrader._positions self) (self, []) "" Hnd Hnd).
Qed.

(* ------------------------------------------------------------------ *)
(** ** The trailing stop *)

Lemma round4_on_grid (x : Q) : on_grid4 (Py.round x 4).
Proof. now exists (Py.round_half_even (x * (Zpos (Py.scale 4) # 1))). Qed.

Lemma ratchet_stop (price : Q) (tr : ExecutedTrade) :
  stop_loss (PolitibotTrader.ratchet price tr)
  = if Py.Qlt_bool (stop_loss tr) (price * (1 - PolitibotTrader.TRAILING_STOP_PCT))
    then Py.round (price * (1 - PolitibotTrader.TRAILING_STOP_PCT)) 4
    else stop_loss tr.
Proof.
  unfold PolitibotTrader.ratchet. now destruct (Py.Qlt_bool _ _).
Qed.

Lemma ratchet_on_grid (price : Q) (tr : ExecutedTrade) :
  on_grid4 (stop_loss tr) -> on_grid4 (stop_loss (PolitibotTrader.ratchet price tr)).
Proof.
  intros H. rewrite ratchet_stop.
  destruct (Py.Qlt_bool _ _); [apply round4_on_grid|exact H].
Qed.

(** A grid value below [x] is at most [x] rounded to the grid. *)
Lemma round4_above_grid (k : Z) (x : Q) :
  Qmake k (Py.scale 4) < x -> Qmake k (Py.scale 4) <= Py.round x 4.
Proof.
  intros H. unfold Py.round.
  assert (Hk : inject_Z k <= x * (Zpos (Py.scale 4) # 1)).
  { rewrite scale_4 in *. unfold Qlt in H. unfold Qle, Qmult, inject_Z.
    cbn [Qnum Qden] in *. lia. }
  apply round_half_even_above in Hk.
  unfold Qle. cbn [Qnum Qden]. nia.
Qed.

Lemma ratchet_never_lowers (price : Q) (tr : ExecutedTrade) :
  on_grid4 (stop_loss tr) ->
  stop_loss tr <= stop_loss (PolitibotTrader.ratchet price tr).
Proof.
  intros (k & Hk). rewrite ratchet_stop.
  qltcase (stop_loss tr) (price * (1 - PolitibotTrader.TRAILING_STOP_PCT)); [|lra].
  rewrite Hk in *. now apply round4_above_grid.
Qed.

Lemma round4_mono (x y : Q) : x <= y -> Py.round x 4 <= Py.round y 4.
Proof.
  intros H. unfold Py.round.
  assert (Hs : x * (Zpos (Py.scale 4) # 1) <= y * (Zpos (Py.scale 4) # 1)).
  { apply Qmult_le_compat_r; [exact H|]. unfold Qle. simpl. lia. }
  apply round_half_even_mono in Hs.
  unfold Qle. cbn [Qnum Qden]. nia.
Qed.

(** After a tick at [p1], a tick at a price that is not higher leaves the
    stop where it is. *)
Lemma ratchet_flat_or_falling (p1 p2 : Q) (tr : ExecutedTrade) :
  on_grid4 (stop_loss tr) -> p2 <= p1 ->
  stop_loss (PolitibotTrader.ratchet p2 (PolitibotTrader.ratchet p1 tr))
  == stop_loss (PolitibotTrader.ratchet p1 tr).
Proof.
  intros Hg Hp.
  pose proof (ratchet_never_lowers p2 _ (ratchet_on_grid p1 tr Hg)) as Hge.
  rewrite (ratchet_stop p2) in *.
  unfold PolitibotTrader.TRAILING_STOP_PCT in *.
  qltcase (stop_loss (PolitibotTrader.ratchet p1 tr)) (p2 * (1 - (12 # 100)));
    [|reflexivity].
  apply Qle_antisym; [|exact Hge].
  rewrite (ratchet_stop p1) in *.
  unfold PolitibotTrader.TRAILING_STOP_PCT in *.
  qltcase (stop_loss tr) (p1 * (1 - (12 # 100))).
  - apply round4_mono. lra.
  - exfalso. lra.
Qed.

(* ------------------------------------------------------------------ *)
(** ** Reachable states *)

Lemma execute_signal_ok w self s :
  positions_ok self -> positions_ok (snd (PolitibotTrader.execute_signal w self s)).
Proof.
  intros (Hnd & Hg). unfold PolitibotTrader.execute_signal.
  destruct (_ <=? _)%nat; [now split|].
  destruct (Py.has_key _ _); [now split|].
  destruct (get_price w _) as [price|]; [|now split].
  destruct (negb (Py.truthy price)); [now split|].
  destruct (Qeq_bool _ 0); [now split|].
  destruct (if PolitibotTrader.paper self then _ else _); [|now split].
  cbn [snd]. split; cbn [PolitibotTrader._positions].
  - now apply nodup_set.
  - apply Forall_forall. intros [a v] Hin. cbn [snd].
    apply in_set in Hin. destruct Hin as [(_ & ->)|Hin].
    + cbn [stop_loss]. apply round4_on_grid.
    + rewrite Forall_forall in Hg. apply (Hg _ Hin).
Qed.

Lemma after_tick_on_grid prices sym tr tr' :
  on_grid4 (stop_loss tr) -> after_tick prices sym tr = Some tr' ->
  on_grid4 (stop_loss tr').
Proof.
  unfold after_tick. intros Hg.
  destruct (PolitibotTrader.exit_reason _ _); [discriminate|].
  intros [= <-]. now apply ratchet_on_grid.
Qed.

Lemma update_positions_ok self prices :
  positions_ok self -> positions_ok (snd (PolitibotTrader.update_positions self prices)).
Proof.
  intros (Hnd & Hg). split; [now apply update_positions_nodup|].
  apply Forall_forall. intros [k tr'] Hin. cbn [snd].
  apply in_get_nodup in Hin; [|now apply update_positions_nodup].
  rewrite update_positions_get in Hin by assumption.
  destruct (Py.get (PolitibotTrader._positions self) k) as [tr|] eqn:E; [|discriminate].
  apply get_some_in in E. rewrite Forall_forall in Hg.
  apply (after_tick_on_grid prices k tr tr' (Hg _ E) Hin).
Qed.

Lemma reachable_ok self : reachable self -> positions_ok self.
Proof.
  induction 1 as [capital paper_mode | w self s _ IH | self prices _ IH].
  - split; constructor.
  - now apply execute_signal_ok.
  - now apply update_positions_ok.
Qed.

Lemma position_on_grid self sym tr :
  positions_ok self -> Py.get (PolitibotTrader._positions self) sym = Some tr ->
  on_grid4 (stop_loss tr).
Proof.
  intros (_ & Hg) H. apply get_some_in in H.
  rewrite Forall_forall in Hg. apply (Hg _ H).
Qed.

Lemma run_ticks_absent ticks :
  forall self sym, positions_ok self ->
  Py.get (PolitibotTrader._positions self) sym = None ->
  Py.get (PolitibotTrader._positions (run_ticks self ticks)) sym = None.
Proof.
  induction ticks as [|prices r IH]; intros self sym Hok Hnone; cbn [run_ticks];
    [assumption|].
  apply IH; [now apply update_positions_ok|].
  rewrite update_positions_get by apply Hok. now rewrite Hnone.
Qed.

(** Over any number of ticks, the stop of a position that is still open is
    not below where it started. *)
Lemma run_ticks_monotone ticks :
  forall self sym tr tr', positions_ok self ->
  Py.get (PolitibotTrader._positions self) sym = Some tr ->
  Py.get (PolitibotTrader._positions (run_ticks self ticks)) sym = Some tr' ->
  stop_loss tr <= stop_loss tr'.
Proof.
  induction ticks as [|prices r IH]; intros self sym tr tr' Hok Hget Hrun;
    cbn [run_ticks] in Hrun.
  - rewrite Hget in Hrun. injection Hrun as <-. lra.
  - pose proof (update_positions_ok self prices Hok) as Hok1.
    pose proof (update_positions_get self prices sym (proj1 Hok)) as H1.
    rewrite Hget in H1. unfold after_tick in H1.
    destruct (PolitibotTrader.exit_reason _ _).
    + rewrite (run_ticks_absent r _ sym Hok1 H1) in Hrun. discriminate.
    + pose proof (IH _ _ _ _ Hok1 H1 Hrun) as Hle.
      pose proof (ratchet_never_lowers
                    (Py.get_default prices sym (entry_price tr)) tr
                    (position_on_grid _ _ _ Hok Hget)).
      lra.
Qed.

(** C2 as stated fails: at 110.00001 the candidate 96.8000088 exceeds the
    stop 92, and the stop becomes 96.8, the candidate rounded to four
    decimals, not the candidate. *)
Lemma C2_raised_stop_is_rounded :
  let price := 11000001 # 100000 in
  let candidate := price * (1 - PolitibotTrader.TRAILING_STOP_PCT) in
  exists tr tr',
    Py.get (PolitibotTrader._positions after_buy) "NVDA" = Some tr
    /\ Py.get (PolitibotTrader._positions
                 (snd (PolitibotTrader.update_positions after_buy [("NVDA", price)])))
              "NVDA" = Some tr'
    /\ stop_loss tr == 92
    /\ stop_loss tr < candidate
    /\ stop_loss tr' == 968 # 10
    /\ ~ stop_loss tr' == candidate.
Proof.
  eexists. eexists.
  split; [vm_compute; reflexivity|].
  split; [vm_compute; reflexivity|].
  vm_compute. repeat split; discriminate.
Qed.

(** C2, amended. For a position of a reachable trader and a tick that prices
    its symbol at p: the stop becomes p x (1 - 0.12) rounded to four decimals
    exactly when p x (1 - 0.12) exceeds the current stop and is otherwise
    left unchanged; it never decreases, neither in this tick nor over any
    sequence of [update_positions] calls while the position is open; the
    position stays open with the new stop unless the tick closes it; and a
    following tick at a price that is not higher leaves the stop as it is. *)
Theorem C2_trailing_stop (self : PolitibotTrader.t) (prices : list (string * Q))
        (sym : string) (tr : ExecutedTrade) (p : Q) :
  reachable self ->
  Py.get (PolitibotTrader._positions self) sym = Some tr ->
  Py.get prices sym = Some p ->
  let candidate := p * (1 - (12 # 100)) in
  let tr' := PolitibotTrader.ratchet p tr in
  let self' := snd (PolitibotTrader.update_positions self prices) in
  stop_loss tr' = (if Py.Qlt_bool (stop_loss tr) candidate
                   then Py.round candidate 4 else stop_loss tr)
  /\ stop_loss tr <= stop_loss tr'
  /\ Py.get (PolitibotTrader._positions self') sym
     = match PolitibotTrader.exit_reason p tr' with
       | Some _ => None
       | None => Some tr'
       end
  /\ (forall ticks tr'',
        Py.get (PolitibotTrader._positions (run_ticks self ticks)) sym = Some tr'' ->
        stop_loss tr <= stop_loss tr'')
  /\ (forall p2, p2 <= p ->
        stop_loss (PolitibotTrader.ratchet p2 tr') == stop_loss tr').
Proof.
  intros Hreach Hget Hprice candidate tr' self'.
  pose proof (reachable_ok _ Hreach) as Hok.
  pose proof (position_on_grid _ _ _ Hok Hget) as Hg.
  split; [apply ratchet_stop|].
  split; [now apply ratchet_never_lowers|].
  split.
  - unfold self'. rewrite update_positions_get by apply Hok.
    rewrite Hget. unfold after_tick, Py.get_default. now rewrite Hprice.
  - split.
    + intros ticks tr'' Hrun. now apply (run_ticks_monotone ticks self sym).
    + intros p2 Hp2. now apply ratchet_flat_or_falling.
Qed.

(** The amended statement on the position bought at 100, at a tick of 115
    followed by a tick of 110. *)
Lemma C2_trailing_stop_witness :
  reachable after_buy
  /\ exists tr,
       Py.get (PolitibotTrader._positions after_buy) "NVDA" = Some tr
       /\ stop_loss tr <= stop_loss (PolitibotTrader.ratchet 115 tr)
       /\ stop_loss (PolitibotTrader.ratchet 110 (PolitibotTrader.ratchet 115 tr))
          == stop_loss (PolitibotTrader.ratchet 115 tr).
Proof.
  assert (Hr : reachable after_buy) by (apply reach_execute, reach_init).
  split; [exact Hr|].
  destruct (Py.get (PolitibotTrader._positions after_buy) "NVDA") as [tr|] eqn:E;
    [|discriminate E].
  exists tr. split; [reflexivity|].
  destruct (C2_trailing_stop after_buy [("NVDA", 115)] "NVDA" tr 115 Hr E eq_refl)
    as (_ & Hle & _ & _ & Hflat).
  split; [exact Hle|]. apply Hflat. unfold Qle. simpl. lia.
Defined.

(* ------------------------------------------------------------------ *)
(** ** PolitibotTrader.update_positions without a price *)

(** C1. An open position whose symbol is absent from [current_prices] is to
    be left unmodified by [update_positions].  The code prices it at its
    entry price instead, and here it does not hold: the position bought at
    100 whose stop was raised to 101.2 by a tick at 115 is closed by a tick
    that supplies no price for it; the symbol is reported closed, the
    position leaves the open set for the history, and 100 x 100 is added to
    the equity. *)
Theorem C1_unpriced_position_is_closed :
  (exists tr, Py.get (PolitibotTrader._positions after_rise) "NVDA" = Some tr
              /\ is_open tr = true /\ entry_price tr == 100
              /\ stop_loss tr == 1012 # 10)
  /\ Py.get [] "NVDA" = @None Q
  /\ fst (PolitibotTrader.update_positions after_rise []) = ["NVDA"]
  /\ PolitibotTrader._positions (snd (PolitibotTrader.update_positions after_rise [])) = []
  /\ map is_open (PolitibotTrader._history
                    (snd (PolitibotTrader.update_positions after_rise []))) = [false]
  /\ PolitibotTrader._equity after_rise == 100000
  /\ PolitibotTrader._equity (snd (PolitibotTrader.update_positions after_rise []))
     == 110000.
Proof.
  split.
  - eexists. split; [vm_compute; reflexivity|]. vm_compute. repeat split.
  - vm_compute. repeat split.
Qed.

(** Where the entry-price fallback is neutral: a position without a price
    whose stop lies below its entry price (and not below 88% of it) and
    whose take-profit lies above it is kept as it is. *)
Lemma unpriced_position_kept self prices sym tr :
  NoDup (map fst (PolitibotTrader._positions self)) ->
  Py.get (PolitibotTrader._positions self) sym = Some tr ->
  Py.get prices sym = None ->
  entry_price tr * (1 - PolitibotTrader.TRAILING_STOP_PCT) <= stop_loss tr ->
  stop_loss tr < entry_price tr ->
  entry_price tr < take_profit tr ->
  Py.get (PolitibotTrader._positions (snd (PolitibotTrader.update_positions self prices)))
         sym = Some tr.
Proof.
  intros Hnd Hget Hnone Hsl Hlo Hhi.
  rewrite update_positions_get, Hget by assumption.
  unfold after_tick, Py.get_default. rewrite Hnone.
  unfold PolitibotTrader.ratchet.
  qltcase (stop_loss tr) (entry_price tr * (1 - PolitibotTrader.TRAILING_STOP_PCT));
    [exfalso; lra|].
  unfold PolitibotTrader.exit_reason.
  qcase (entry_price tr) (stop_loss tr); [exfalso; lra|].
  qcase (take_profit tr) (entry_price tr); [exfalso; lra|reflexivity].
Qed.

(* ------------------------------------------------------------------ *)
(** ** PolitibotTrader.update_positions: what a tick closes *)

Lemma update_one_unfold prices self closed kv :
  PolitibotTrader.update_one prices (self, closed) kv
  = if closes prices kv
    then (PolitibotTrader.mk (PolitibotTrader.paper self)
            (Py.del (PolitibotTrader._positions self) (fst kv))
            (PolitibotTrader._history self ++ [closed_trade prices kv])
            (PolitibotTrader._equity self + proceeds prices kv),
          closed ++ [fst kv])
    else (PolitibotTrader.mk (PolitibotTrader.paper self)
            (Py.set (PolitibotTrader._positions self) (fst kv)
                    (PolitibotTrader.ratchet (tick_price prices kv) (snd kv)))
            (PolitibotTrader._history self) (PolitibotTrader._equity self),
          closed).
Proof.
  destruct kv as [sym tr].
  unfold PolitibotTrader.update_one, closes, after_tick, closed_trade, proceeds, tick_price.
  cbn [fst snd].
  destruct (PolitibotTrader.exit_reason _ _); [|reflexivity].
  unfold PolitibotTrader.ratchet. now destruct (Py.Qlt_bool _ _).
Qed.

(** The loop on the history, the equity and the local [closed]: they grow
    by the closing positions, in position order. *)
Lemma loop_accounting prices (items : list (string * ExecutedTrade)) :
  forall (self : PolitibotTrader.t) (closed : list string),
  let st' := fold_left (PolitibotTrader.update_one prices) items (self, closed) in
  snd st' = closed ++ map fst (filter (closes prices) items)
  /\ PolitibotTrader._history (fst st')
     = PolitibotTrader._history self
       ++ map (closed_trade prices) (filter (closes prices) items)
  /\ PolitibotTrader._equity (fst st')
     = fold_left Qplus (map (proceeds prices) (filter (closes prices) items))
                 (PolitibotTrader._equity self)
  /\ PolitibotTrader.paper (fst st') = PolitibotTrader.paper self.
Proof.
  induction items as [|kv r IH]; intros self closed; cbn [fold_left].
  - cbn. rewrite !app_nil_r. repeat split.
  - rewrite update_one_unfold. cbn [filter].
    destruct (closes prices kv).
    + destruct (IH (PolitibotTrader.mk (PolitibotTrader.paper self)
                      (Py.del (PolitibotTrader._positions self) (fst kv))
                      (PolitibotTrader._history self ++ [closed_trade prices kv])
                      (PolitibotTrader._equity self + proceeds prices kv))
                   (closed ++ [fst kv])) as (Hc & Hh & He & Hp).
      cbv zeta in *. rewrite Hc, Hh, He, Hp.
      cbn [PolitibotTrader._history PolitibotTrader._equity PolitibotTrader.paper map fold_left].
      rewrite <- !app_assoc. repeat split.
    + destruct (IH (PolitibotTrader.mk (PolitibotTrader.paper self)
                      (Py.set (PolitibotTrader._positions self) (fst kv)
                         (PolitibotTrader.ratchet (tick_price prices kv) (snd kv)))
                      (PolitibotTrader._history self) (PolitibotTrader._equity self))
                   closed) as (Hc & Hh & He & Hp).
      cbv zeta in *. rewrite Hc, Hh, He, Hp. repeat split.
Qed.

Lemma update_positions_closed self prices :
  fst (PolitibotTrader.update_positions self prices)
  = snd (fold_left (PolitibotTrader.update_one prices)
                   (PolitibotTrader._positions self) (self, [])).
Proof.
  unfold PolitibotTrader.update_positions.
  now destruct (fold_left _ _ _).
Qed.

Lemma fold_plus_shift (l : list Q) (a : Q) :
  fold_left Qplus l a == a + fold_left Qplus l 0.
Proof.
  revert a. induction l as [|x r IH]; intros a; cbn [fold_left].
  - lra.
  - rewrite (IH (a + x)), (IH (0 + x)). lra.
Qed.

(** X1. [update_positions] returns the symbols of the positions it closes,
    in position order; it appends each of them to the history, flagged
    closed, with the stop as ratcheted in this tick and the P&L
    (price - entry) x shares rounded to two decimals; it adds price x shares
    of each to the equity; and it leaves the mode alone. *)
Theorem update_positions_accounting (self : PolitibotTrader.t) (prices : list (string * Q)) :
  let closing := filter (closes prices) (PolitibotTrader._positions self) in
  let self' := snd (PolitibotTrader.update_positions self prices) in
  fst (PolitibotTrader.update_positions self prices) = map fst closing
  /\ PolitibotTrader._history self'
     = PolitibotTrader._history self ++ map (closed_trade prices) closing
  /\ PolitibotTrader._equity self'
     == PolitibotTrader._equity self + Portfolio.fsum (map (proceeds prices) closing)
  /\ PolitibotTrader.paper self' = PolitibotTrader.paper self
  /\ Forall (fun t => is_open t = false) (map (closed_trade prices) closing).
Proof.
  intros closing self'. unfold self'.
  rewrite update_positions_closed, update_positions_state.
  destruct (loop_accounting prices (PolitibotTrader._positions self) self [])
    as (Hc & Hh & He & Hp).
  cbv zeta in *. fold closing in Hc, Hh, He.
  rewrite Hc, Hh, He, Hp.
  repeat split; auto.
  - apply fold_plus_shift.
  - apply Forall_forall. intros t Ht. apply in_map_iff in Ht.
    destruct Ht as (kv & <- & _). reflexivity.
Qed.

(** A tick that closes nothing changes neither equity nor history. *)
Example quiet_tick_keeps_equity :
  fst (PolitibotTrader.update_positions after_buy [("NVDA", 105)]) = []
  /\ PolitibotTrader._equity (snd (PolitibotTrader.update_positions after_buy [("NVDA", 105)]))
     = PolitibotTrader._equity after_buy.
Proof. split; reflexivity. Qed.

Lemma closes_iff prices kv :
  closes prices kv = true
  <-> tick_price prices kv <= stop_loss (PolitibotTrader.ratchet (tick_price prices kv) (snd kv))
      \/ take_profit (snd kv) <= tick_price prices kv.
Proof.
  unfold closes, after_tick, PolitibotTrader.exit_reason. fold (tick_price prices kv).
  assert (Htp : take_profit (PolitibotTrader.ratchet (tick_price prices kv) (snd kv))
                = take_profit (snd kv)).
  { unfold PolitibotTrader.ratchet. now destruct (Py.Qlt_bool _ _). }
  rewrite Htp.
  qcase (tick_price prices kv)
        (stop_loss (PolitibotTrader.ratchet (tick_price prices kv) (snd kv)));
    [tauto|].
  qcase (take_profit (snd kv)) (tick_price prices kv); [tauto|].
  split; [discriminate|]. intros [H|H]; lra.
Qed.

(** X2. A position of a reachable trader, priced at p in a tick, is closed
    in that tick exactly when p is at or below its stop (as ratcheted in the
    tick) or at or above its take-profit; then its symbol is reported and it
    leaves the open set; otherwise it stays open and is not reported. *)
Theorem position_closes_exactly_on_exit (self : PolitibotTrader.t)
        (prices : list (string * Q)) (sym : string) (tr : ExecutedTrade) (p : Q) :
  reachable self ->
  Py.get (PolitibotTrader._positions self) sym = Some tr ->
  Py.get prices sym = Some p ->
  let exits := p <= stop_loss (PolitibotTrader.ratchet p tr) \/ take_profit tr <= p in
  let r := PolitibotTrader.update_positions self prices in
  (In sym (fst r) <-> exits)
  /\ (Py.get (PolitibotTrader._positions (snd r)) sym = None <-> exits)
  /\ (Py.get (PolitibotTrader._positions (snd r)) sym
      = Some (PolitibotTrader.ratchet p tr) <-> ~ exits).
Proof.
  intros Hreach Hget Hprice exits r.
  pose proof (reachable_ok _ Hreach) as (Hnd & _).
  assert (Htick : tick_price prices (sym, tr) = p).
  { unfold tick_price, Py.get_default. cbn [fst snd]. now rewrite Hprice. }
  assert (Hcl : closes prices (sym, tr) = true <-> exits).
  { rewrite closes_iff, Htick. reflexivity. }
  assert (Hpos : Py.get (PolitibotTrader._positions (snd r)) sym
                 = after_tick prices sym tr).
  { unfold r. rewrite update_positions_get by assumption. now rewrite Hget. }
  assert (Hat : after_tick prices sym tr
                = if closes prices (sym, tr) then None
                  else Some (PolitibotTrader.ratchet p tr)).
  { unfold closes, after_tick. cbn [fst snd].
    unfold tick_price in Htick. cbn [fst snd] in Htick.
    rewrite Htick. now destruct (PolitibotTrader.exit_reason _ _). }
  split; [|split].
  - unfold r. destruct (update_positions_accounting self prices) as (-> & _).
    rewrite <- Hcl, in_map_iff. split.
    + intros ([k v] & Hk & Hin). cbn in Hk. subst k.
      apply filter_In in Hin. destruct Hin as (Hin & Hc).
      apply in_get_nodup in Hin; [|assumption]. congruence.
    + intros Hc. exists (sym, tr). split; [reflexivity|].
      apply filter_In. split; [now apply get_some_in|assumption].
  - rewrite Hpos, Hat, <- Hcl. destruct (closes prices (sym, tr)).
    + tauto.
    + split; [discriminate|congruence].
  - rewrite Hpos, Hat, <- Hcl. destruct (closes prices (sym, tr)).
    + split; [discriminate|]. intros H. exfalso. now apply H.
    + split; [congruence|reflexivity].
Qed.

Lemma position_closes_exactly_on_exit_witness :
  reachable after_buy
  /\ In "NVDA" (fst (PolitibotTrader.update_positions after_buy [("NVDA", 125)]))
  /\ Py.get (PolitibotTrader._positions
               (snd (PolitibotTrader.update_positions after_buy [("NVDA", 125)]))) "NVDA"
     = None.
Proof.
  assert (Hr : reachable after_buy) by (apply reach_execute, reach_init).
  split; [exact Hr|].
  destruct (Py.get (PolitibotTrader._positions after_buy) "NVDA") as [tr|] eqn:E;
    [|discriminate E].
  destruct (position_closes_exactly_on_exit after_buy [("NVDA", 125)] "NVDA" tr 125
              Hr E eq_refl) as (H1 & H2 & _).
  assert (Hx : 125 <= stop_loss (PolitibotTrader.ratchet 125 tr) \/ take_profit tr <= 125).
  { right. vm_compute in E. injection E as <-. vm_compute. discriminate. }
  split; [now apply H1|now apply H2].
Defined.

(* ------------------------------------------------------------------ *)
(** ** Invariants of the trader *)

Lemma length_set {V : Type} (d : list (string * V)) (k : string) (v : V) :
  List.length (Py.set d k v)
  = if Py.has_key d k then List.length d else S (List.length d).
Proof.
  unfold Py.has_key. induction d as [|[k0 v0] r IH]; [reflexivity|].
  cbn [Py.set Py.get]. destruct (String.eqb k0 k); [reflexivity|].
  cbn [List.length]. rewrite IH. now destruct (Py.get r k).
Qed.

Lemma update_positions_keys self prices k :
  NoDup (map fst (PolitibotTrader._positions self)) ->
  In k (map fst (PolitibotTrader._positions
                   (snd (PolitibotTrader.update_positions self prices)))) ->
  In k (map fst (PolitibotTrader._positions self)).
Proof.
  intros Hnd Hin.
  destruct (Py.get (PolitibotTrader._positions self) k) eqn:E.
  - apply get_some_in in E. now apply (in_map fst) in E.
  - exfalso. revert Hin. apply get_none_iff.
    rewrite update_positions_get by assumption. now rewrite E.
Qed.

Lemma update_positions_length self prices :
  NoDup (map fst (PolitibotTrader._positions self)) ->
  (List.length (PolitibotTrader._positions
                  (snd (PolitibotTrader.update_positions self prices)))
   <= List.length (PolitibotTrader._positions self))%nat.
Proof.
  intros Hnd.
  rewrite <- (length_map fst), <- (length_map fst (PolitibotTrader._positions self)).
  apply NoDup_incl_length; [now apply update_positions_nodup|].
  intros k. now apply update_positions_keys.
Qed.

Lemma execute_signal_length w self s :
  (List.length (PolitibotTrader._positions self) <= PolitibotTrader.MAX_POSITIONS)%nat ->
  (List.length (PolitibotTrader._positions (snd (PolitibotTrader.execute_signal w self s)))
   <= PolitibotTrader.MAX_POSITIONS)%nat.
Proof.
  intros Hlen. unfold PolitibotTrader.execute_signal.
  destruct (_ <=? _)%nat eqn:Ea; [assumption|]. apply Nat.leb_gt in Ea.
  destruct (Py.has_key _ _) eqn:Eb; [assumption|].
  destruct (get_price w _) as [price|]; [|assumption].
  destruct (negb (Py.truthy price)); [assumption|].
  destruct (Qeq_bool _ 0); [assumption|].
  destruct (if PolitibotTrader.paper self then _ else _); [|assumption].
  cbn [snd PolitibotTrader._positions]. rewrite length_set, Eb. lia.
Qed.

Lemma execute_signal_flags w self s :
  flags_ok self -> flags_ok (snd (PolitibotTrader.execute_signal w self s)).
Proof.
  intros (Ho & Hc). unfold PolitibotTrader.execute_signal.
  destruct (_ <=? _)%nat; [now split|].
  destruct (Py.has_key _ _); [now split|].
  destruct (get_price w _) as [price|]; [|now split].
  destruct (negb (Py.truthy price)); [now split|].
  destruct (Qeq_bool _ 0); [now split|].
  destruct (if PolitibotTrader.paper self then _ else _); [|now split].
  split; cbn [snd PolitibotTrader._positions PolitibotTrader._history]; [|assumption].
  apply Forall_forall. intros [a v] Hin. cbn [snd].
  apply in_set in Hin. destruct Hin as [(_ & ->)|Hin]; [reflexivity|].
  rewrite Forall_forall in Ho. apply (Ho _ Hin).
Qed.

Lemma ratchet_is_open price tr :
  is_open (PolitibotTrader.ratchet price tr) = is_open tr.
Proof. unfold PolitibotTrader.ratchet. now destruct (Py.Qlt_bool _ _). Qed.

Lemma update_positions_flags self prices :
  NoDup (map fst (PolitibotTrader._positions self)) ->
  flags_ok self -> flags_ok (snd (PolitibotTrader.update_positions self prices)).
Proof.
  intros Hnd (Ho & Hc). split.
  - apply Forall_forall. intros [k tr'] Hin. cbn [snd].
    apply in_get_nodup in Hin; [|now apply update_positions_nodup].
    rewrite update_positions_get in Hin by assumption.
    destruct (Py.get (PolitibotTrader._positions self) k) as [tr|] eqn:E; [|discriminate].
    apply get_some_in in E. rewrite Forall_forall in Ho. specialize (Ho _ E).
    unfold after_tick in Hin.
    destruct (PolitibotTrader.exit_reason _ _); [discriminate|].
    injection Hin as <-. now rewrite ratchet_is_open.
  - destruct (update_positions_accounting self prices) as (_ & -> & _ & _ & Hcl).
    apply Forall_app. now split.
Qed.

Lemma reachable_flags self : reachable self -> flags_ok self.
Proof.
  induction 1 as [capital paper_mode | w self s Hr IH | self prices Hr IH].
  - split; constructor.
  - now apply execute_signal_flags.
  - apply update_positions_flags; [apply (reachable_ok _ Hr)|assumption].
Qed.

Lemma reachable_length self :
  reachable self ->
  (List.length (PolitibotTrader._positions self) <= PolitibotTrader.MAX_POSITIONS)%nat.
Proof.
  induction 1 as [capital paper_mode | w self s Hr IH | self prices Hr IH].
  - cbn. unfold PolitibotTrader.MAX_POSITIONS. lia.
  - now apply execute_signal_length.
  - pose proof (update_positions_length self prices (proj1 (reachable_ok _ Hr))). lia.
Qed.

(** X3. Whatever signals are executed and whatever ticks follow, the trader
    never holds more than 5 open positions, never two for one symbol; every
    position in the open set is flagged open and carries a four-decimal
    stop, and every record of the history is flagged closed. *)
Theorem trader_invariants (self : PolitibotTrader.t) :
  reachable self ->
  (List.length (PolitibotTrader._positions self) <= 5)%nat
  /\ NoDup (map fst (PolitibotTrader._positions self))
  /\ Forall (fun kv => is_open (snd kv) = true /\ on_grid4 (stop_loss (snd kv)))
            (PolitibotTrader._positions self)
  /\ Forall (fun t => is_open t = false) (PolitibotTrader._history self).
Proof.
  intros Hr.
  destruct (reachable_ok _ Hr) as (Hnd & Hg).
  destruct (reachable_flags _ Hr) as (Ho & Hc).
  split; [apply (reachable_length _ Hr)|]. split; [exact Hnd|]. split; [|exact Hc].
  rewrite Forall_forall in *. intros kv Hin. split; auto.
Qed.

Lemma trader_invariants_witness :
  reachable after_rise
  /\ (List.length (PolitibotTrader._positions after_rise) <= 5)%nat
  /\ NoDup (map fst (PolitibotTrader._positions after_rise)).
Proof.
  assert (Hr : reachable after_rise) by (apply reach_update, reach_execute, reach_init).
  split; [exact Hr|].
  destruct (trader_invariants after_rise Hr) as (H1 & H2 & _).
  split; assumption.
Defined.

(** A tick never opens a position: the open set can only shrink. *)
Lemma update_positions_never_opens self prices k :
  reachable self ->
  Py.get (PolitibotTrader._positions self) k = None ->
  Py.get (PolitibotTrader._positions (snd (PolitibotTrader.update_positions self prices))) k
  = None.
Proof.
  intros Hr Hnone. rewrite update_positions_get by apply (reachable_ok _ Hr).
  now rewrite Hnone.
Qed.

(* ------------------------------------------------------------------ *)
(** ** PolitibotTrader.execute_signal: the position it creates *)

(** What an accepted signal leaves behind. *)
Lemma execute_signal_executed w self s tr self' :
  PolitibotTrader.execute_signal w self s = (Returned (Some tr), self') ->
  exists price,
    get_price w (symbol (trade s)) = Some price
    /\ ~ price == 0
    /\ Py.has_key (PolitibotTrader._positions self) (symbol (trade s)) = false
    /\ signal tr = s
    /\ entry_price tr = price
    /\ stop_loss tr = Py.round (price * (1 - PolitibotTrader.STOP_LOSS_PCT)) 4
    /\ take_profit tr = Py.round (price * (1 + PolitibotTrader.TAKE_PROFIT_PCT)) 4
    /\ shares tr
       = Z.min (Z.max 1 (Py.int (PolitibotTrader._equity self
                                 * PolitibotTrader.RISK_PER_TRADE_PCT
                                 * PolitibotTrader.multiplier_of s
                                 / (price - stop_loss tr))))
               (Py.int (PolitibotTrader._equity self * (10 # 100) / price))
    /\ pnl tr = 0 /\ is_open tr = true
    /\ self' = PolitibotTrader.mk (PolitibotTrader.paper self)
                 (Py.set (PolitibotTrader._positions self) (symbol (trade s)) tr)
                 (PolitibotTrader._history self)
                 (if PolitibotTrader.paper self then PolitibotTrader._equity self
                  else PolitibotTrader._equity self - inject_Z (shares tr) * price).
Proof.
  unfold PolitibotTrader.execute_signal.
  destruct (_ <=? _)%nat; [discriminate|].
  destruct (Py.has_key _ _); [discriminate|].
  destruct (get_price w _) as [price|]; [|discriminate].
  destruct (Py.truthy price) eqn:Et; cbn [negb]; [|discriminate].
  apply truthy_true in Et.
  destruct (Qeq_bool _ 0); [discriminate|].
  destruct (if PolitibotTrader.paper self then _ else _); [|discriminate].
  intros [= <- <-]. exists price. cbn [signal entry_price stop_loss take_profit shares pnl is_open].
  repeat split; auto.
Qed.

Lemma int_nonneg (x : Q) : 0 <= x -> (0 <= Py.int x)%Z.
Proof.
  destruct x as [n d]. unfold Py.int, Qle. cbn [Qnum Qden]. intros H.
  apply Z.quot_pos; lia.
Qed.

Lemma int_le (x : Q) : 0 <= x -> inject_Z (Py.int x) <= x.
Proof.
  destruct x as [n d]. unfold Py.int, Qle, inject_Z. cbn [Qnum Qden]. intros H.
  rewrite Z.quot_div_nonneg by lia.
  pose proof (Z.mul_div_le n (Zpos d) ltac:(lia)). lia.
Qed.

(** X4. A position created by [execute_signal] at a positive price, on a
    non-negative equity, has a share count that is not negative and a
    notional (shares x price) of at most 10% of the equity; paper mode
    leaves the equity as it is, live mode takes the notional off. *)
Theorem executed_position_within_cap (w : World) (self self' : PolitibotTrader.t)
        (s : TradeSignal) (tr : ExecutedTrade) :
  PolitibotTrader.execute_signal w self s = (Returned (Some tr), self') ->
  0 <= PolitibotTrader._equity self ->
  0 < entry_price tr ->
  (0 <= shares tr)%Z
  /\ inject_Z (shares tr) * entry_price tr <= PolitibotTrader._equity self * (10 # 100)
  /\ Py.get (PolitibotTrader._positions self') (symbol (trade s)) = Some tr
  /\ PolitibotTrader._equity self'
     = (if PolitibotTrader.paper self then PolitibotTrader._equity self
        else PolitibotTrader._equity self - inject_Z (shares tr) * entry_price tr).
Proof.
  intros Hex Heq Hpos.
  destruct (execute_signal_executed _ _ _ _ _ Hex)
    as (price & _ & _ & _ & _ & Hp & _ & _ & Hsh & _ & _ & ->).
  rewrite Hp in *.
  set (cap := PolitibotTrader._equity self * (10 # 100) / price) in *.
  assert (Hcap0 : 0 <= cap).
  { unfold cap. apply Qle_shift_div_l; [exact Hpos|lra]. }
  pose proof (int_nonneg _ Hcap0) as H0.
  pose proof (int_le _ Hcap0) as Hle.
  assert (Hs : (0 <= shares tr <= Py.int cap)%Z) by (rewrite Hsh; lia).
  split; [lia|]. split; [|split].
  - assert (Hq : inject_Z (shares tr) <= cap).
    { apply Qle_trans with (inject_Z (Py.int cap)); [|exact Hle].
      rewrite <- Zle_Qle. lia. }
    apply Qle_trans with (cap * price).
    + apply Qmult_le_compat_r; [exact Hq|lra].
    + unfold cap. field_simplify; [lra|lra].
  - cbn [PolitibotTrader._positions]. now rewrite get_set, String.eqb_refl.
  - reflexivity.
Qed.

Lemma executed_position_within_cap_witness :
  exists tr self',
    PolitibotTrader.execute_signal (world_at (Some 100)) (PolitibotTrader.init 100000 true)
                                   buy_nvda = (Returned (Some tr), self')
    /\ (0 <= shares tr)%Z
    /\ inject_Z (shares tr) * entry_price tr <= 100000 * (10 # 100).
Proof.
  destruct (PolitibotTrader.execute_signal (world_at (Some 100))
              (PolitibotTrader.init 100000 true) buy_nvda) as [[[tr|]|] self'] eqn:E;
    try (vm_compute in E; discriminate E).
  exists tr, self'. split; [reflexivity|].
  assert (Hp : 0 < entry_price tr).
  { vm_compute in E. injection E as <- _. reflexivity. }
  destruct (executed_position_within_cap _ _ _ _ _ E ltac:(cbn; lra) Hp) as (H1 & H2 & _).
  split; assumption.
Defined.

(** X5. Round trip of one trade on a fresh trader: after a signal is
    executed and a later tick closes the position at price q, the equity is
    the initial capital plus q x shares in paper mode (the purchase was
    never taken off), and the initial capital minus entry x shares plus
    q x shares in live mode. *)
Theorem round_trip_equity (w : World) (capital : Q) (paper_mode : bool)
        (s : TradeSignal) (tr : ExecutedTrade) (self1 : PolitibotTrader.t)
        (prices : list (string * Q)) :
  PolitibotTrader.execute_signal w (PolitibotTrader.init capital paper_mode) s
  = (Returned (Some tr), self1) ->
  closes prices (symbol (trade s), tr) = true ->
  let q := tick_price prices (symbol (trade s), tr) in
  let r := PolitibotTrader.update_positions self1 prices in
  fst r = [symbol (trade s)]
  /\ PolitibotTrader._positions (snd r) = []
  /\ PolitibotTrader._equity (snd r)
     == (if paper_mode then capital else capital - inject_Z (shares tr) * entry_price tr)
        + q * inject_Z (shares tr).
Proof.
  intros Hex Hcl q r.
  destruct (execute_signal_executed _ _ _ _ _ Hex)
    as (price & _ & _ & _ & _ & Hp & _ & _ & _ & _ & _ & ->).
  cbn [PolitibotTrader.init PolitibotTrader._positions PolitibotTrader.paper
       PolitibotTrader._equity PolitibotTrader._history Py.set] in *.
  unfold r.
  destruct (update_positions_accounting
              (PolitibotTrader.mk paper_mode [(symbol (trade s), tr)] []
                 (if paper_mode then capital else capital - inject_Z (shares tr) * price))
              prices) as (Hc & _ & He & _).
  cbn [PolitibotTrader._positions PolitibotTrader._equity filter] in Hc, He.
  rewrite Hcl in Hc, He. cbn [map] in Hc, He.
  split; [exact Hc|]. split.
  - rewrite update_positions_state.
    cbn [PolitibotTrader._positions fold_left].
    rewrite update_one_unfold, Hcl. cbn [fst PolitibotTrader._positions Py.del].
    now rewrite String.eqb_refl.
  - rewrite He. unfold Portfolio.fsum, proceeds. cbn [fold_left snd].
    fold q. rewrite Hp. lra.
Qed.

Lemma round_trip_equity_witness :
  PolitibotTrader._equity
    (snd (PolitibotTrader.update_positions after_buy [("NVDA", 125)]))
  == 100000 + 125 * 100.
Proof.
  destruct (PolitibotTrader.execute_signal (world_at (Some 100))
              (PolitibotTrader.init 100000 true) buy_nvda) as [[[tr|]|] self1] eqn:E;
    try (vm_compute in E; discriminate E).
  assert (Hs : self1 = after_buy) by (unfold after_buy; now rewrite E).
  assert (Htr : shares tr = 100%Z /\ entry_price tr = 100).
  { vm_compute in E. injection E as <- _. split; reflexivity. }
  assert (Hcl : closes [("NVDA", 125)] (symbol (trade buy_nvda), tr) = true).
  { vm_compute in E. injection E as <- _. reflexivity. }
  destruct (round_trip_equity _ _ _ _ _ _ [("NVDA", 125)] E Hcl) as (_ & _ & He).
  rewrite Hs in He. rewrite He. destruct Htr as (-> & _). reflexivity.
Defined.

(* ------------------------------------------------------------------ *)
(** ** PolitibotTrader.portfolio_summary *)

Lemma fsum_cons (x : Q) (l : list Q) : Portfolio.fsum (x :: l) == x + Portfolio.fsum l.
Proof.
  unfold Portfolio.fsum. cbn [fold_left]. rewrite fold_plus_shift. lra.
Qed.

Lemma fsum_zero (l : list Q) : Forall (fun x => x == 0) l -> Portfolio.fsum l == 0.
Proof.
  induction 1 as [|x r Hx _ IH]; [reflexivity|].
  rewrite fsum_cons, Hx, IH. lra.
Qed.

Lemma round_zero (x : Q) (n : nat) : x == 0 -> Py.round x n == 0.
Proof.
  intros H. rewrite (round_comp _ _ n H). unfold Py.round, Qeq. cbn [Qnum Qden].
  assert (Hz : 0 * (Z.pos (Py.scale n) # 1) == 0) by lra.
  rewrite (round_half_even_comp _ _ Hz). reflexivity.
Qed.

(** X6. The value of the open positions is their cost basis plus the
    unrealised P&L: summed over the open set, shares x current price equals
    shares x entry price plus (current - entry) x shares, where a symbol
    without a current price counts at its entry price. *)
Theorem open_value_is_cost_plus_pnl (self : PolitibotTrader.t)
        (current_prices : list (string * Q)) :
  Portfolio.open_value self current_prices
  == Portfolio.open_value self [] + Portfolio.open_pnl self current_prices.
Proof.
  unfold Portfolio.open_value, Portfolio.open_pnl.
  induction (PolitibotTrader._positions self) as [|kv r IH]; [reflexivity|].
  cbn [map]. rewrite !fsum_cons, IH.
  change (Portfolio.current [] kv) with (entry_price (snd kv)). lra.
Qed.

(** X7. With no current price for any open symbol, the summary reports an
    open P&L of zero, shows every position at its entry price with a P&L of
    zero, and reports as total equity the equity plus the cost of the open
    positions, rounded to two decimals. *)
Theorem summary_without_prices (self : PolitibotTrader.t)
        (current_prices : list (string * Q)) :
  (forall kv, In kv (PolitibotTrader._positions self) ->
              Py.get current_prices (fst kv) = None) ->
  let s := Portfolio.portfolio_summary self current_prices in
  sum_open_pnl s == 0
  /\ Forall (fun v => view_current (snd v) = view_entry (snd v) /\ view_pnl (snd v) == 0)
            (sum_positions s)
  /\ sum_total_equity s
     = Py.round (PolitibotTrader._equity self + Portfolio.open_value self []) 2.
Proof.
  intros Hnone s.
  assert (Hcur : forall kv, In kv (PolitibotTrader._positions self) ->
                            Portfolio.current current_prices kv = entry_price (snd kv)).
  { intros kv Hin. unfold Portfolio.current, Py.get_default. now rewrite (Hnone kv Hin). }
  split; [|split].
  - cbn [s Portfolio.portfolio_summary sum_open_pnl]. apply round_zero.
    unfold Portfolio.open_pnl. apply fsum_zero.
    apply Forall_forall. intros x Hx. apply in_map_iff in Hx.
    destruct Hx as (kv & <- & Hin). rewrite (Hcur kv Hin). lra.
  - cbn [s Portfolio.portfolio_summary sum_positions].
    apply Forall_forall. intros v Hv. apply in_map_iff in Hv.
    destruct Hv as (kv & <- & Hin). cbn [snd view_current view_entry view_pnl].
    rewrite (Hcur kv Hin). split; [reflexivity|]. apply round_zero. lra.
  - cbn [s Portfolio.portfolio_summary sum_total_equity].
    apply round_comp.
    assert (Hv : forall l : list (string * ExecutedTrade),
               (forall kv, In kv l -> Py.get current_prices (fst kv) = None) ->
               Portfolio.fsum (map (fun kv => inject_Z (shares (snd kv))
                                              * Portfolio.current current_prices kv) l)
               == Portfolio.fsum (map (fun kv => inject_Z (shares (snd kv))
                                                 * Portfolio.current [] kv) l)).
    { induction l as [|kv r IH]; intros H; [reflexivity|].
      cbn [map]. rewrite !fsum_cons.
      rewrite IH by (intros; apply H; now right).
      unfold Portfolio.current, Py.get_default.
      rewrite (H kv (or_introl eq_refl)). reflexivity. }
    unfold Portfolio.open_value.
    now rewrite (Hv _ Hnone).
Qed.

Lemma summary_without_prices_witness :
  sum_open_pnl (Portfolio.portfolio_summary after_rise []) == 0.
Proof.
  apply (summary_without_prices after_rise []).
  intros kv _. reflexivity.
Defined.

(** X8. The win rate of the summary is a percentage: it lies between 0 and
    100, and with an empty history it is 0 (the divisor is then 1, not 0). *)
Theorem win_rate_is_a_percentage (self : PolitibotTrader.t) :
  0 <= Portfolio.win_rate self <= 100
  /\ match PolitibotTrader._history self with
     | [] => Portfolio.win_rate self == 0
     | _ :: _ => True
     end.
Proof.
  unfold Portfolio.win_rate, Portfolio.win_trades.
  set (h := PolitibotTrader._history self).
  pose proof (filter_length_le (fun t => Py.Qlt_bool 0 (pnl t)) h) as Hle.
  set (nw := List.length (filter (fun t => Py.Qlt_bool 0 (pnl t)) h)) in *.
  set (d := Z.max (Z.of_nat (List.length h)) 1).
  assert (Hd : 0 < inject_Z d).
  { change 0 with (inject_Z 0). rewrite <- Zlt_Qlt. unfold d. lia. }
  assert (Hn0 : 0 <= inject_Z (Z.of_nat nw)).
  { change 0 with (inject_Z 0). rewrite <- Zle_Qle. lia. }
  assert (Hnd : inject_Z (Z.of_nat nw) <= inject_Z d).
  { rewrite <- Zle_Qle. unfold d. lia. }
  split.
  - split.
    + apply Qmult_le_0_compat; [|lra].
      apply Qle_shift_div_l; [exact Hd|lra].
    + assert (H1 : inject_Z (Z.of_nat nw) / inject_Z d <= 1).
      { apply Qle_shift_div_r; [exact Hd|lra]. }
      apply Qle_trans with (1 * 100); [|lra].
      apply Qmult_le_compat_r; [exact H1|lra].
  - unfold nw, d, h. destruct (PolitibotTrader._history self); [reflexivity|exact I].
Qed.

(* ------------------------------------------------------------------ *)
(** ** SignalEngine: more on what is emitted *)

Lemma round_half_even_Z (z : Z) : Py.round_half_even (inject_Z z) = z.
Proof.
  unfold Py.round_half_even. rewrite Qfloor_Z.
  assert (Hc : Qcompare (inject_Z z - inject_Z z) (1 # 2) = Lt).
  { apply -> Qlt_alt. lra. }
  now rewrite Hc.
Qed.

Lemma round_below (x : Q) (k : Z) (n : nat) :
  x <= inject_Z k -> Py.round x n <= inject_Z k.
Proof.
  intros H. unfold Py.round.
  assert (Hk : x * (Zpos (Py.scale n) # 1) <= inject_Z (k * Zpos (Py.scale n))).
  { rewrite inject_Z_mult. apply Qmult_le_compat_r; [exact H|].
    unfold Qle. simpl. lia. }
  apply round_half_even_mono in Hk. rewrite round_half_even_Z in Hk.
  unfold Qle, inject_Z. cbn [Qnum Qden]. lia.
Qed.

Lemma politician_score_below_40 (name : string) (history : list PoliticianTrade) :
  PoliticianScorer.score name history <= 372 # 10.
Proof.
  unfold PoliticianScorer.score.
  destruct (5 <? PoliticianScorer.late_count name history)%nat;
    profile_cases name; vm_compute; discriminate.
Qed.

Lemma trade_score_range (t : PoliticianTrade) : 0 <= fst (TradeScorer.score t) <= 40.
Proof.
  destruct (trade_score_integer t) as (n & Hn & ->).
  split; [change 0 with (inject_Z 0) | change 40 with (inject_Z 40)];
    rewrite <- Zle_Qle; lia.
Qed.

Lemma cluster_points_range today history w sym :
  let pts := fst (ClusterDetector.score_for_symbol sym
                    (ClusterDetector.detect_clusters today history w)) in
  (pts == 0 /\ Py.get (ClusterDetector.detect_clusters today history w) sym = None)
  \/ (16 <= pts <= 20
      /\ Py.has_key (ClusterDetector.detect_clusters today history w) sym = true).
Proof.
  unfold ClusterDetector.score_for_symbol, Py.has_key.
  rewrite detect_clusters_get. cbv zeta.
  destruct (2 <=? _)%nat eqn:E.
  - right. apply Nat.leb_le in E. unfold cluster_of. cbn [fst score].
    pose proof (cluster_score_range _ E).
    split; [|reflexivity].
    split; [change 16 with (inject_Z 16)|change 20 with (inject_Z 20)];
      rewrite <- Zle_Qle; lia.
  - left. split; reflexivity.
Qed.

Lemma evaluate_fields clusters history t s :
  SignalEngine.evaluate clusters history t = Some s ->
  politician_score s = Py.round (PoliticianScorer.score (politician t) history) 1
  /\ trade_score s = Py.round (fst (TradeScorer.score t)) 1
  /\ cluster_score s
     = Py.round (fst (ClusterDetector.score_for_symbol (symbol t) clusters)) 1.
Proof.
  unfold SignalEngine.evaluate.
  destruct (TradeScorer.score t) as [trade_pts trade_reasons].
  destruct (ClusterDetector.score_for_symbol (symbol t) clusters)
    as [cluster_pts cluster_reasons].
  cbn [fst].
  destruct (Py.Qlt_bool _ SignalEngine.MIN_SCORE_FOR_SIGNAL); [discriminate|].
  destruct (Qle_bool 80 _); [intros [= <-]; auto|].
  destruct (Qle_bool 65 _); [intros [= <-]; auto|].
  destruct (Qle_bool 40 _); [intros [= <-]; auto|discriminate].
Qed.

Lemma in_generate_signals today batch history s :
  In s (SignalEngine.generate_signals today batch history) ->
  In (trade s) (candidates [] batch)
  /\ SignalEngine.evaluate (ClusterDetector.detect_clusters today history 30)
                           history (trade s) = Some s.
Proof.
  intros H. apply produced_from_candidate.
  apply (Permutation_in _ (Permutation_sym (sort_desc_perm _)) H).
Qed.

(** X9. Every emitted signal carries a total between 40 and 100, a
    politician score and a trade score between 0 and 40 and a cluster score
    between 0 and 20. *)
Theorem signal_scores_in_range today batch history :
  Forall (fun s =>
            40 <= total_score s <= 100
            /\ 0 <= politician_score s <= 40
            /\ 0 <= trade_score s <= 40
            /\ 0 <= cluster_score s <= 20)
         (SignalEngine.generate_signals today batch history).
Proof.
  apply Forall_forall. intros s Hs.
  apply in_generate_signals in Hs. destruct Hs as (_ & Hev).
  destruct (evaluate_some _ _ _ _ Hev) as (_ & Htot & Htier).
  destruct (evaluate_fields _ _ _ _ Hev) as (Hp & Ht & Hc).
  pose proof (tier_of_some _ _ Htier) as H40.
  pose proof (politician_score_bounds (politician (trade s)) history) as Bp.
  pose proof (trade_score_range (trade s)) as Bt.
  assert (Bc : 0 <= fst (ClusterDetector.score_for_symbol (symbol (trade s))
                           (ClusterDetector.detect_clusters today history 30)) <= 20).
  { destruct (cluster_points_range today history 30 (symbol (trade s)))
      as [(H0 & _)|(H1 & _)]; cbv zeta in *; lra. }
  rewrite Htot, Hp, Ht, Hc.
  assert (H100 : raw_total (ClusterDetector.detect_clusters today history 30) history
                           (trade s) <= 100) by (unfold raw_total; lra).
  split; [split|split; [split|split; split]].
  - change 40 with (inject_Z 40). now apply round_above.
  - change 100 with (inject_Z 100). now apply round_below.
  - change 0 with (inject_Z 0). apply round_above. apply Bp.
  - change 40 with (inject_Z 40). apply round_below. apply Bp.
  - change 0 with (inject_Z 0). apply round_above. apply Bt.
  - change 40 with (inject_Z 40). apply round_below. apply Bt.
  - change 0 with (inject_Z 0). apply round_above. apply Bc.
  - change 20 with (inject_Z 20). apply round_below. apply Bc.
Qed.

Lemma tier_of_strong (x : Q) (urg size : string) :
  Spec.tier_of x = Some ("STRONG BUY", urg, size) -> 80 <= x.
Proof.
  unfold Spec.tier_of.
  qcase 80 x; [lra|]. destruct (Qle_bool 65 x); [discriminate|].
  destruct (Qle_bool 40 x); discriminate.
Qed.

(** X10. A STRONG BUY is only emitted for a symbol of the cluster map: the
    politician score (at most 37.2) and the trade score (at most 40) cannot
    reach 80 without the cluster bonus. *)
Theorem strong_buy_needs_a_cluster today batch history :
  Forall (fun s =>
            Py.has_key (ClusterDetector.detect_clusters today history 30)
                       (symbol (trade s)) = true)
         (filter (fun s => String.eqb (recommendation s) "STRONG BUY")
                 (SignalEngine.generate_signals today batch history)).
Proof.
  apply Forall_forall. intros s Hs.
  apply filter_In in Hs. destruct Hs as (Hs & Hrec). apply String.eqb_eq in Hrec.
  apply in_generate_signals in Hs. destruct Hs as (_ & Hev).
  destruct (evaluate_some _ _ _ _ Hev) as (_ & _ & Htier).
  rewrite Hrec in Htier. apply tier_of_strong in Htier. unfold raw_total in Htier.
  pose proof (politician_score_below_40 (politician (trade s)) history) as Bp.
  pose proof (trade_score_range (trade s)) as Bt.
  destruct (cluster_points_range today history 30 (symbol (trade s)))
    as [(H0 & _)|(_ & Hk)]; cbv zeta in *; [exfalso; lra|exact Hk].
Qed.

(** A late option purchase above a million by Nancy Pelosi in her
    committee's sector, in a symbol that another politician bought too:
    32.2 + 40 + 16 = 88.2, a STRONG BUY. *)
Example strong_buy_with_cluster :
  map (fun s => (total_score s, recommendation s, suggested_position_size s))
      (SignalEngine.generate_signals 100 [late_option_pelosi]
         [late_option_pelosi; purchase_on "Pat Toomey" "NVDA" 95])
  = [(882 # 10, "STRONG BUY", "FULL")].
Proof. reflexivity. Qed.

Lemma candidates_of_purchases (batch : list PoliticianTrade) :
  forall seen, candidates seen (filter is_purchase batch) = candidates seen batch.
Proof.
  induction batch as [|t r IH]; intros seen; [reflexivity|].
  cbn [filter candidates]. destruct (is_purchase t) eqn:P; cbn [negb]; [|apply IH].
  cbn [candidates]. rewrite P. cbn [negb].
  destruct (SignalEngine.key_in _ _); [apply IH|]. now rewrite IH.
Qed.

Lemma candidates_length (batch : list PoliticianTrade) :
  forall seen, (List.length (candidates seen batch)
                <= List.length (filter is_purchase batch))%nat.
Proof.
  induction batch as [|t r IH]; intros seen; cbn [candidates filter]; [lia|].
  destruct (is_purchase t); cbn [negb]; [|apply IH].
  destruct (SignalEngine.key_in _ _); cbn [List.length].
  - specialize (IH seen). lia.
  - specialize (IH (SignalEngine.dedup_key t :: seen)). lia.
Qed.

Lemma produced_length today batch history :
  (List.length (SignalEngine.produced today batch history)
   <= List.length (candidates [] batch))%nat.
Proof.
  unfold SignalEngine.produced. rewrite loop_signals. cbn [app].
  induction (candidates [] batch) as [|t r IH]; cbn [flat_map List.length]; [lia|].
  rewrite length_app. destruct (SignalEngine.evaluate _ _ t); cbn [List.length]; lia.
Qed.

(** X11. Only the purchases of the batch matter: the signals are those of
    the batch with its non-purchases removed; each signal carries a purchase
    of the batch; there are at most as many signals as purchases; and a batch
    without purchases (an empty one too) gives no signal. *)
Theorem signals_come_from_purchases today batch history :
  let out := SignalEngine.generate_signals today batch history in
  out = SignalEngine.generate_signals today (filter is_purchase batch) history
  /\ Forall (fun s => In (trade s) batch /\ is_purchase (trade s) = true) out
  /\ (List.length out <= List.length (filter is_purchase batch))%nat
  /\ match filter is_purchase batch with
     | [] => out = []
     | _ :: _ => True
     end.
Proof.
  intros out.
  assert (Hlen : (List.length out <= List.length (filter is_purchase batch))%nat).
  { unfold out, SignalEngine.generate_signals.
    rewrite <- (Permutation_length (sort_desc_perm _)).
    pose proof (produced_length today batch history).
    pose proof (candidates_length batch []). lia. }
  split; [|split; [|split; [exact Hlen|]]].
  - unfold out, SignalEngine.generate_signals, SignalEngine.produced.
    now rewrite !loop_signals, candidates_of_purchases.
  - apply Forall_forall. intros s Hs.
    apply in_generate_signals in Hs. destruct Hs as (Hc & _).
    now apply candidates_purchase in Hc.
  - destruct (filter is_purchase batch); [|exact I].
    destruct out; [reflexivity|cbn in Hlen; lia].
Qed.

(** X12. The first purchase of a (symbol, day) pair decides for the pair:
    when its total stays below 40, the pass emits no signal for the pair, however
    high a later purchase of the pair would score. *)
Theorem low_first_purchase_silences_the_pair today batch history t :
  find (fun u => is_purchase u
                 && SignalEngine.key_eqb (SignalEngine.dedup_key u)
                                         (SignalEngine.dedup_key t)) batch = Some t ->
  raw_total (ClusterDetector.detect_clusters today history 30) history t < 40 ->
  filter (fun s => SignalEngine.key_eqb (SignalEngine.dedup_key (trade s))
                                        (SignalEngine.dedup_key t))
         (SignalEngine.generate_signals today batch history) = [].
Proof.
  intros Hfirst Hlow.
  destruct (filter _ _) as [|s r] eqn:F; [reflexivity|exfalso].
  assert (Hs : In s (filter (fun s => SignalEngine.key_eqb
                                        (SignalEngine.dedup_key (trade s))
                                        (SignalEngine.dedup_key t))
                            (SignalEngine.generate_signals today batch history)))
    by (rewrite F; now left).
  apply filter_In in Hs. destruct Hs as (Hin & Hk).
  apply key_eqb_eq in Hk.
  apply in_generate_signals in Hin. destruct Hin as (Hc & Hev).
  apply candidates_first in Hc. rewrite Hk, Hfirst in Hc. injection Hc as Hc.
  rewrite <- Hc in Hev.
  assert (Hn : SignalEngine.evaluate (ClusterDetector.detect_clusters today history 30)
                                     history t = None) by now apply evaluate_none.
  congruence.
Qed.

Lemma low_first_purchase_silences_the_pair_witness :
  filter (fun s => SignalEngine.key_eqb (SignalEngine.dedup_key (trade s))
                                        (SignalEngine.dedup_key small_unknown))
         (SignalEngine.generate_signals 100 [small_unknown; mega_pelosi] []) = [].
Proof.
  apply low_first_purchase_silences_the_pair.
  - reflexivity.
  - vm_compute. reflexivity.
Defined.

(* ------------------------------------------------------------------ *)
(** ** ClusterDetector: the map as a whole *)

Lemma recorded_nodup (cl : list (string * list PoliticianTrade)) :
  forall result : list (string * Cluster),
  NoDup (map fst result) ->
  NoDup (map fst (fold_left ClusterDetector.record_cluster cl result)).
Proof.
  induction cl as [|[k ts] r IH]; intros result Hnd; cbn [fold_left]; [assumption|].
  apply IH. rewrite record_cluster_unfold.
  destruct (2 <=? _)%nat; [now apply nodup_set|assumption].
Qed.

Lemma detect_clusters_nodup today history w :
  NoDup (map fst (ClusterDetector.detect_clusters today history w)).
Proof. unfold ClusterDetector.detect_clusters. apply recorded_nodup. constructor. Qed.

(** X13. The cluster map has one entry per symbol; the entry of a symbol
    holds, in history order, exactly the purchases of that symbol dated on or
    after the cutoff, counts at least two politicians, and scores 16 for two
    politicians and 20 for three or more. *)
Theorem cluster_map_entries today history w :
  let clusters := ClusterDetector.detect_clusters today history w in
  NoDup (map fst clusters)
  /\ Forall (fun kc =>
               trades (snd kc) = matching today w (fst kc) history
               /\ (2 <= count (snd kc))%nat
               /\ score (snd kc) = (if (count (snd kc) =? 2)%nat then 16 else 20)%Z)
            clusters.
Proof.
  intros clusters. pose proof (detect_clusters_nodup today history w) as Hnd.
  split; [exact Hnd|].
  apply Forall_forall. intros [sym c] Hin. cbn [fst snd].
  apply in_get_nodup in Hin; [|exact Hnd].
  unfold clusters in Hin. rewrite detect_clusters_get in Hin. cbv zeta in Hin.
  destruct (2 <=? _)%nat eqn:E; [|discriminate].
  apply Nat.leb_le in E. injection Hin as <-.
  unfold cluster_of. cbn [trades count score].
  split; [reflexivity|]. split; [exact E|].
  destruct (_ =? 2)%nat eqn:E2.
  - apply Nat.eqb_eq in E2. rewrite E2. reflexivity.
  - apply Nat.eqb_neq in E2. lia.
Qed.

Lemma has_cluster_iff today history w sym :
  Py.has_key (ClusterDetector.detect_clusters today history w) sym = true
  <-> two_buyers (bought_since today w sym) history.
Proof.
  unfold Py.has_key. rewrite detect_clusters_get. cbv zeta.
  rewrite <- two_buyers_matching.
  destruct (2 <=? _)%nat eqn:E.
  - apply Nat.leb_le in E. tauto.
  - apply Nat.leb_gt in E. split; [discriminate|lia].
Qed.

(** X14. Widening the window never loses a cluster: a symbol in the map for
    a window of w days is in the map for any longer window. *)
Theorem wider_window_keeps_clusters today history (w w' : Z) sym :
  (w <= w')%Z ->
  Py.has_key (ClusterDetector.detect_clusters today history w) sym = true ->
  Py.has_key (ClusterDetector.detect_clusters today history w') sym = true.
Proof.
  intros Hw. rewrite !has_cluster_iff.
  intros (t1 & t2 & H1 & H2 & (P1 & S1 & D1) & (P2 & S2 & D2) & Hne).
  exists t1, t2. unfold bought_since. repeat split; auto; lia.
Qed.

Lemma wider_window_keeps_clusters_witness :
  Py.has_key (ClusterDetector.detect_clusters 100 recent_history 60) "XOM" = true.
Proof.
  apply (wider_window_keeps_clusters 100 recent_history 30 60 "XOM").
  - lia.
  - reflexivity.
Defined.

(* ------------------------------------------------------------------ *)
(** ** Monotonicity of the two scorers *)

Lemma min_mono (a b c : Q) : a <= b -> Py.min a c <= Py.min b c.
Proof.
  intros H. unfold Py.min. qltcase c a; qltcase c b; lra.
Qed.

Lemma size_bonus_mono (a b : Z) : (a <= b)%Z -> Spec.size_bonus a <= Spec.size_bonus b.
Proof.
  intros H. unfold Spec.size_bonus.
  destruct (1000000 <=? a)%Z eqn:A1; destruct (1000000 <=? b)%Z eqn:B1;
    destruct (250000 <=? a)%Z eqn:A2; destruct (250000 <=? b)%Z eqn:B2;
    destruct (50000 <=? a)%Z eqn:A3; destruct (50000 <=? b)%Z eqn:B3;
    try (unfold Qle; cbn; lia);
    rewrite ?Z.leb_le, ?Z.leb_gt in *; lia.
Qed.

Lemma delay_bonus_mono (a b : Z) : (a <= b)%Z -> Spec.delay_bonus a <= Spec.delay_bonus b.
Proof.
  intros H. unfold Spec.delay_bonus.
  destruct (90 <? a)%Z eqn:A1; destruct (90 <? b)%Z eqn:B1;
    destruct (45 <? a)%Z eqn:A2; destruct (45 <? b)%Z eqn:B2;
    try (unfold Qle; cbn; lia);
    rewrite ?Z.ltb_lt, ?Z.ltb_ge in *; lia.
Qed.

(** X15. Between two purchases of one symbol with one committee, the one
    that is at least as large, filed at least as late, and an option if the
    other is one, never scores lower. *)
Theorem trade_score_monotone (t1 t2 : PoliticianTrade) :
  is_purchase t1 = true -> is_purchase t2 = true ->
  symbol t1 = symbol t2 -> committee t1 = committee t2 ->
  (avg_amount t1 <= avg_amount t2)%Z ->
  (filing_delay_days t1 <= filing_delay_days t2)%Z ->
  (is_option t1 = true -> is_option t2 = true) ->
  fst (TradeScorer.score t1) <= fst (TradeScorer.score t2).
Proof.
  intros P1 P2 Hs Hc Ha Hd Ho.
  rewrite !trade_score_refines. unfold Spec.trade_score. rewrite P1, P2, Hs, Hc.
  apply min_mono.
  pose proof (size_bonus_mono _ _ Ha). pose proof (delay_bonus_mono _ _ Hd).
  assert (Hopt : Spec.option_bonus (is_option t1) <= Spec.option_bonus (is_option t2)).
  { unfold Spec.option_bonus. destruct (is_option t1); [rewrite (Ho eq_refl); lra|].
    destruct (is_option t2); lra. }
  lra.
Qed.

Lemma trade_score_monotone_witness :
  fst (TradeScorer.score prompt_small_pelosi)
  <= fst (TradeScorer.score late_option_pelosi).
Proof.
  apply trade_score_monotone; try reflexivity.
  - vm_compute. discriminate.
  - vm_compute. discriminate.
Defined.

(** X16. A longer history never lowers a politician's score: appending
    trades to the history can add the late-filer bonus, never remove it. *)
Theorem politician_score_monotone (name : string) (history more : list PoliticianTrade) :
  PoliticianScorer.score name history <= PoliticianScorer.score name (history ++ more)
  /\ PoliticianScorer.score name history <= PoliticianScorer.score name (more ++ history).
Proof.
  assert (H : forall h1 h2,
             (PoliticianScorer.late_count name h1 <= PoliticianScorer.late_count name h2)%nat ->
             PoliticianScorer.score name h1 <= PoliticianScorer.score name h2).
  { intros h1 h2 Hle. unfold PoliticianScorer.score.
    destruct (5 <? PoliticianScorer.late_count name h1)%nat eqn:E1;
      destruct (5 <? PoliticianScorer.late_count name h2)%nat eqn:E2;
      try (apply Nat.ltb_lt in E1); try (apply Nat.ltb_ge in E2); try lia;
      profile_cases name; vm_compute; discriminate. }
  split; apply H; unfold PoliticianScorer.late_count;
    rewrite filter_app, length_app; lia.
Qed.

(* ------------------------------------------------------------------ *)
(** ** Amount brackets *)

Lemma contains_drop_first (a : ascii) (p s : string) :
  Py.contains (String a p) s = true -> Py.contains p s = true.
Proof.
  induction s as [|c r IH]; cbn [Py.contains].
  - cbn [prefix]. rewrite orb_false_r. discriminate.
  - intros H. apply orb_true_iff in H. apply orb_true_iff. right.
    destruct H as [H|H].
    + cbn [prefix] in H. destruct (ascii_dec a c); [|discriminate].
      destruct r; cbn [Py.contains]; now rewrite H.
    + apply IH in H. destruct r; cbn [Py.contains] in *; exact H.
Qed.

Lemma first_match_in key_of table text val :
  Amounts.first_match key_of table text = Some val -> In val (map snd table).
Proof.
  induction table as [|[k v] r IH]; cbn [Amounts.first_match map]; [discriminate|].
  destruct (Py.contains _ _); [intros [= <-]; now left|].
  intros H. right. now apply IH.
Qed.

(** X17. [parse_amount] of main.py always returns one of its seven brackets
    or the default (1000, 15000), low end first; but it never returns the
    bracket (250001, 500000): a text that holds "250001" holds "50001" too,
    which is tried earlier, so "$250,001 - $500,000" is read as
    (50001, 100000). *)
Theorem main_parse_amount_brackets (s : string) :
  (In (Main.parse_amount s) (map snd Main.AMOUNT_RANGES)
   \/ Main.parse_amount s = (1000, 15000)%Z)
  /\ (fst (Main.parse_amount s) <= snd (Main.parse_amount s))%Z
  /\ Main.parse_amount s <> (250001, 500000)%Z
  /\ Main.parse_amount "$250,001 - $500,000" = (50001, 100000)%Z.
Proof.
  unfold Main.parse_amount.
  split; [|split; [|split; [|reflexivity]]].
  - destruct (Amounts.first_match _ _ _) eqn:E; [left|now right].
    now apply first_match_in in E.
  - destruct (Amounts.first_match _ _ _) eqn:E; [|cbn; lia].
    apply first_match_in in E. cbn in E.
    repeat (destruct E as [<-|E]; [cbn; lia|]). destruct E.
  - unfold Main.AMOUNT_RANGES. cbn [Amounts.first_match].
    destruct (Py.contains "1001" _); [discriminate|].
    destruct (Py.contains "15001" _); [discriminate|].
    destruct (Py.contains "50001" _) eqn:E5; [discriminate|].
    destruct (Py.contains "100001" _); [discriminate|].
    destruct (Py.contains "250001" _) eqn:E25.
    + apply contains_drop_first in E25. congruence.
    + destruct (Py.contains "500001" _); [discriminate|].
      destruct (Py.contains "1000001" _); discriminate.
Qed.

(** The other six bracket labels are read as their own bracket. *)
Example main_parse_amount_labels :
  map Main.parse_amount
      [ "$1,001 - $15,000"; "$15,001 - $50,000"; "$50,001 - $100,000";
        "$100,001 - $250,000"; "$500,001 - $1,000,000"; "$1,000,001 - $5,000,000" ]
  = [ (1001, 15000); (15001, 50000); (50001, 100000);
      (100001, 250000); (500001, 1000000); (1000001, 5000000) ]%Z.
Proof. reflexivity. Qed.

(** X18. [_parse_amount] of the fetcher reads each of its nine bracket
    labels as that label's bracket, whatever the integer fallback does, and
    every result has its low end at or below its high end. *)
Theorem fetcher_parse_amount_brackets (int_of : string -> option Z) :
  map (Fetcher._parse_amount int_of) (map fst Fetcher.AMOUNT_RANGES)
  = map snd Fetcher.AMOUNT_RANGES
  /\ forall amount_str,
       (fst (Fetcher._parse_amount int_of amount_str)
        <= snd (Fetcher._parse_amount int_of amount_str))%Z.
Proof.
  split; [reflexivity|].
  intros amount_str. unfold Fetcher._parse_amount.
  destruct (Amounts.first_match _ _ _) eqn:E.
  - apply first_match_in in E. cbn in E.
    repeat (destruct E as [<-|E]; [cbn; lia|]). destruct E.
  - destruct (int_of _); cbn; lia.
Qed.

(* ------------------------------------------------------------------ *)
(** ** main.py: PaperTrader *)

Lemma set_same {V : Type} (d : list (string * V)) (k : string) (v : V) :
  Py.get d k = Some v -> Py.set d k v = d.
Proof.
  induction d as [|[k0 v0] r IH]; cbn [Py.get Py.set]; [discriminate|].
  destruct (String.eqb k0 k); [intros [= ->]; reflexivity|].
  intros H. now rewrite IH.
Qed.

Lemma length_del {V : Type} (d : list (string * V)) (k : string) :
  (List.length (Py.del d k) <= List.length d)%nat.
Proof.
  induction d as [|[k0 v0] r IH]; cbn [Py.del List.length]; [lia|].
  destruct (String.eqb k0 k); cbn [List.length]; lia.
Qed.

(** One step of [update], seen from the dict of positions. *)
Lemma paper_update_one_positions gp self cl sym pos :
  Py.get (Paper.positions self) sym = Some pos ->
  Paper.positions (fst (Paper.update_one gp (self, cl) (sym, pos)))
  = match paper_after gp sym pos with
    | Some pos' => Py.set (Paper.positions self) sym pos'
    | None => Py.del (Paper.positions self) sym
    end.
Proof.
  intros Hget. unfold Paper.update_one, paper_after.
  destruct (gp sym) as [price|]; [|cbn [fst]; now rewrite set_same].
  destruct (negb (Py.truthy price)); [cbn [fst]; now rewrite set_same|].
  destruct (_ || _); reflexivity.
Qed.

Lemma paper_loop_positions gp (items : list (string * Paper.Position)) :
  forall (st : Paper.t * list string) (k : string),
  NoDup (map fst items) ->
  NoDup (map fst (Paper.positions (fst st))) ->
  (forall kv, In kv items -> Py.get (Paper.positions (fst st)) (fst kv) = Some (snd kv)) ->
  let st' := fold_left (Paper.update_one gp) items st in
  NoDup (map fst (Paper.positions (fst st')))
  /\ Py.get (Paper.positions (fst st')) k
     = match Py.get items k with
       | Some pos => paper_after gp k pos
       | None => Py.get (Paper.positions (fst st)) k
       end.
Proof.
  induction items as [|[sym pos] r IH]; intros [self cl] k Hi Hp Hb; cbn [fold_left].
  - split; [assumption|reflexivity].
  - inversion Hi as [|? ? Hsym Hr]; subst. cbn [fst] in *.
    pose proof (Hb (sym, pos) (or_introl eq_refl)) as Hget. cbn [fst snd] in Hget.
    pose proof (paper_update_one_positions gp self cl sym pos Hget) as H1.
    assert (Hp1 : NoDup (map fst (Paper.positions
                   (fst (Paper.update_one gp (self, cl) (sym, pos)))))).
    { rewrite H1. destruct (paper_after gp sym pos);
        [now apply nodup_set|now apply nodup_del]. }
    assert (Hb1 : forall kv, In kv r ->
                  Py.get (Paper.positions (fst (Paper.update_one gp (self, cl) (sym, pos))))
                         (fst kv) = Some (snd kv)).
    { intros kv Hin. rewrite H1.
      assert (Hne : String.eqb sym (fst kv) = false).
      { apply String.eqb_neq. intros ->. apply Hsym. now apply in_map. }
      destruct (paper_after gp sym pos).
      - rewrite get_set, Hne. apply Hb. now right.
      - rewrite get_del, Hne by assumption. apply Hb. now right. }
    destruct (IH (Paper.update_one gp (self, cl) (sym, pos)) k Hr Hp1 Hb1) as (Hnd & Hg).
    split; [exact Hnd|]. cbv zeta in Hg. rewrite Hg, H1. cbn [Py.get].
    destruct (String.eqb sym k) eqn:E.
    + apply String.eqb_eq in E. subst k.
      apply get_none_iff in Hsym. rewrite Hsym.
      destruct (paper_after gp sym pos).
      * now rewrite get_set, String.eqb_refl.
      * now rewrite get_del, String.eqb_refl.
    + destruct (Py.get r k); [reflexivity|].
      destruct (paper_after gp sym pos).
      * now rewrite get_set, E.
      * now rewrite get_del, E.
Qed.

Lemma paper_update_state gp self :
  snd (Paper.update gp self)
  = fst (fold_left (Paper.update_one gp) (Paper.positions self) (self, [])).
Proof. unfold Paper.update. now destruct (fold_left _ _ _). Qed.

Lemma paper_update_get gp self k :
  NoDup (map fst (Paper.positions self)) ->
  NoDup (map fst (Paper.positions (snd (Paper.update gp self))))
  /\ Py.get (Paper.positions (snd (Paper.update gp self))) k
     = match Py.get (Paper.positions self) k with
       | Some pos => paper_after gp k pos
       | None => None
       end.
Proof.
  intros Hnd. rewrite paper_update_state.
  destruct (paper_loop_positions gp (Paper.positions self) (self, []) k Hnd Hnd)
    as (H1 & H2).
  { intros [a v] Hin. cbn [fst snd]. now apply in_get_nodup. }
  split; [exact H1|]. cbv zeta in H2. rewrite H2. cbn [fst].
  now destruct (Py.get (Paper.positions self) k).
Qed.

Lemma paper_loop_fields gp (items : list (string * Paper.Position)) :
  forall st,
  Paper.MAX_POSITIONS (fst (fold_left (Paper.update_one gp) items st))
  = Paper.MAX_POSITIONS (fst st)
  /\ Paper.capital (fst (fold_left (Paper.update_one gp) items st))
     = Paper.capital (fst st).
Proof.
  induction items as [|[sym pos] r IH]; intros [self cl]; cbn [fold_left];
    [split; reflexivity|].
  destruct (IH (Paper.update_one gp (self, cl) (sym, pos))) as (-> & ->).
  unfold Paper.update_one. destruct (gp sym) as [price|]; [|split; reflexivity].
  destruct (negb (Py.truthy price)); [split; reflexivity|].
  destruct (_ || _); split; reflexivity.
Qed.

Lemma paper_after_keeps gp sym pos pos' :
  paper_after gp sym pos = Some pos' ->
  Paper.pos_shares pos' = Paper.pos_shares pos
  /\ Paper.pos_entry_price pos' = Paper.pos_entry_price pos
  /\ Paper.pos_stop_loss pos <= Paper.pos_stop_loss pos'.
Proof.
  unfold paper_after. destruct (gp sym) as [price|]; [|intros [= <-]; repeat split; lra].
  destruct (negb (Py.truthy price)); [intros [= <-]; repeat split; lra|].
  destruct (_ || _); [discriminate|]. intros [= <-].
  qltcase (Paper.pos_stop_loss pos) (Py.round (price * (88 # 100)) 2);
    cbn [Paper.with_stop Paper.pos_shares Paper.pos_entry_price Paper.pos_stop_loss];
    repeat split; lra.
Qed.


Lemma paper_try_buy_ok gp self s : paper_ok self -> paper_ok (snd (Paper.try_buy gp self s)).
Proof.
  intros (Hm & Hl & Hnd & Hs). unfold Paper.try_buy.
  destruct (Py.has_key _ _) eqn:Ek; cbn [orb]; [repeat split; assumption|].
  destruct (_ <=? _)%nat eqn:El; [repeat split; assumption|].
  apply Nat.leb_gt in El.
  destruct (gp _) as [price|]; [|repeat split; assumption].
  destruct (negb (Py.truthy price)); [repeat split; assumption|].
  destruct (Qeq_bool _ 0); [repeat split; assumption|].
  destruct (_ <=? 0)%Z eqn:En; cbn [orb]; [repeat split; assumption|].
  apply Z.leb_gt in En.
  destruct (Py.Qlt_bool _ _); [repeat split; assumption|].
  cbn [snd]. unfold paper_ok. cbn [Paper.MAX_POSITIONS Paper.positions].
  split; [assumption|]. split; [rewrite length_set, Ek; lia|].
  split; [now apply nodup_set|].
  apply Forall_forall. intros [a v] Hin. cbn [snd].
  apply in_set in Hin. destruct Hin as [(_ & ->)|Hin].
  - cbn [Paper.pos_shares]. lia.
  - rewrite Forall_forall in Hs. apply (Hs _ Hin).
Qed.

Lemma paper_update_ok gp self : paper_ok self -> paper_ok (snd (Paper.update gp self)).
Proof.
  intros (Hm & Hl & Hnd & Hs).
  pose proof (fun k => paper_update_get gp self k Hnd) as Hg.
  destruct (Hg EmptyString) as (Hnd' & _).
  split; [|split; [|split; [exact Hnd'|]]].
  - rewrite paper_update_state.
    now rewrite (proj1 (paper_loop_fields gp (Paper.positions self) (self, []))).
  - apply Nat.le_trans with (List.length (Paper.positions self)); [|exact Hl].
    rewrite <- (length_map fst), <- (length_map fst (Paper.positions self)).
    apply NoDup_incl_length; [exact Hnd'|].
    intros k Hin. destruct (Py.get (Paper.positions self) k) eqn:E.
    + apply get_some_in in E. now apply (in_map fst) in E.
    + exfalso. revert Hin. apply get_none_iff.
      rewrite (proj2 (Hg k)). now rewrite E.
  - apply Forall_forall. intros [k pos'] Hin. cbn [snd].
    apply in_get_nodup in Hin; [|exact Hnd'].
    rewrite (proj2 (Hg k)) in Hin.
    destruct (Py.get (Paper.positions self) k) as [pos|] eqn:E; [|discriminate].
    apply get_some_in in E. rewrite Forall_forall in Hs. specialize (Hs _ E).
    apply paper_after_keeps in Hin. cbn [snd] in Hs. destruct Hin as (-> & _). exact Hs.
Qed.

Lemma paper_reachable_ok self : paper_reachable self -> paper_ok self.
Proof.
  induction 1 as [initial | gp self s _ IH | gp self _ IH].
  - unfold paper_ok. cbn. repeat split; try lia; constructor.
  - now apply paper_try_buy_ok.
  - now apply paper_update_ok.
Qed.

(** X19. The paper trader of main.py never holds more than 5 positions nor
    two for one symbol, and every position it holds has at least one
    share. *)
Theorem paper_trader_invariants (self : Paper.t) :
  paper_reachable self ->
  (List.length (Paper.positions self) <= 5)%nat
  /\ NoDup (map fst (Paper.positions self))
  /\ Forall (fun kv => (1 <= Paper.pos_shares (snd kv))%Z) (Paper.positions self).
Proof.
  intros Hr. destruct (paper_reachable_ok _ Hr) as (_ & H1 & H2 & H3).
  repeat split; assumption.
Qed.

Lemma paper_trader_invariants_witness :
  paper_reachable (snd (Paper.try_buy (fun _ => Some 100) (Paper.init 100000) paper_buy_nvda))
  /\ Forall (fun kv => (1 <= Paper.pos_shares (snd kv))%Z)
            (Paper.positions
               (snd (Paper.try_buy (fun _ => Some 100) (Paper.init 100000) paper_buy_nvda))).
Proof.
  assert (Hr : paper_reachable
                 (snd (Paper.try_buy (fun _ => Some 100) (Paper.init 100000) paper_buy_nvda)))
    by (apply paper_buy, paper_init).
  split; [exact Hr|]. apply (paper_trader_invariants _ Hr).
Defined.

Lemma int_nonpos (x : Q) : x <= 0 -> (Py.int x <= 0)%Z.
Proof.
  destruct x as [n d]. unfold Py.int, Qle. cbn [Qnum Qden]. intros H.
  assert (Hn : (n <= 0)%Z) by lia.
  replace n with (- (- n))%Z by lia. rewrite Z.quot_opp_l by lia.
  pose proof (Z.quot_pos (- n) (Z.pos d) ltac:(lia) ltac:(lia)). lia.
Qed.

(** X20. When [try_buy] returns True it has opened a position of at least
    one share whose cost is covered by the cash, and has taken that cost off
    the cash; when it returns False or raises, nothing has changed.  On a
    non-negative cash the price of an opened position is positive and at
    most 10% of the cash: there is no position of 0 shares. *)
Theorem paper_try_buy_outcome (gp : string -> option Q) (self : Paper.t) (s : Paper.Signal) :
  match Paper.try_buy gp self s with
  | (Returned true, self') =>
      exists pos,
        Py.get (Paper.positions self') (symbol (Paper.sig_trade s)) = Some pos
        /\ gp (symbol (Paper.sig_trade s)) = Some (Paper.pos_entry_price pos)
        /\ (1 <= Paper.pos_shares pos)%Z
        /\ inject_Z (Paper.pos_shares pos) * Paper.pos_entry_price pos <= Paper.cash self
        /\ Paper.cash self'
           = Paper.cash self - inject_Z (Paper.pos_shares pos) * Paper.pos_entry_price pos
        /\ 0 <= Paper.cash self'
        /\ (Paper.cash self < 0
            \/ (0 < Paper.pos_entry_price pos
                /\ Paper.pos_entry_price pos <= Paper.cash self * (10 # 100)))
  | (_, self') => self' = self
  end.
Proof.
  unfold Paper.try_buy.
  destruct (_ || _); [reflexivity|].
  destruct (gp _) as [price|]; [|reflexivity].
  destruct (Py.truthy price) eqn:Et; cbn [negb]; [|reflexivity].
  apply truthy_true in Et.
  destruct (Qeq_bool _ 0); [reflexivity|].
  set (n := Z.min _ _).
  destruct (n <=? 0)%Z eqn:En; cbn [orb]; [reflexivity|]. apply Z.leb_gt in En.
  qltcase (Paper.cash self) (inject_Z n * price); [reflexivity|].
  eexists. cbn [Paper.positions Paper.cash].
  split; [now rewrite get_set, String.eqb_refl|].
  cbn [Paper.pos_shares Paper.pos_entry_price].
  split; [reflexivity|]. split; [lia|]. split; [exact E|]. split; [reflexivity|].
  split; [lra|].
  destruct (Qlt_le_dec (Paper.cash self) 0) as [Hneg|Hc]; [now left|right].
  set (cap := Paper.cash self * (10 # 100) / price) in *.
  assert (H1 : (1 <= Py.int cap)%Z) by (unfold n in En; lia).
  assert (Hp : 0 < price).
  { destruct (Qlt_le_dec 0 price) as [Hp|Hp]; [exact Hp|exfalso].
    assert (Hlt : price < 0).
    { apply Qle_lteq in Hp. destruct Hp as [Hp|Hp]; [exact Hp|]. exfalso. now apply Et. }
    assert (Hcap : cap <= 0).
    { unfold cap, Qdiv. setoid_replace 0 with (- (0)) by ring.
      assert (Hinv : / price < 0).
      { setoid_replace (/ price) with (- / (- price)) by (field; lra).
        assert (0 < / (- price)) by (apply Qinv_lt_0_compat; lra). lra. }
      assert (H0 : 0 <= Paper.cash self * (10 # 100)) by lra.
      assert (Hm : 0 <= (Paper.cash self * (10 # 100)) * (- / price)).
      { apply Qmult_le_0_compat; lra. }
      lra. }
    pose proof (int_nonpos _ Hcap). lia. }
  split; [exact Hp|].
  assert (Hcap0 : 0 <= cap) by (unfold cap; apply Qle_shift_div_l; [exact Hp|lra]).
  pose proof (int_le _ Hcap0) as Hle.
  assert (H1q : 1 <= cap).
  { apply Qle_trans with (inject_Z (Py.int cap)); [|exact Hle].
    change 1 with (inject_Z 1). rewrite <- Zle_Qle. exact H1. }
  apply Qle_trans with (cap * price).
  - setoid_replace price with (1 * price) at 1 by ring.
    apply Qmult_le_compat_r; [exact H1q|lra].
  - unfold cap. field_simplify; [lra|lra].
Qed.

Lemma paper_after_unpriced gp sym pos :
  unpriced gp sym = true -> paper_after gp sym pos = Some pos.
Proof.
  unfold unpriced, paper_after. destruct (gp sym) as [price|]; [|reflexivity].
  now intros ->.
Qed.

Lemma paper_update_one_unpriced gp st sym pos :
  unpriced gp sym = true -> Paper.update_one gp st (sym, pos) = st.
Proof.
  unfold unpriced, Paper.update_one. destruct st as [self cl].
  destruct (gp sym) as [price|]; [|reflexivity]. now intros ->.
Qed.

(** X21. [update] of the paper trader leaves a position without a price
    (none, or zero) exactly as it is; when no open symbol has a price the
    call returns an empty list and changes nothing at all. *)
Theorem paper_update_tolerates_outage (gp : string -> option Q) (self : Paper.t) :
  paper_reachable self ->
  (forall sym, unpriced gp sym = true ->
               Py.get (Paper.positions (snd (Paper.update gp self))) sym
               = Py.get (Paper.positions self) sym)
  /\ ((forall kv, In kv (Paper.positions self) -> unpriced gp (fst kv) = true) ->
      Paper.update gp self = ([], self)).
Proof.
  intros Hr. destruct (paper_reachable_ok _ Hr) as (_ & _ & Hnd & _). split.
  - intros sym Hu. rewrite (proj2 (paper_update_get gp self sym Hnd)).
    destruct (Py.get (Paper.positions self) sym); [|reflexivity].
    now apply paper_after_unpriced.
  - intros Hall. unfold Paper.update.
    assert (H : forall items st,
               (forall kv, In kv items -> unpriced gp (fst kv) = true) ->
               fold_left (Paper.update_one gp) items st = st).
    { induction items as [|[sym pos] r IH]; intros st Hi; cbn [fold_left]; [reflexivity|].
      rewrite paper_update_one_unpriced by (apply (Hi (sym, pos)); now left).
      apply IH. intros kv Hin. apply Hi. now right. }
    now rewrite (H _ _ Hall).
Qed.

Lemma paper_update_tolerates_outage_witness :
  paper_reachable paper_holding
  /\ Paper.positions paper_holding <> []
  /\ Paper.update (fun _ => None) paper_holding = ([], paper_holding).
Proof.
  assert (Hr : paper_reachable paper_holding) by (apply paper_buy, paper_init).
  split; [exact Hr|]. split; [vm_compute; discriminate|].
  apply (proj2 (paper_update_tolerates_outage (fun _ => None) paper_holding Hr)).
  intros kv _. reflexivity.
Defined.

(** X22. For a position that [update] of the paper trader keeps open, the
    stop is not lowered and shares and entry price are kept; and a tick
    never opens a position. *)
Theorem paper_update_never_lowers_stop (gp : string -> option Q) (self : Paper.t)
        (sym : string) (pos' : Paper.Position) :
  paper_reachable self ->
  Py.get (Paper.positions (snd (Paper.update gp self))) sym = Some pos' ->
  exists pos,
    Py.get (Paper.positions self) sym = Some pos
    /\ Paper.pos_stop_loss pos <= Paper.pos_stop_loss pos'
    /\ Paper.pos_shares pos' = Paper.pos_shares pos
    /\ Paper.pos_entry_price pos' = Paper.pos_entry_price pos.
Proof.
  intros Hr Hget. destruct (paper_reachable_ok _ Hr) as (_ & _ & Hnd & _).
  rewrite (proj2 (paper_update_get gp self sym Hnd)) in Hget.
  destruct (Py.get (Paper.positions self) sym) as [pos|]; [|discriminate].
  exists pos. split; [reflexivity|].
  apply paper_after_keeps in Hget. tauto.
Qed.

Lemma paper_update_never_lowers_stop_witness :
  exists pos pos',
    Py.get (Paper.positions paper_holding) "NVDA" = Some pos
    /\ Py.get (Paper.positions (snd (Paper.update (fun _ => Some 110) paper_holding))) "NVDA"
       = Some pos'
    /\ Paper.pos_stop_loss pos <= Paper.pos_stop_loss pos'.
Proof.
  assert (Hr : paper_reachable paper_holding) by (apply paper_buy, paper_init).
  destruct (Py.get (Paper.positions (snd (Paper.update (fun _ => Some 110) paper_holding)))
                   "NVDA") as [pos'|] eqn:E; [|vm_compute in E; discriminate E].
  destruct (paper_update_never_lowers_stop _ _ _ _ Hr E) as (pos & Hp & Hle & _).
  exists pos, pos'. repeat split; assumption.
Defined.

(* ------------------------------------------------------------------ *)
(** ** bot.py: the execution loop *)

Lemma execute_signal_not_executed w self s :
  (forall tr, fst (PolitibotTrader.execute_signal w self s) <> Returned (Some tr)) ->
  snd (PolitibotTrader.execute_signal w self s) = self.
Proof.
  unfold PolitibotTrader.execute_signal.
  destruct (_ <=? _)%nat; [reflexivity|].
  destruct (Py.has_key _ _); [reflexivity|].
  destruct (get_price w _) as [price|]; [|reflexivity].
  destruct (negb (Py.truthy price)); [reflexivity|].
  destruct (Qeq_bool _ 0); [reflexivity|].
  destruct (if PolitibotTrader.paper self then _ else _); [|reflexivity].
  intros H. exfalso. eapply H. reflexivity.
Qed.

Lemma execute_signal_rejected w self s self' :
  PolitibotTrader.execute_signal w self s = (Returned None, self') -> self' = self.
Proof.
  intros H. pose proof (execute_signal_not_executed w self s) as Hn.
  rewrite H in Hn. cbn [fst snd] in Hn. apply Hn. discriminate.
Qed.

(** The loop counts what it executes and stops at the limit. *)
Lemma execute_loop_bounds worlds limit (signals : list TradeSignal) :
  forall i st,
  let st' := snd (Bot.execute_loop worlds limit i st signals) in
  (Bot.executed st <= Bot.executed st' <= Z.max (Bot.executed st) limit)%Z
  /\ (Z.of_nat (List.length (PolitibotTrader._positions (Bot.trader st')))
      <= Z.of_nat (List.length (PolitibotTrader._positions (Bot.trader st)))
         + (Bot.executed st' - Bot.executed st))%Z.
Proof.
  induction signals as [|sig rest IH]; intros i st; cbn [Bot.execute_loop].
  - cbn [snd]. lia.
  - destruct (limit <=? Bot.executed st)%Z eqn:El; [cbn [snd]; lia|].
    apply Z.leb_gt in El.
    destruct (Py.mem _ _); [|specialize (IH (S i) st); cbv zeta in IH; lia].
    destruct (PolitibotTrader.execute_signal (worlds i) (Bot.trader st) sig)
      as [[[tr|]|] trader'] eqn:E.
    + specialize (IH (S i) (Bot.mkLoop trader' (Bot.executed st + 1)
                     (Bot.set_add (trade_id (trade sig)) (Bot._seen_trade_ids st)))).
      cbv zeta in IH. cbn [Bot.executed Bot.trader] in IH.
      destruct (execute_signal_executed _ _ _ _ _ E)
        as (price & _ & _ & Hk & _ & _ & _ & _ & _ & _ & _ & ->).
      cbn [PolitibotTrader._positions] in IH.
      rewrite length_set, Hk in IH. lia.
    + apply execute_signal_rejected in E. subst trader'.
      specialize (IH (S i) (Bot.mkLoop (Bot.trader st) (Bot.executed st)
                                       (Bot._seen_trade_ids st))).
      cbv zeta in IH. cbn [Bot.executed Bot.trader] in IH. lia.
    + cbn [snd]. lia.
Qed.

Lemma execute_loop_origin worlds limit all_signals before (signals : list TradeSignal) :
  forall i st,
  incl signals all_signals ->
  Forall (old_or_bought before all_signals) (PolitibotTrader._positions (Bot.trader st)) ->
  Forall (old_or_bought before all_signals)
         (PolitibotTrader._positions
            (Bot.trader (snd (Bot.execute_loop worlds limit i st signals)))).
Proof.
  induction signals as [|sig rest IH]; intros i st Hincl Hst; cbn [Bot.execute_loop];
    [assumption|].
  assert (Hrest : incl rest all_signals) by (intros x Hx; apply Hincl; now right).
  destruct (limit <=? Bot.executed st)%Z; [assumption|].
  destruct (Py.mem _ _) eqn:Em; [|now apply IH].
  destruct (PolitibotTrader.execute_signal (worlds i) (Bot.trader st) sig)
    as [[[tr|]|] trader'] eqn:E.
  - apply IH; [assumption|]. cbn [Bot.trader].
    destruct (execute_signal_executed _ _ _ _ _ E)
      as (price & _ & _ & _ & Hsig & _ & _ & _ & _ & _ & _ & ->).
    cbn [PolitibotTrader._positions].
    apply Forall_forall. intros [a v] Hin.
    apply in_set in Hin. destruct Hin as [(_ & ->)|Hin].
    + right. cbn [snd]. rewrite Hsig. split; [apply Hincl; now left|].
      unfold Py.mem in Em. cbn [existsb] in Em.
      rewrite orb_false_r in Em. apply orb_true_iff in Em.
      destruct Em as [Em|Em]; apply String.eqb_eq in Em; auto.
    + rewrite Forall_forall in Hst. apply (Hst _ Hin).
  - apply execute_signal_rejected in E. subst trader'.
    apply IH; assumption.
  - assumption.
Qed.

(** X23. The execution loop of the bot opens at most [max_signals_per_run]
    positions (none when that limit is zero or negative), and every position
    it leaves in the open set was either open before or opened for a signal
    of the list recommended STRONG BUY or BUY: a WATCH is never executed. *)
Theorem execute_loop_limits worlds limit (self_trader : PolitibotTrader.t)
        (seen : list string) (signals : list TradeSignal) :
  let st' := snd (Bot.execute_loop worlds limit 0 (Bot.mkLoop self_trader 0 seen) signals) in
  (0 <= Bot.executed st' <= Z.max 0 limit)%Z
  /\ (Z.of_nat (List.length (PolitibotTrader._positions (Bot.trader st')))
      <= Z.of_nat (List.length (PolitibotTrader._positions self_trader)) + Z.max 0 limit)%Z
  /\ Forall (old_or_bought (PolitibotTrader._positions self_trader) signals)
            (PolitibotTrader._positions (Bot.trader st')).
Proof.
  intros st'.
  pose proof (execute_loop_bounds worlds limit signals 0 (Bot.mkLoop self_trader 0 seen))
    as (Hb & Hl).
  cbv zeta in Hb, Hl. cbn [Bot.executed Bot.trader] in Hb, Hl. fold st' in Hb, Hl.
  split; [lia|]. split; [lia|].
  apply execute_loop_origin; [apply incl_refl|].
  apply Forall_forall. intros kv Hin. now left.
Qed.

Lemma tier_of_cases (x : Q) (r u z : string) :
  Spec.tier_of x = Some (r, u, z) ->
  (r = "STRONG BUY" /\ z = "FULL") \/ (r = "BUY" /\ z = "HALF")
  \/ (r = "WATCH" /\ z = "QUARTER").
Proof.
  unfold Spec.tier_of.
  destruct (Qle_bool 80 x); [intros [= <- <- <-]; auto|].
  destruct (Qle_bool 65 x); [intros [= <- <- <-]; auto|].
  destruct (Qle_bool 40 x); [intros [= <- <- <-]; auto|discriminate].
Qed.

(** X24. In [_process_batch] every position opened for a signal of the
    batch is sized with the multiplier 1.0 (a STRONG BUY, tagged FULL) or 0.5
    (a BUY, tagged HALF): the QUARTER multiplier and the default for unknown
    tags are never used by the bot. *)
Theorem process_batch_sizes today worlds limit (self_trader : PolitibotTrader.t)
        (seen : list string) (trades_to_score all_history : list PoliticianTrade)
        (execute : bool) :
  let r := Bot._process_batch today worlds limit self_trader seen
                              trades_to_score all_history execute in
  Forall (fun kv =>
            In kv (PolitibotTrader._positions self_trader)
            \/ (suggested_position_size (signal (snd kv)) = "FULL"
                /\ PolitibotTrader.multiplier_of (signal (snd kv)) == 1)
            \/ (suggested_position_size (signal (snd kv)) = "HALF"
                /\ PolitibotTrader.multiplier_of (signal (snd kv)) == 1 # 2))
         (PolitibotTrader._positions (Bot.trader (snd r))).
Proof.
  intros r.
  assert (Hold : Forall (fun kv : string * ExecutedTrade =>
                           In kv (PolitibotTrader._positions self_trader)
                           \/ (suggested_position_size (signal (snd kv)) = "FULL"
                               /\ PolitibotTrader.multiplier_of (signal (snd kv)) == 1)
                           \/ (suggested_position_size (signal (snd kv)) = "HALF"
                               /\ PolitibotTrader.multiplier_of (signal (snd kv)) == 1 # 2))
                        (PolitibotTrader._positions self_trader)).
  { apply Forall_forall. intros kv Hin. now left. }
  unfold r, Bot._process_batch.
  destruct trades_to_score as [|t0 rest]; [exact Hold|].
  destruct execute; [|exact Hold].
  set (signals := SignalEngine.generate_signals today (t0 :: rest) all_history).
  pose proof (execute_loop_limits worlds limit self_trader seen signals) as (_ & _ & Ho).
  cbv zeta in Ho.
  destruct (Bot.execute_loop worlds limit 0 (Bot.mkLoop self_trader 0 seen) signals)
    as [[u|] st] eqn:E; cbn [snd] in *;
    (eapply Forall_impl; [|exact Ho]);
    intros kv [Hin|(Hs & Hrec)]; auto; right;
    apply in_generate_signals in Hs; destruct Hs as (_ & Hev);
    destruct (evaluate_some _ _ _ _ Hev) as (_ & _ & Htier);
    apply tier_of_cases in Htier;
    unfold PolitibotTrader.multiplier_of;
    destruct Htier as [(Hr & Hz)|[(Hr & Hz)|(Hr & Hz)]]; rewrite Hz;
    try (left; split; reflexivity); try (right; split; reflexivity);
    exfalso; rewrite Hr in Hrec; destruct Hrec; discriminate.
Qed.

(* ------------------------------------------------------------------ *)
(** ** main.py: score_trades *)

Section SortByFacts.
Context {A : Type} (key : A -> Q).

Lemma insert_by_perm (x : A) (l : list A) : Permutation (x :: l) (insert_by key x l).
Proof.
  induction l as [|y r IH]; cbn [insert_by]; [reflexivity|].
  destruct (Qle_bool (key y) (key x)); [reflexivity|].
  etransitivity; [apply perm_swap|]. now apply perm_skip.
Qed.

Lemma sort_by_perm (l : list A) : Permutation l (sort_by key l).
Proof.
  induction l as [|x r IH]; cbn [sort_by fold_right]; [constructor|].
  etransitivity; [|apply insert_by_perm]. now apply perm_skip.
Qed.

Lemma insert_by_sorted (x : A) (l : list A) :
  StronglySorted (fun a b => key b <= key a) l ->
  StronglySorted (fun a b => key b <= key a) (insert_by key x l).
Proof.
  induction l as [|y r IH]; cbn [insert_by]; intros Hs.
  - repeat constructor.
  - inversion Hs as [|? ? Hr Hy]; subst.
    qcase (key y) (key x).
    + constructor; [assumption|]. constructor; [exact E|].
      eapply Forall_impl; [|exact Hy]. cbv beta. intros a Ha. lra.
    + constructor; [now apply IH|].
      apply (Permutation_Forall (insert_by_perm x r)).
      constructor; [lra|assumption].
Qed.

Lemma sort_by_sorted (l : list A) :
  StronglySorted (fun a b => key b <= key a) (sort_by key l).
Proof.
  induction l as [|x r IH]; cbn [sort_by fold_right]; [constructor|].
  now apply insert_by_sorted.
Qed.

Lemma insert_by_stable (k : Q) (x : A) (l : list A) :
  filter (fun a => Qeq_bool (key a) k) (insert_by key x l)
  = filter (fun a => Qeq_bool (key a) k) (x :: l).
Proof.
  induction l as [|y r IH]; [reflexivity|].
  cbn [insert_by]. qcase (key y) (key x); [reflexivity|].
  cbn [filter] in *. rewrite IH.
  destruct (Qeq_bool (key x) k) eqn:Ex; [|reflexivity].
  destruct (Qeq_bool (key y) k) eqn:Ey; [|reflexivity].
  apply Qeq_bool_eq in Ex, Ey. exfalso. lra.
Qed.

Lemma sort_by_stable (k : Q) (l : list A) :
  filter (fun a => Qeq_bool (key a) k) (sort_by key l)
  = filter (fun a => Qeq_bool (key a) k) l.
Proof.
  induction l as [|x r IH]; [reflexivity|].
  cbn [sort_by fold_right]. rewrite insert_by_stable. cbn [filter].
  fold (sort_by key r). now rewrite IH.
Qed.

End SortByFacts.

(** Case analysis on the profile lookup of main.py. *)
Ltac main_profile_cases name :=
  unfold Py.get, Scoring.POLITICIAN_PROFILES;
  destruct (String.eqb "Nancy Pelosi" name);
  [|destruct (String.eqb "Dan Crenshaw" name);
    [|destruct (String.eqb "Tommy Tuberville" name);
      [|destruct (String.eqb "Josh Gottheimer" name);
        [|destruct (String.eqb "Michael McCaul" name)]]]].

Lemma accumulate_range clusters t :
  2 <= fst (Scoring.accumulate clusters t) <= 922 # 10.
Proof.
  unfold Scoring.accumulate.
  set (unique := Py.distinct (Py.get_default clusters (symbol t) [])).
  set (stocks := Py.get_default Scoring.COMMITTEE_STOCKS (committee t) []).
  main_profile_cases (politician t);
    (destruct (1000000 <=? avg_amount t)%Z;
     [|destruct (250000 <=? avg_amount t)%Z; [|destruct (50000 <=? avg_amount t)%Z]]);
    destruct (is_option t);
    (destruct (is_suspiciously_late t); [|destruct (is_late t)]);
    destruct (Py.mem (symbol t) stocks);
    (destruct (3 <=? List.length unique)%nat; [|destruct (List.length unique =? 2)%nat]);
    cbn [fst]; split; vm_compute; discriminate.
Qed.

Lemma main_evaluate_some clusters t s :
  Scoring.evaluate clusters t = Some s ->
  Paper.sig_trade s = t
  /\ Paper.sig_score s = fst (Scoring.accumulate clusters t)
  /\ Paper.sig_reasons s = snd (Scoring.accumulate clusters t)
  /\ Spec.tier_of (Paper.sig_score s)
     = Some (Paper.sig_recommendation s, Paper.sig_urgency s, Paper.sig_size s).
Proof.
  unfold Scoring.evaluate, Spec.tier_of.
  pose proof (accumulate_range clusters t) as (_ & Hhi).
  destruct (Scoring.accumulate clusters t) as [score reasons]. cbn [fst snd] in *.
  assert (Hmin : Py.min score 100 = score).
  { unfold Py.min. qltcase 100 score; [exfalso; lra|reflexivity]. }
  rewrite Hmin.
  destruct (Qle_bool 80 score) eqn:E80;
    [intros [= <-]; cbn; rewrite E80; auto|].
  destruct (Qle_bool 65 score) eqn:E65;
    [intros [= <-]; cbn; rewrite E80, E65; auto|].
  destruct (Qle_bool 40 score) eqn:E40;
    [intros [= <-]; cbn; rewrite E80, E65, E40; auto|discriminate].
Qed.

Lemma main_loop_signals clusters (purchases : list PoliticianTrade) :
  forall signals seen,
  Forall (fun t => is_purchase t = true) purchases ->
  fst (fold_left (Scoring.step clusters) purchases (signals, seen))
  = signals ++ flat_map (fun t => match Scoring.evaluate clusters t with
                                  | Some s => [s]
                                  | None => []
                                  end)
                        (candidates seen purchases).
Proof.
  induction purchases as [|t r IH]; intros signals seen Hp; cbn [fold_left candidates].
  - cbn. now rewrite app_nil_r.
  - inversion Hp as [|? ? Ht Hr]; subst. rewrite Ht. cbn [negb Scoring.step].
    destruct (SignalEngine.key_in _ _); [now apply IH|].
    cbn [flat_map]. destruct (Scoring.evaluate clusters t).
    + rewrite IH by assumption. now rewrite <- app_assoc.
    + now apply IH.
Qed.

Lemma emitted_keys_nodup {S : Type} (em : PoliticianTrade -> option S)
      (tr : S -> PoliticianTrade) (l : list PoliticianTrade) :
  (forall t s, em t = Some s -> tr s = t) ->
  NoDup (map SignalEngine.dedup_key l) ->
  NoDup (map (fun s => SignalEngine.dedup_key (tr s))
             (flat_map (fun t => match em t with Some s => [s] | None => [] end) l)).
Proof.
  intros Htr. induction l as [|t r IH]; cbn [map flat_map]; intros Hnd; [constructor|].
  inversion Hnd as [|? ? Ht Hr]; subst.
  destruct (em t) as [s|] eqn:E; cbn [app map]; [|now apply IH].
  rewrite (Htr _ _ E). constructor; [|now apply IH].
  intros H. apply Ht. apply in_map_iff in H. destruct H as (s' & Hk & Hs').
  apply in_flat_map in Hs'. destruct Hs' as (t' & Ht' & Hs').
  destruct (em t') as [s''|] eqn:E'; [|destruct Hs'].
  destruct Hs' as [<-|[]]. rewrite <- Hk, (Htr _ _ E'). now apply in_map.
Qed.

Lemma score_trades_unfold trades :
  Scoring.score_trades trades
  = sort_by Paper.sig_score
      (flat_map (fun t => match Scoring.evaluate
                                  (Scoring.build_clusters (filter is_purchase trades)) t with
                          | Some s => [s]
                          | None => []
                          end)
                (candidates [] trades)).
Proof.
  unfold Scoring.score_trades.
  assert (Hp : Forall (fun t => is_purchase t = true) (filter is_purchase trades)).
  { apply Forall_forall. intros t Ht. now apply filter_In in Ht. }
  rewrite <- (candidates_of_purchases trades).
  destruct (filter is_purchase trades) as [|t0 r] eqn:F; [reflexivity|].
  now rewrite main_loop_signals.
Qed.

Lemma in_score_trades trades s :
  In s (Scoring.score_trades trades) ->
  In (Paper.sig_trade s) (candidates [] trades)
  /\ Scoring.evaluate (Scoring.build_clusters (filter is_purchase trades)) (Paper.sig_trade s)
     = Some s.
Proof.
  rewrite score_trades_unfold. intros H.
  apply (Permutation_in _ (Permutation_sym (sort_by_perm _ _))) in H.
  apply in_flat_map in H. destruct H as (t & Ht & Hs).
  destruct (Scoring.evaluate _ t) as [s'|] eqn:E; [|destruct Hs].
  destruct Hs as [<-|[]].
  destruct (main_evaluate_some _ _ _ E) as (-> & _). now split.
Qed.

(** X25. Every signal of [score_trades] carries a purchase of the input, a
    score between 40 and 92.2, and the tier, urgency and size of that score
    (boundaries at 80, 65 and 40); the score is the plain sum of the six
    rules: the clamp at 100 never applies. *)
Theorem score_trades_scores (trades : list PoliticianTrade) :
  Forall (fun s =>
            In (Paper.sig_trade s) trades
            /\ is_purchase (Paper.sig_trade s) = true
            /\ Paper.sig_score s
               = fst (Scoring.accumulate (Scoring.build_clusters (filter is_purchase trades))
                                         (Paper.sig_trade s))
            /\ 40 <= Paper.sig_score s <= 922 # 10
            /\ Spec.tier_of (Paper.sig_score s)
               = Some (Paper.sig_recommendation s, Paper.sig_urgency s, Paper.sig_size s))
         (Scoring.score_trades trades).
Proof.
  apply Forall_forall. intros s Hs.
  apply in_score_trades in Hs. destruct Hs as (Hc & Hev).
  apply candidates_purchase in Hc.
  destruct (main_evaluate_some _ _ _ Hev) as (_ & Hsc & _ & Htier).
  pose proof (tier_of_some _ _ Htier) as H40.
  pose proof (accumulate_range (Scoring.build_clusters (filter is_purchase trades))
                               (Paper.sig_trade s)) as (_ & Hhi).
  rewrite <- Hsc in Hhi. tauto.
Qed.

(** X26. [score_trades] returns its signals by descending score, equal
    scores in the order they were found, with at most one signal per
    (symbol, transaction date), taken from the first purchase of that pair. *)
Theorem score_trades_sorted_and_deduplicated (trades : list PoliticianTrade) :
  let out := Scoring.score_trades trades in
  StronglySorted (fun a b => Paper.sig_score b <= Paper.sig_score a) out
  /\ (forall (sym : string) (day : Z),
        (List.length (filter (fun s => SignalEngine.key_eqb
                                         (SignalEngine.dedup_key (Paper.sig_trade s))
                                         (sym, day)) out) <= 1)%nat)
  /\ Forall (fun s =>
               find (fun u => is_purchase u
                              && SignalEngine.key_eqb (SignalEngine.dedup_key u)
                                   (SignalEngine.dedup_key (Paper.sig_trade s))) trades
               = Some (Paper.sig_trade s)) out
  /\ (forall k : Q,
        filter (fun s => Qeq_bool (Paper.sig_score s) k) out
        = filter (fun s => Qeq_bool (Paper.sig_score s) k)
            (flat_map (fun t => match Scoring.evaluate
                                        (Scoring.build_clusters (filter is_purchase trades))
                                        t with
                                | Some s => [s]
                                | None => []
                                end)
                      (candidates [] trades))).
Proof.
  intros out. split; [|split; [|split]].
  - unfold out. rewrite score_trades_unfold. apply sort_by_sorted.
  - intros sym day. apply nodup_filter_key.
    unfold out. rewrite score_trades_unfold.
    eapply Permutation_NoDup; [apply Permutation_map, sort_by_perm|].
    apply emitted_keys_nodup; [|apply candidates_nodup].
    intros t s E. now destruct (main_evaluate_some _ _ _ E).
  - apply Forall_forall. intros s Hs. apply in_score_trades in Hs.
    destruct Hs as (Hc & _). now apply candidates_first with (seen := []).
  - intros k. unfold out. rewrite score_trades_unfold. apply sort_by_stable.
Qed.

(** The two scoring stacks part on a pair of buyers: main.py adds 10 for two
    politicians where the engine's cluster bonus is 16. *)
Example score_trades_pair_bonus :
  map (fun s => (Paper.sig_score s, Paper.sig_recommendation s))
      (Scoring.score_trades [late_option_pelosi; purchase_on "Pat Toomey" "NVDA" 95])
  = [(8220 # 100, "STRONG BUY")].
Proof. reflexivity. Qed.

(* ------------------------------------------------------------------ *)
(** ** data/fetcher.py: what fetch_recent lets through *)

Lemma in_fetch_all Item parse today house senate days_back t :
  In t (fetch_all Item parse today house senate days_back) ->
  (today - days_back <= transaction_date t)%Z.
Proof.
  unfold fetch_all. rewrite in_app_iff.
  assert (H : forall raw ch, In t (_parse Item parse raw ch (today - days_back)) ->
                             (today - days_back <= transaction_date t)%Z).
  { intros raw ch Hin. unfold _parse in Hin. apply in_flat_map in Hin.
    destruct Hin as (item & _ & Hin).
    destruct (parse item ch) as [[t'|]|]; try destruct Hin.
    destruct (_ <=? _)%Z eqn:E; [|destruct Hin].
    destruct Hin as [<-|[]]. now apply Z.leb_le. }
  intros [Hin|Hin]; [destruct house|destruct senate]; try destruct Hin; eauto.
Qed.

(** X27. A trade returned by [fetch_recent] was disclosed in the last
    [days] days and transacted in the last [days + 50]; so when it is not
    disclosed after today and carries the delay that [_parse_item] computes,
    its filing delay is at most [days + 50].  For the bot's periodic check
    ([days] = 2) no new trade is more than 90 days late. *)
Theorem fetch_recent_bounds_the_delay (Item : Type)
        (parse : Item -> string -> outcome (option PoliticianTrade))
        (today : Z) (house senate : option (list Item)) (days : Z) (t : PoliticianTrade) :
  In t (fetch_recent Item parse today house senate days) ->
  (today - days <= disclosure_date t)%Z
  /\ (today - (days + 50) <= transaction_date t)%Z
  /\ ((disclosure_date t <= today)%Z ->
      filing_delay_days t = filing_delay (disclosure_date t) (transaction_date t) ->
      (filing_delay_days t <= Z.max 0 (days + 50))%Z
      /\ ((days <= 40)%Z -> is_suspiciously_late t = false)).
Proof.
  unfold fetch_recent. intros Hin. apply filter_In in Hin. destruct Hin as (Hin & Hd).
  apply Z.leb_le in Hd. apply in_fetch_all in Hin.
  split; [exact Hd|]. split; [exact Hin|].
  intros Htoday Hdelay. unfold filing_delay in Hdelay.
  assert (Hb : (filing_delay_days t <= Z.max 0 (days + 50))%Z).
  { destruct (_ <=? _)%Z; lia. }
  split; [exact Hb|]. intros Hdays. unfold is_suspiciously_late.
  apply Z.ltb_ge. lia.
Qed.

Lemma fetch_recent_bounds_the_delay_witness :
  In disclosed_yesterday
     (fetch_recent PoliticianTrade parse_as_is 100 (Some [disclosed_yesterday]) None 2)
  /\ (filing_delay_days disclosed_yesterday <= Z.max 0 (2 + 50))%Z
  /\ is_suspiciously_late disclosed_yesterday = false.
Proof.
  assert (Hin : In disclosed_yesterday
                  (fetch_recent PoliticianTrade parse_as_is 100
                                (Some [disclosed_yesterday]) None 2)).
  { vm_compute. now left. }
  split; [exact Hin|].
  destruct (fetch_recent_bounds_the_delay _ parse_as_is 100 (Some [disclosed_yesterday])
              None 2 disclosed_yesterday Hin) as (_ & _ & H).
  destruct (H ltac:(cbn; lia) eq_refl) as (H1 & H2).
  split; [exact H1|]. apply H2. lia.
Defined.

(* ------------------------------------------------------------------ *)
(** ** PolitibotTrader.execute_signal, twice *)

(** X28. A signal that was just executed is rejected when executed again,
    whatever the price source then says, and the rejection leaves the
    position as it is: one symbol, one open position. *)
Theorem execute_signal_twice (w w' : World) (self self1 : PolitibotTrader.t)
        (s : TradeSignal) (tr : ExecutedTrade) :
  PolitibotTrader.execute_signal w self s = (Returned (Some tr), self1) ->
  PolitibotTrader.execute_signal w' self1 s = (Returned None, self1)
  /\ Py.get (PolitibotTrader._positions self1) (symbol (trade s)) = Some tr.
Proof.
  intros Hex.
  destruct (execute_signal_executed _ _ _ _ _ Hex)
    as (price & _ & _ & _ & _ & _ & _ & _ & _ & _ & _ & ->).
  assert (Hg : Py.get (Py.set (PolitibotTrader._positions self) (symbol (trade s)) tr)
                      (symbol (trade s)) = Some tr)
    by now rewrite get_set, String.eqb_refl.
  split; [|exact Hg].
  unfold PolitibotTrader.execute_signal.
  cbn [PolitibotTrader._positions]. unfold Py.has_key. rewrite Hg.
  now destruct (_ <=? _)%nat.
Qed.

Lemma execute_signal_twice_witness :
  PolitibotTrader.execute_signal (world_at (Some 150)) after_buy buy_nvda
  = (Returned None, after_buy).
Proof.
  destruct (PolitibotTrader.execute_signal (world_at (Some 100))
              (PolitibotTrader.init 100000 true) buy_nvda) as [[[tr|]|] self1] eqn:E;
    try (vm_compute in E; discriminate E).
  assert (Hs : self1 = after_buy) by (unfold after_buy; now rewrite E).
  rewrite <- Hs.
  apply (execute_signal_twice _ (world_at (Some 150)) _ _ _ _ E).
Defined.
